(** * The projection engine of [app/services/simulation_engine.py]

    A shallow embedding of [SimulationEngine] and of the few Python and
    NumPy operations it calls, followed by the properties of the engine.

    Numbers.  Python's [int] is [Z].  Python's [float] is modelled by the
    exact rationals [Q]: every arithmetic step is the one of the source,
    without the rounding error of binary64, and without infinities or NaN.
    Where NumPy would answer NaN (a statistic of an empty sample) the model
    stops with an exception of its own, [NanResult].  A figure rounded to
    two decimals can therefore differ from the one of the machine in its
    last digit, when the exact number is a tie that binary64 misses.  The
    properties stated over the rationals are the ones that do not depend
    on that digit: keys, counts, order, bounds, which input feeds which
    figure.  The formulas of the yearly loop of a relocation, which do
    depend on it, are stated over the arithmetic of binary64 taken as a
    parameter (module [Binary64], at the end of the definitions).

    Randomness.  [np.random.normal] reads and advances a global generator;
    here the generator is an explicit state holding the sequence of standard
    normal variates it will deliver.

    Text.  Strings are ASCII; [lower] is [str.lower] on ASCII text.

    Beyond the engine, the file embeds what surrounds it: the portfolio
    metrics of [app/services/financial_data_service.py], the cache of
    external data and the mock language model of
    [app/services/llm_service.py], the steps of the endpoint
    [create_simulation] that feed the engine, and the periodic cleanup of
    [app/services/celery_worker.py].  The database is a state holding the
    table of cached rows and the readings of the clock. *)

From Stdlib Require Import Ascii String ZArith QArith Qround Qpower Lia Lqa.
From stdpp Require Import base tactics option list sorting gmap strings fin_maps.

#[local] Open Scope Z_scope.

(** ** Python builtins *)

Module Py.

(** [str.lower], character by character: the letters [A]..[Z] move to
    [a]..[z], every other character stays. *)
Definition lower_ascii (c : ascii) : ascii :=
  let n := nat_of_ascii c in
  if ((65 <=? n)%nat && (n <=? 90)%nat)%bool then ascii_of_nat (n + 32) else c.

Fixpoint lower (s : string) : string :=
  match s with
  | EmptyString => EmptyString
  | String c s' => String (lower_ascii c) (lower s')
  end.

(** [range(a, b)]: the integers [a], [a+1], ..., [b-1]; empty when [b <= a]. *)
Definition range (a b : Z) : list Z :=
  (fun i => a + Z.of_nat i) <$> seq 0 (Z.to_nat (b - a)).

(** [enumerate(l)] *)
Definition enumerate {A} (l : list A) : list (Z * A) :=
  imap (fun i x => (Z.of_nat i, x)) l.

(** Rounding to the nearest integer, ties to the even one. *)
Definition round_half_even (x : Q) : Z :=
  let f := Qfloor x in
  let r := (x - inject_Z f)%Q in
  match (r ?= 1 # 2)%Q with
  | Lt => f
  | Gt => f + 1
  | Eq => if Z.even f then f else f + 1
  end.

(** [round(x, ndigits)] for a float [x] and [ndigits >= 0]. *)
Definition round (x : Q) (ndigits : nat) : Q :=
  let scale := 10 ^ Z.of_nat ndigits in
  inject_Z (round_half_even (x * inject_Z scale)) / inject_Z scale.

(** [sum(d.values())] of a dict of numbers. *)
Definition sum_values (d : gmap string Q) : Q :=
  map_fold (fun _ v acc => acc + v)%Q 0%Q d.

(** Truth value of a dict: empty is false. *)
Definition truthy (d : gmap string Q) : bool := bool_decide (d ≠ ∅).

End Py.

(** ** Exceptions and the generator state *)

Inductive exn : Type :=
| ZeroDivisionError   (* float division by zero *)
| NanResult.          (* a NumPy statistic of an empty sample *)

Inductive result (A : Type) : Type :=
| Return (a : A)
| Raise (e : exn).
Arguments Return {A} a.
Arguments Raise {A} e.

#[global] Instance result_ret : MRet result := @Return.
#[global] Instance result_bind : MBind result := fun A B k c =>
  match c with
  | Return a => k a
  | Raise e => Raise e
  end.

(** The state of NumPy's global generator: the standard normal variates it
    delivers, and how many were consumed. *)
Record rng : Type := Rng { variates : nat -> Q; consumed : nat }.

(** Computations that draw from the generator and may raise. *)
Definition M (A : Type) : Type := rng -> result (A * rng).

#[global] Instance M_ret : MRet M := fun A a g => Return (a, g).
#[global] Instance M_bind : MBind M := fun A B k c g =>
  match c g with
  | Return (a, g') => k a g'
  | Raise e => Raise e
  end.

(** A computation that does not draw. *)
Definition lift {A} (r : result A) : M A :=
  fun g => match r with
           | Return a => Return (a, g)
           | Raise e => Raise e
           end.

(** A [for] loop whose body updates the loop-carried variables [s]. *)
Fixpoint for_each {A S} (l : list A) (body : S -> A -> M S) (s : S) : M S :=
  match l with
  | [] => mret s
  | x :: l' => s' ← body s x; for_each l' body s'
  end.

(** ** NumPy *)

#[global] Instance Qle_dec : RelDecision Qle := fun x y =>
  match Qlt_le_dec y x with
  | left H => right (Qlt_not_le _ _ H)
  | right H => left H
  end.

#[global] Instance Qlt_dec : RelDecision Qlt := fun x y =>
  match Qlt_le_dec x y with
  | left H => left H
  | right H => right (Qle_not_lt _ _ H)
  end.

Module Np.

#[local] Open Scope Q_scope.

(** [np.random.normal(loc, scale)]: the next standard normal variate,
    scaled and shifted. *)
Definition random_normal (loc scale : Q) : M Q :=
  fun g => Return (loc + scale * variates g (consumed g),
                   Rng (variates g) (S (consumed g))).

Definition sum (a : list Q) : Q := foldr Qplus 0 a.

Definition size (a : list Q) : Q := inject_Z (Z.of_nat (length a)).

(** [np.mean(a)] *)
Definition mean (a : list Q) : result Q :=
  match a with
  | [] => Raise NanResult
  | _ => Return (sum a / size a)
  end.

(** [np.array(a) < ref], as the 0/1 array whose mean is taken. *)
Definition less (a : list Q) (ref : Q) : list Q :=
  (fun v => if decide (v < ref) then 1 else 0) <$> a.

(** [np.percentile(a, q)], default (linear) method: the sorted sample is
    read at the virtual index [(n - 1) * q / 100], interpolating between
    the two neighbours; an index past the end reads the last element. *)
Definition take (arr : list Q) (i : Z) : Q :=
  nth (Z.to_nat i) arr (List.last arr 0).

Definition interpolate (arr : list Q) (virtual_index : Q) : Q :=
  let previous_index := Qfloor virtual_index in
  let next_index := (previous_index + 1)%Z in
  let gamma := virtual_index - inject_Z previous_index in
  let previous := take arr previous_index in
  let next := take arr next_index in
  previous + (next - previous) * gamma.

Definition percentile (a : list Q) (q : Q) : result Q :=
  match a with
  | [] => Raise NanResult
  | _ => Return (interpolate (merge_sort Qle a) ((size a - 1) * (q / 100)))
  end.

(** [np.std(a)]: the population standard deviation. *)
Definition squared_deviations (a : list Q) (arrmean : Q) : list Q :=
  (fun v => (v - arrmean) * (v - arrmean)) <$> a.

Section Sqrt.
(** The square root is not a rational function: it is a parameter. *)
Variable sqrt : Q -> Q.

Definition std (a : list Q) : result Q :=
  arrmean ← mean a;
  Return (sqrt (sum (squared_deviations a arrmean) / size a)).

End Sqrt.

End Np.

(** ** The engine *)

Inductive DecisionType : Type := RELOCATION | PURCHASE | JOB | INVESTMENT.

(** Leaves of the result dicts. *)
Inductive value : Type :=
| VInt (z : Z)
| VFloat (q : Q)
| VStr (s : string).

(** [structured_data]: the keys the engine reads, each possibly absent. *)
Record StructuredData : Type := {
  cities : option (list string);
  user_context : option (gmap string Q);
  options : option (list string);
  budget : option Q;
  amount : option Q
}.

(** [external_data]: city (lower case) to named figures. *)
Record ExternalData : Type := {
  cost_of_living : option (gmap string (gmap string Q));
  tax_rates : option (gmap string (gmap string Q))
}.

(** The dict the engine returns. *)
Record SimulationOutput : Type := {
  projections : gmap string (list (gmap string value));
  monte_carlo : option (gmap string (gmap string Q));
  metadata : gmap string value
}.

(** [self], as [__init__] fills it (lines 10-16): the two values are stored
    as given. *)
Record SimulationEngine : Type := {
  time_horizon : Z;
  monte_carlo_runs : Z
}.

Definition __init__ (time_horizon_years monte_carlo_runs : Z) : SimulationEngine :=
  {| time_horizon := time_horizon_years; monte_carlo_runs := monte_carlo_runs |}.

(** [a / b] on floats *)
Definition truediv (a b : Q) : result Q :=
  if Qeq_bool b 0 then Raise ZeroDivisionError else Return (a / b)%Q.

Section Engine.

Variable sqrt : Q -> Q.
Variable self : SimulationEngine.

#[local] Open Scope Q_scope.

(** *** Monte Carlo (lines 247-331) *)

(** The [return] of [_run_monte_carlo_savings] (lines 274-282). *)
Definition savings_summary (final_savings : list Q) : result (gmap string Q) :=
  mean ← Np.mean final_savings;
  std ← Np.std sqrt final_savings;
  p5 ← Np.percentile final_savings 5;
  p25 ← Np.percentile final_savings 25;
  p50 ← Np.percentile final_savings 50;
  p75 ← Np.percentile final_savings 75;
  p95 ← Np.percentile final_savings 95;
  Return {[ "mean" := Py.round mean 2;
            "std" := Py.round std 2;
            "p5" := Py.round p5 2;
            "p25" := Py.round p25 2;
            "p50" := Py.round p50 2;
            "p75" := Py.round p75 2;
            "p95" := Py.round p95 2 ]}.

Definition savings_year (tax_rate : Q) (st : Q * Q * Q) (year : Z) : M (Q * Q * Q) :=
  let '(cumulative_savings, salary, cost) := st in
  salary_growth ← Np.random_normal (2 # 100) (2 # 100);
  inflation ← Np.random_normal (3 # 100) (1 # 100);
  let salary := salary * (1 + salary_growth) in
  let cost := cost * (1 + inflation) in
  let net_income := salary * (1 - tax_rate) in
  mret (cumulative_savings + (net_income - cost), salary, cost).

Definition savings_run (base_salary yearly_cost tax_rate : Q)
    (final_savings : list Q) (_ : Z) : M (list Q) :=
  st ← for_each (Py.range 0 (time_horizon self)) (savings_year tax_rate)
                (0, base_salary, yearly_cost);
  mret (final_savings ++ [st.1.1]).

Definition _run_monte_carlo_savings (base_salary yearly_cost tax_rate : Q)
    : M (gmap string Q) :=
  final_savings ← for_each (Py.range 0 (monte_carlo_runs self))
                           (savings_run base_salary yearly_cost tax_rate) [];
  lift (savings_summary final_savings).

(** The [return] of [_run_monte_carlo_salary] (lines 299-304). *)
Definition salary_summary (final_salaries : list Q) : result (gmap string Q) :=
  mean ← Np.mean final_salaries;
  std ← Np.std sqrt final_salaries;
  p5 ← Np.percentile final_salaries 5;
  p95 ← Np.percentile final_salaries 95;
  Return {[ "mean" := Py.round mean 2;
            "std" := Py.round std 2;
            "p5" := Py.round p5 2;
            "p95" := Py.round p95 2 ]}.

Definition salary_year (expected_growth : Q) (salary : Q) (year : Z) : M Q :=
  growth ← Np.random_normal expected_growth (3 # 100);
  mret (salary * (1 + growth)).

Definition salary_run (base_salary expected_growth : Q)
    (final_salaries : list Q) (_ : Z) : M (list Q) :=
  salary ← for_each (Py.range 0 (time_horizon self)) (salary_year expected_growth)
                    base_salary;
  mret (final_salaries ++ [salary]).

Definition _run_monte_carlo_salary (base_salary expected_growth : Q)
    : M (gmap string Q) :=
  final_salaries ← for_each (Py.range 0 (monte_carlo_runs self))
                            (salary_run base_salary expected_growth) [];
  lift (salary_summary final_salaries).

(** The [return] of [_run_monte_carlo_investment] (lines 322-331). *)
Definition investment_summary (final_values : list Q) (initial_amount : Q)
    : result (gmap string Q) :=
  mean ← Np.mean final_values;
  std ← Np.std sqrt final_values;
  p5 ← Np.percentile final_values 5;
  p25 ← Np.percentile final_values 25;
  p50 ← Np.percentile final_values 50;
  p75 ← Np.percentile final_values 75;
  p95 ← Np.percentile final_values 95;
  loss ← Np.mean (Np.less final_values initial_amount);
  Return {[ "mean" := Py.round mean 2;
            "std" := Py.round std 2;
            "p5" := Py.round p5 2;
            "p25" := Py.round p25 2;
            "p50" := Py.round p50 2;
            "p75" := Py.round p75 2;
            "p95" := Py.round p95 2;
            "prob_loss" := Py.round (loss * 100) 2 ]}.

Definition investment_year (expected_return volatility : Q) (value : Q) (year : Z)
    : M Q :=
  annual_return ← Np.random_normal expected_return volatility;
  mret (value * (1 + annual_return)).

Definition investment_run (initial_amount expected_return volatility : Q)
    (final_values : list Q) (_ : Z) : M (list Q) :=
  value ← for_each (Py.range 0 (time_horizon self))
                   (investment_year expected_return volatility) initial_amount;
  mret (final_values ++ [value]).

Definition _run_monte_carlo_investment (initial_amount expected_return volatility : Q)
    : M (gmap string Q) :=
  final_values ← for_each (Py.range 0 (monte_carlo_runs self))
                   (investment_run initial_amount expected_return volatility) [];
  lift (investment_summary final_values initial_amount).

(** *** Relocation (lines 37-97) *)

(** Lines 49-58: what the loop body reads for one city. *)
Definition col_of (external_data : ExternalData) (city_lower : string) : gmap string Q :=
  default ∅ (default ∅ (cost_of_living external_data) !! city_lower).

Definition tax_of (external_data : ExternalData) (city_lower : string) : gmap string Q :=
  default ∅ (default ∅ (tax_rates external_data) !! city_lower).

Definition monthly_cost_of (col : gmap string Q) : Q :=
  if Py.truthy col then Py.sum_values col else 2000.

Definition effective_tax_of (tax : gmap string Q) : Q :=
  default (30 # 100) (tax !! "effective_rate"%string).

Definition base_salary_of (structured_data : StructuredData) : Q :=
  default 80000 (default ∅ (user_context structured_data) !! "salary"%string).

(** Lines 64-70: the quantities of one year. *)
Record relocation_figures : Type := {
  adjusted_salary : Q;
  adjusted_cost : Q;
  net_income : Q;
  savings : Q
}.

Definition relocation_figures_of (base_salary yearly_cost effective_tax : Q) (year : Z)
    : relocation_figures :=
  let inflation_factor := (103 # 100) ^ year in
  let salary_factor := (102 # 100) ^ year in
  let adjusted_salary := base_salary * salary_factor in
  let adjusted_cost := yearly_cost * inflation_factor in
  let net_income := adjusted_salary * (1 - effective_tax) in
  let savings := net_income - adjusted_cost in
  {| adjusted_salary := adjusted_salary; adjusted_cost := adjusted_cost;
     net_income := net_income; savings := savings |}.

(** Lines 72-79: the dict appended for one year. *)
Definition relocation_point (year : Z) (f : relocation_figures) : gmap string value :=
  {[ "year" := VInt year;
     "gross_income" := VFloat (Py.round (adjusted_salary f) 2);
     "net_income" := VFloat (Py.round (net_income f) 2);
     "total_expenses" := VFloat (Py.round (adjusted_cost f) 2);
     "savings" := VFloat (Py.round (savings f) 2);
     "cumulative_savings" := VFloat (Py.round (savings f * inject_Z year) 2) ]}.

Definition relocation_year (base_salary yearly_cost effective_tax : Q)
    (yearly_projections : list (gmap string value)) (year : Z)
    : list (gmap string value) :=
  yearly_projections ++
    [relocation_point year (relocation_figures_of base_salary yearly_cost effective_tax year)].

Definition relocation_projection (base_salary yearly_cost effective_tax : Q)
    : list (gmap string value) :=
  fold_left (relocation_year base_salary yearly_cost effective_tax)
            (Py.range 1 (time_horizon self + 1)) [].

Definition relocation_city (structured_data : StructuredData) (external_data : ExternalData)
    (st : gmap string (list (gmap string value)) * gmap string (gmap string Q))
    (city : string)
    : M (gmap string (list (gmap string value)) * gmap string (gmap string Q)) :=
  let '(projections, monte_carlo_results) := st in
  let city_lower := Py.lower city in
  let col := col_of external_data city_lower in
  let tax := tax_of external_data city_lower in
  let monthly_cost := monthly_cost_of col in
  let yearly_cost := monthly_cost * 12 in
  let effective_tax := effective_tax_of tax in
  let base_salary := base_salary_of structured_data in
  let yearly_projections := relocation_projection base_salary yearly_cost effective_tax in
  let projections := <[city := yearly_projections]> projections in
  mc_results ← _run_monte_carlo_savings base_salary yearly_cost effective_tax;
  mret (projections, <[city := mc_results]> monte_carlo_results).

Definition _simulate_relocation (structured_data : StructuredData)
    (external_data : ExternalData) (utcnow : string) : M SimulationOutput :=
  let cities := default [] (cities structured_data) in
  st ← for_each cities (relocation_city structured_data external_data) (∅, ∅);
  mret {| projections := st.1;
          monte_carlo := Some st.2;
          metadata := {[ "time_horizon_years" := VInt (time_horizon self);
                         "monte_carlo_runs" := VInt (monte_carlo_runs self);
                         "simulation_date" := VStr utcnow ]} |}.

(** *** Purchase (lines 99-140) *)

Definition purchase_year (yearly_maintenance depreciation_rate : Q)
    (st : list (gmap string value) * Q * Q) (year : Z)
    : list (gmap string value) * Q * Q :=
  let '(yearly_projections, current_value, total_cost) := st in
  let current_value := current_value * (1 - depreciation_rate) in
  let total_cost := total_cost + yearly_maintenance in
  (yearly_projections ++
     [ {[ "year" := VInt year;
          "current_value" := VFloat (Py.round current_value 2);
          "maintenance_cost" := VFloat (Py.round yearly_maintenance 2);
          "total_cost_to_date" := VFloat (Py.round total_cost 2);
          "net_value" := VFloat (Py.round (current_value - total_cost) 2) ]} ],
   current_value, total_cost).

Definition purchase_option (budget : Q)
    (projections : gmap string (list (gmap string value))) (ix : Z * string)
    : gmap string (list (gmap string value)) :=
  let '(i, opt) := ix in
  let initial_cost := budget * ((8 # 10) + inject_Z i * (2 # 10)) in
  let yearly_maintenance := initial_cost * (5 # 100) in
  let depreciation_rate := 15 # 100 in
  let st := fold_left (purchase_year yearly_maintenance depreciation_rate)
                      (Py.range 1 (time_horizon self + 1))
                      ([], initial_cost, initial_cost) in
  <[opt := st.1.1]> projections.

Definition _simulate_purchase (structured_data : StructuredData)
    (external_data : ExternalData) (utcnow : string) : SimulationOutput :=
  let options := default [] (options structured_data) in
  let budget := default 50000 (budget structured_data) in
  let projections := fold_left (purchase_option budget) (Py.enumerate options) ∅ in
  {| projections := projections;
     monte_carlo := None;
     metadata := {[ "time_horizon_years" := VInt (time_horizon self);
                    "simulation_date" := VStr utcnow ]} |}.

(** *** Job (lines 142-184) *)

Definition job_year (base_salary growth_rate : Q)
    (st : list (gmap string value) * Q) (year : Z)
    : list (gmap string value) * Q :=
  let '(yearly_projections, cumulative_earnings) := st in
  let current_salary := base_salary * ((1 + growth_rate) ^ year) in
  let cumulative_earnings := cumulative_earnings + current_salary in
  (yearly_projections ++
     [ {[ "year" := VInt year;
          "salary" := VFloat (Py.round current_salary 2);
          "cumulative_earnings" := VFloat (Py.round cumulative_earnings 2);
          "growth_rate" := VFloat (Py.round (growth_rate * 100) 1) ]} ],
   cumulative_earnings).

Definition job_option
    (st : gmap string (list (gmap string value)) * gmap string (gmap string Q))
    (ix : Z * string)
    : M (gmap string (list (gmap string value)) * gmap string (gmap string Q)) :=
  let '(projections, monte_carlo_results) := st in
  let '(i, opt) := ix in
  let base_salary := inject_Z (70000 + i * 15000) in
  let growth_rate := (5 # 100) + inject_Z i * (2 # 100) in
  let yst := fold_left (job_year base_salary growth_rate)
                       (Py.range 1 (time_horizon self + 1)) ([], 0) in
  let projections := <[opt := yst.1]> projections in
  mc_results ← _run_monte_carlo_salary base_salary growth_rate;
  mret (projections, <[opt := mc_results]> monte_carlo_results).

Definition _simulate_job (structured_data : StructuredData)
    (external_data : ExternalData) (utcnow : string) : M SimulationOutput :=
  let options := default [] (options structured_data) in
  st ← for_each (Py.enumerate options) job_option (∅, ∅);
  mret {| projections := st.1;
          monte_carlo := Some st.2;
          metadata := {[ "time_horizon_years" := VInt (time_horizon self);
                         "monte_carlo_runs" := VInt (monte_carlo_runs self);
                         "simulation_date" := VStr utcnow ]} |}.

(** *** Investment (lines 186-245) *)

(** [(return, volatility)] by asset class. *)
Definition investment_params : gmap string (Q * Q) :=
  {[ "stocks" := (10 # 100, 20 # 100);
     "bonds" := (5 # 100, 5 # 100);
     "real_estate" := (7 # 100, 10 # 100);
     "crypto" := (15 # 100, 50 # 100) ]}.

Definition params_of (opt : string) : Q * Q :=
  let option_lower := Py.lower opt in
  default (6 # 100, 12 # 100) (investment_params !! option_lower).

Definition investment_det_year (amount expected_return : Q)
    (st : list (gmap string value) * Q) (year : Z)
    : M (list (gmap string value) * Q) :=
  let '(yearly_projections, current_value) := st in
  let current_value := current_value * (1 + expected_return) in
  ratio ← lift (truediv current_value amount);
  mret (yearly_projections ++
          [ {[ "year" := VInt year;
               "value" := VFloat (Py.round current_value 2);
               "total_return" := VFloat (Py.round (current_value - amount) 2);
               "return_percentage" := VFloat (Py.round ((ratio - 1) * 100) 2) ]} ],
        current_value).

Definition investment_option (amount : Q)
    (st : gmap string (list (gmap string value)) * gmap string (gmap string Q))
    (opt : string)
    : M (gmap string (list (gmap string value)) * gmap string (gmap string Q)) :=
  let '(projections, monte_carlo_results) := st in
  let params := params_of opt in
  let expected_return := params.1 in
  let volatility := params.2 in
  yst ← for_each (Py.range 1 (time_horizon self + 1))
                 (investment_det_year amount expected_return) ([], amount);
  let projections := <[opt := yst.1]> projections in
  mc_results ← _run_monte_carlo_investment amount expected_return volatility;
  mret (projections, <[opt := mc_results]> monte_carlo_results).

Definition _simulate_investment (structured_data : StructuredData)
    (external_data : ExternalData) (utcnow : string) : M SimulationOutput :=
  let options := default [] (options structured_data) in
  let amount := default 10000 (amount structured_data) in
  st ← for_each options (investment_option amount) (∅, ∅);
  mret {| projections := st.1;
          monte_carlo := Some st.2;
          metadata := {[ "time_horizon_years" := VInt (time_horizon self);
                         "monte_carlo_runs" := VInt (monte_carlo_runs self);
                         "initial_amount" := VFloat amount;
                         "simulation_date" := VStr utcnow ]} |}.

(** *** Dispatch (lines 18-35); the four values of the enumeration are the
    only inputs, so the final [raise ValueError] is never reached. *)

Definition run_simulation (decision_type : DecisionType)
    (structured_data : StructuredData) (external_data : ExternalData)
    (utcnow : string) : M SimulationOutput :=
  match decision_type with
  | RELOCATION => _simulate_relocation structured_data external_data utcnow
  | PURCHASE => mret (_simulate_purchase structured_data external_data utcnow)
  | JOB => _simulate_job structured_data external_data utcnow
  | INVESTMENT => _simulate_investment structured_data external_data utcnow
  end.

End Engine.

(** The option or city names a run iterates over. *)
Definition names_of (decision_type : DecisionType) (structured_data : StructuredData)
    : list string :=
  match decision_type with
  | RELOCATION => default [] (cities structured_data)
  | _ => default [] (options structured_data)
  end.

(** A square root on the rationals, rounded down to a multiple of 2^-32;
    used to run the engine on concrete inputs. *)
Definition sqrt_floor (x : Q) : Q :=
  (Z.sqrt (Qfloor (x * inject_Z (2 ^ 64))) # 2 ^ 32)%Q.

(** A generator that always delivers the variate [z]. *)
Definition constant_rng (z : Q) : rng := Rng (fun _ => z) 0.


(** ** Vocabulary of the statements *)

(** The year indices of a trajectory are [1], ..., [horizon], in order. *)
Definition well_numbered (horizon : Z) (pts : list (gmap string value)) : Prop :=
  (fun p => p !! "year"%string) <$> pts
  = (fun y => Some (VInt y)) <$> Py.range 1 (horizon + 1).

(** How many terminal values lie below the reference. *)
Definition count_below (xs : list Q) (ref : Q) : nat :=
  length (filter (fun v => v < ref)%Q xs).

(** The five percentiles of a summary are in increasing order. *)
Definition percentiles_ordered (s : gmap string Q) : Prop :=
  exists p5 p25 p50 p75 p95,
    s !! "p5"%string = Some p5 /\ s !! "p25"%string = Some p25 /\
    s !! "p50"%string = Some p50 /\ s !! "p75"%string = Some p75 /\
    s !! "p95"%string = Some p95 /\
    (p5 <= p25 /\ p25 <= p50 /\ p50 <= p75 /\ p75 <= p95)%Q.

Definition std_nonnegative (s : gmap string Q) : Prop :=
  exists std, s !! "std"%string = Some std /\ (0 <= std)%Q.

(** The trajectory a relocation run computes for a city. *)
Definition relocation_entry (self : SimulationEngine) (structured_data : StructuredData)
    (external_data : ExternalData) (city : string) : list (gmap string value) :=
  relocation_projection self
    (base_salary_of structured_data)
    (monthly_cost_of (col_of external_data (Py.lower city)) * 12)%Q
    (effective_tax_of (tax_of external_data (Py.lower city))).

(** [s] is the summary of some sample of [n] terminal values. *)
Definition summarises (summary : list Q -> result (gmap string Q)) (n : Z)
    (s : gmap string Q) : Prop :=
  exists xs, length xs = Z.to_nat n /\ summary xs = Return s.

(** The summary function a decision type applies to its samples; a
    purchase takes no sample. *)
Definition summary_of (sqrt : Q -> Q) (decision_type : DecisionType)
    (structured_data : StructuredData) : option (list Q -> result (gmap string Q)) :=
  match decision_type with
  | RELOCATION => Some (savings_summary sqrt)
  | PURCHASE => None
  | JOB => Some (salary_summary sqrt)
  | INVESTMENT =>
      Some (fun xs => investment_summary sqrt xs (default 10000%Q (amount structured_data)))
  end.

(** ** Concrete inputs *)

Definition no_external : ExternalData :=
  {| cost_of_living := None; tax_rates := None |}.

Definition options_only (l : list string) : StructuredData :=
  {| cities := None; user_context := None; options := Some l;
     budget := None; amount := None |}.

Definition cities_only (l : list string) : StructuredData :=
  {| cities := Some l; user_context := None; options := None;
     budget := None; amount := None |}.

Definition berlin_costs : gmap string Q :=
  {[ "rent" := 1200; "food" := 400; "transport" := 86 ]}%string%Q.

Definition berlin_taxes : gmap string Q :=
  {[ "income_tax" := 42 # 100; "effective_rate" := 35 # 100 ]}%string%Q.

(** Berlin's figures stored under the lower-case key, as the callers of the
    engine store them. *)
Definition external_lower : ExternalData :=
  {| cost_of_living := Some {[ "berlin"%string := berlin_costs ]};
     tax_rates := Some {[ "berlin"%string := berlin_taxes ]} |}.


(** An entry for Oslo without any component. *)
Definition external_empty_entry : ExternalData :=
  {| cost_of_living := Some {[ "oslo"%string := ∅ ]}; tax_rates := None |}.

(** [external_data] without the cost-of-living entry stored under [key]. *)
Definition without_cost_entry (key : string) (external_data : ExternalData) : ExternalData :=
  {| cost_of_living := delete key <$> cost_of_living external_data;
     tax_rates := tax_rates external_data |}.

(** ** Observing a run *)

Definition output_of (r : result (SimulationOutput * rng)) : option SimulationOutput :=
  match r with
  | Return (out, _) => Some out
  | Raise _ => None
  end.

(** The fields [keys] of a point. *)
Definition fields_of (keys : list string) (p : gmap string value) : list (option value) :=
  (fun key => p !! key) <$> keys.

(** The fields [keys] of the [i]-th point of the trajectory stored under [name]. *)
Definition point_fields (name : string) (i : nat) (keys : list string)
    (out : SimulationOutput) : option (list (option value)) :=
  pts ← projections out !! name; p ← pts !! i; Some (fields_of keys p).

(** The field [key] of the summary stored under [name]. *)
Definition summary_field (name key : string) (out : SimulationOutput) : option Q :=
  mc ← monte_carlo out; s ← mc !! name; s !! key.

(** A generator delivering -10, 0, -10, 0, ... *)
Definition alternating_rng : rng :=
  Rng (fun n => if Nat.even n then (-10)%Q else 0%Q) 0.

(** ** Vocabulary of the further properties *)

(** Two results agree: both return, with values related by [R], or both
    raise the same exception. *)
Definition agree {A} (R : A -> A -> Prop) (r1 r2 : result (A * rng)) : Prop :=
  match r1, r2 with
  | Return (a1, _), Return (a2, _) => R a1 a2
  | Raise e1, Raise e2 => e1 = e2
  | _, _ => False
  end.

(** Two outputs have the same deterministic part: projections, metadata
    and the names that carry a Monte Carlo summary. *)
Definition same_deterministic_part (o1 o2 : SimulationOutput) : Prop :=
  projections o1 = projections o2 /\
  metadata o1 = metadata o2 /\
  dom <$> monte_carlo o1 = dom <$> monte_carlo o2.

(** From [g] to [g'] exactly [n] variates were consumed. *)
Definition draws (g g' : rng) (n : nat) : Prop :=
  variates g' = variates g /\ consumed g' = (consumed g + n)%nat.

(** Variates a Monte Carlo run consumes per simulated year. *)
Definition draws_per_year (decision_type : DecisionType) : nat :=
  match decision_type with
  | RELOCATION => 2
  | PURCHASE => 0
  | JOB => 1
  | INVESTMENT => 1
  end.

(** The two dicts a strategy fills hold the same trajectories and the same
    names with a summary. *)
Definition same_dicts
    (st1 st2 : gmap string (list (gmap string value)) * gmap string (gmap string Q))
    : Prop :=
  st1.1 = st2.1 /\ dom st1.2 = dom st2.2.

(** [name] is listed at position [i] and nowhere after it. *)
Definition last_occurrence (l : list string) (i : nat) (name : string) : Prop :=
  l !! i = Some name /\ name ∉ drop (S i) l.

(** The yearly point of the purchase option at position [i], in closed form. *)
Definition purchase_point (budget : Q) (i year : Z) : gmap string value :=
  let initial_cost := (budget * ((8 # 10) + inject_Z i * (2 # 10)))%Q in
  let yearly_maintenance := (initial_cost * (5 # 100))%Q in
  let current_value := (initial_cost * (85 # 100) ^ year)%Q in
  let total_cost := (initial_cost + yearly_maintenance * inject_Z year)%Q in
  {[ "year" := VInt year;
     "current_value" := VFloat (Py.round current_value 2);
     "maintenance_cost" := VFloat (Py.round yearly_maintenance 2);
     "total_cost_to_date" := VFloat (Py.round total_cost 2);
     "net_value" := VFloat (Py.round (current_value - total_cost) 2) ]}%string.

(** The yearly point of the job option at position [i], in closed form; the
    cumulative earnings are the sum of the salaries of the years so far. *)
Definition job_salary (i year : Z) : Q :=
  (inject_Z (70000 + i * 15000) * (1 + ((5 # 100) + inject_Z i * (2 # 100))) ^ year)%Q.

Definition job_point (i year : Z) : gmap string value :=
  {[ "year" := VInt year;
     "salary" := VFloat (Py.round (job_salary i year) 2);
     "cumulative_earnings" :=
       VFloat (Py.round (Np.sum (job_salary i <$> Py.range 1 (year + 1))) 2);
     "growth_rate" :=
       VFloat (Py.round (((5 # 100) + inject_Z i * (2 # 100)) * 100) 1) ]}%string.

(** The yearly point of an investment, in closed form. *)
Definition investment_point (amount expected_return : Q) (year : Z)
    : gmap string value :=
  let growth := ((1 + expected_return) ^ year)%Q in
  {[ "year" := VInt year;
     "value" := VFloat (Py.round (amount * growth) 2);
     "total_return" := VFloat (Py.round (amount * growth - amount) 2);
     "return_percentage" := VFloat (Py.round ((growth - 1) * 100) 2) ]}%string.

(** The number held by a field, if it is a float. *)
Definition float_field (key : string) (p : gmap string value) : option Q :=
  match p !! key with
  | Some (VFloat q) => Some q
  | _ => None
  end.

(** An investment of nothing in stocks. *)
Definition invest_nothing : StructuredData :=
  {| cities := None; user_context := None; options := Some ["stocks"]%string;
     budget := None; amount := Some 0%Q |}.

(** The fields [keys] of a summary are present and lie between [a] and [b]. *)
Definition fields_within (s : gmap string Q) (keys : list string) (a b : Q) : Prop :=
  Forall (fun key => exists v, s !! key = Some v /\ (a <= v <= b)%Q) keys.

(** The keys of the yearly points and of the summaries, by decision type. *)
Definition point_keys (decision_type : DecisionType) : list string :=
  match decision_type with
  | RELOCATION => ["year"; "gross_income"; "net_income"; "total_expenses"; "savings";
                   "cumulative_savings"]
  | PURCHASE => ["year"; "current_value"; "maintenance_cost"; "total_cost_to_date";
                 "net_value"]
  | JOB => ["year"; "salary"; "cumulative_earnings"; "growth_rate"]
  | INVESTMENT => ["year"; "value"; "total_return"; "return_percentage"]
  end%string.

Definition summary_keys (decision_type : DecisionType) : list string :=
  match decision_type with
  | RELOCATION => ["mean"; "std"; "p5"; "p25"; "p50"; "p75"; "p95"]
  | PURCHASE => []
  | JOB => ["mean"; "std"; "p5"; "p95"]
  | INVESTMENT => ["mean"; "std"; "p5"; "p25"; "p50"; "p75"; "p95"; "prob_loss"]
  end%string.

(** * Portfolio metrics of [app/services/financial_data_service.py] *)

(** What [_calculate_portfolio_metrics] reads of a stock's data (lines
    87-113): whether the key ["historical_data"] is present and, in it, the
    average annual return and the annual volatility that [get_stock_data]
    always stores together. *)
Record historical_data : Type := {
  avg_annual_return : Q;
  annual_volatility : Q
}.

Record stock_data : Type := {
  historical : option historical_data
}.

(** The loop of lines 96-99 over the items of the dict, in insertion order. *)
Definition collect_metrics (acc : list Q * list Q) (item : string * stock_data)
    : list Q * list Q :=
  let '(returns, volatilities) := acc in
  let '(ticker, data) := item in
  match historical data with
  | Some h => (returns ++ [avg_annual_return h], volatilities ++ [annual_volatility h])
  | None => (returns, volatilities)
  end.

Definition _calculate_portfolio_metrics (stocks_data : list (string * stock_data))
    : result (gmap string Q) :=
  match stocks_data with
  | [] => Return ∅
  | _ =>
    let '(returns, volatilities) := fold_left collect_metrics stocks_data ([], []) in
    match returns with
    | [] => Return ∅
    | _ =>
      avg_return ← Np.mean returns;
      avg_volatility ← Np.mean volatilities;
      sharpe_ratio ←
        (if decide (0 < avg_volatility)%Q
         then ratio ← truediv avg_return avg_volatility; Return (Py.round ratio 2)
         else Return 0%Q);
      Return {[ "expected_return" := Py.round avg_return 4;
                "expected_volatility" := Py.round avg_volatility 4;
                "sharpe_ratio" := sharpe_ratio ]}%string
    end
  end.

(** The returns and the volatilities of the stocks that carry historical
    data. *)
Definition known_returns (stocks_data : list (string * stock_data)) : list Q :=
  omap (fun item => avg_annual_return <$> historical item.2) stocks_data.

Definition known_volatilities (stocks_data : list (string * stock_data)) : list Q :=
  omap (fun item => annual_volatility <$> historical item.2) stocks_data.

(** Two stocks with data and one without. *)
Definition sample_stocks : list (string * stock_data) :=
  [("AAPL", {| historical := Some {| avg_annual_return := 12 # 100;
                                     annual_volatility := 25 # 100 |} |});
   ("NONE", {| historical := None |});
   ("MSFT", {| historical := Some {| avg_annual_return := 8 # 100;
                                     annual_volatility := 15 # 100 |} |})]%string.

(** * The cache of external data: [DataService] of [app/services/llm_service.py] *)

(** A row of the table [cached_data] ([app/models/database.py], lines
    65-74).  The column [cache_key] is declared unique, so the table is a
    map from the key to the rest of the row.  Instants are microseconds, the
    resolution of [datetime].  The columns [id] and [created_at], which no
    code reads, are left out. *)
Record CachedData : Type := {
  data : gmap string Q;
  source : string;
  expires_at : Z
}.

(** What a request sees of the database session and of the clock: the
    table, the instants [datetime.utcnow()] will answer and how many of them
    were read. *)
Record session : Type := Session {
  cached_data : gmap string CachedData;
  clock : nat -> Z;
  readings : nat
}.

(** A commit that breaks the unique constraint raises. *)
Inductive db_result (A : Type) : Type :=
| Done (a : A) (s : session)
| IntegrityError.
Arguments Done {A} a s.
Arguments IntegrityError {A}.

Definition DB (A : Type) : Type := session -> db_result A.

#[global] Instance DB_ret : MRet DB := fun A a s => Done a s.
#[global] Instance DB_bind : MBind DB := fun A B k c s =>
  match c s with
  | Done a s' => k a s'
  | IntegrityError => IntegrityError
  end.

Fixpoint db_for_each {A St} (l : list A) (body : St -> A -> DB St) (st : St) : DB St :=
  match l with
  | [] => mret st
  | x :: l' => st' ← body st x; db_for_each l' body st'
  end.

Definition utcnow : DB Z :=
  fun s => Done (clock s (readings s))
                (Session (cached_data s) (clock s) (S (readings s))).

(** [settings.CACHE_TTL_SECONDS], as [app/core/config.py] sets it. *)
Definition CACHE_TTL_SECONDS : Z := 86400.

Definition timedelta_seconds (seconds : Z) : Z := seconds * 1000000.

Module DataService.

(** [select(CachedData).where(cache_key == ..., expires_at > now)] followed
    by [scalar_one_or_none()], and [cached.data if cached else None]. *)
Definition select_data (cache_key : string) (now : Z) : DB (option (gmap string Q)) :=
  fun s =>
    Done (match cached_data s !! cache_key with
          | Some cached => if decide (now < expires_at cached) then Some (data cached) else None
          | None => None
          end) s.

(** [db.add(cached)] followed by [db.commit()]. *)
Definition add_and_commit (cache_key : string) (cached : CachedData) : DB unit :=
  fun s =>
    match cached_data s !! cache_key with
    | Some _ => IntegrityError
    | None => Done () (Session (<[cache_key := cached]> (cached_data s)) (clock s) (readings s))
    end.

(** Lines 316-325: the row under the key, if it has not expired. *)
Definition _get_cached (cache_key : string) : DB (option (gmap string Q)) :=
  now ← utcnow;
  select_data cache_key now.

(** Lines 327-338: a new row is added and committed. *)
Definition _set_cached (cache_key : string) (d : gmap string Q) (src : string) : DB unit :=
  now ← utcnow;
  let expires := now + timedelta_seconds CACHE_TTL_SECONDS in
  add_and_commit cache_key {| data := d; source := src; expires_at := expires |}.

(** Lines 340-349 *)
Definition cost_of_living_table : gmap string (gmap string Q) :=
  {[ "berlin" := {[ "rent" := 1200; "food" := 400; "transport" := 86;
                    "utilities" := 200; "entertainment" := 150 ]};
     "amsterdam" := {[ "rent" := 1800; "food" := 450; "transport" := 100;
                       "utilities" := 180; "entertainment" := 200 ]};
     "london" := {[ "rent" := 2200; "food" := 500; "transport" := 150;
                    "utilities" := 200; "entertainment" := 250 ]};
     "paris" := {[ "rent" := 1600; "food" := 480; "transport" := 75;
                   "utilities" := 170; "entertainment" := 180 ]} ]}%string%Q.

Definition _mock_cost_of_living (city : string) : gmap string Q :=
  default ({[ "rent" := 1000; "food" := 350; "transport" := 80;
              "utilities" := 150; "entertainment" := 100 ]}%string%Q)
          (cost_of_living_table !! Py.lower city).

(** Lines 351-359 *)
Definition tax_rates_table : gmap string (gmap string Q) :=
  {[ "berlin" := {[ "income_tax" := 42 # 100; "social_security" := 20 # 100;
                    "effective_rate" := 35 # 100 ]};
     "amsterdam" := {[ "income_tax" := 495 # 1000; "social_security" := 15 # 100;
                       "effective_rate" := 38 # 100 ]};
     "london" := {[ "income_tax" := 45 # 100; "social_security" := 12 # 100;
                    "effective_rate" := 32 # 100 ]};
     "paris" := {[ "income_tax" := 45 # 100; "social_security" := 22 # 100;
                   "effective_rate" := 40 # 100 ]} ]}%string%Q.

Definition _mock_tax_rates (city : string) : gmap string Q :=
  default ({[ "income_tax" := 30 # 100; "social_security" := 15 # 100;
              "effective_rate" := 30 # 100 ]}%string%Q)
          (tax_rates_table !! Py.lower city).

(** The body the getters share (lines 271-300): the cached dict when the
    lookup gives one that is not empty, and otherwise the fresh data, after
    storing them. *)
Definition cached_or (cache_key : string) (fresh : gmap string Q) (src : string)
    : DB (gmap string Q) :=
  cached ← _get_cached cache_key;
  match cached with
  | Some d =>
    if Py.truthy d then mret d
    else _ ← _set_cached cache_key fresh src; mret fresh
  | None => _ ← _set_cached cache_key fresh src; mret fresh
  end.

Definition get_cost_of_living (city : string) : DB (gmap string Q) :=
  cached_or ("col_" +:+ Py.lower city) (_mock_cost_of_living city) "numbeo".

Definition get_tax_rates (city : string) : DB (gmap string Q) :=
  cached_or ("tax_" +:+ Py.lower city) (_mock_tax_rates city) "internal".

End DataService.

(** ** The caller: step 2 of [create_simulation] ([app/api/endpoints.py],
    lines 149-160) *)

Definition fetch_city (external : gmap string (gmap string Q) * gmap string (gmap string Q))
    (city : string) : DB (gmap string (gmap string Q) * gmap string (gmap string Q)) :=
  col ← DataService.get_cost_of_living city;
  let costs := <[Py.lower city := col]> external.1 in
  tax ← DataService.get_tax_rates city;
  mret (costs, <[Py.lower city := tax]> external.2).

Definition fetch_external_data (decision_type : DecisionType)
    (structured_data : StructuredData) : DB ExternalData :=
  match decision_type with
  | RELOCATION =>
    external ← db_for_each (default [] (cities structured_data)) fetch_city (∅, ∅);
    mret {| cost_of_living := Some external.1; tax_rates := Some external.2 |}
  | _ => mret {| cost_of_living := None; tax_rates := None |}
  end.

(** The instant the next reading of the clock gives. *)
Definition next_reading (s : session) : Z := clock s (readings s).

(** A row [get_cost_of_living] and [get_tax_rates] cannot use: expired at
    the instant of the lookup, or holding an empty dict. *)
Definition unusable (now : Z) (cached : CachedData) : Prop :=
  expires_at cached <= now \/ data cached = ∅.

(** The rows hold what the service itself would store under their key. *)
Definition cache_sound (table : gmap string CachedData) : Prop :=
  forall key cached, table !! key = Some cached ->
    (forall city, key = "col_" +:+ city -> data cached = DataService._mock_cost_of_living city) /\
    (forall city, key = "tax_" +:+ city -> data cached = DataService._mock_tax_rates city).

(** Up to the reading numbered [until], no two readings of the clock are a
    time to live apart and no row expires. *)
Definition steady (until : nat) (s : session) : Prop :=
  (forall i j, (i < until)%nat -> (j < until)%nat ->
     clock s i < clock s j + timedelta_seconds CACHE_TTL_SECONDS) /\
  (forall key cached i, (i < until)%nat -> cached_data s !! key = Some cached ->
     clock s i < expires_at cached).

Definition serviceable (until : nat) (s : session) : Prop :=
  cache_sound (cached_data s) /\ steady until s.

(** The session after one reading of the clock. *)
Definition tick (s : session) : session :=
  Session (cached_data s) (clock s) (S (readings s)).

(** An empty table and a clock that advances one second a reading. *)
Definition empty_session : session :=
  Session ∅ (fun i => 1000000 * Z.of_nat i) 0.

(** A table whose row for Oslo expired at instant 5, read at instant 10. *)
Definition stale_session : session :=
  Session {[ "col_oslo"%string :=
             {| data := DataService._mock_cost_of_living "oslo";
                source := "numbeo"; expires_at := 5 |} ]}
          (fun _ => 10) 0.

(** * The language model service: [LLMService] of [app/services/llm_service.py] *)

(** ** Strings and the regular expression of [_mock_response] *)

(** [needle in haystack] *)
Fixpoint contains (needle haystack : string) {struct haystack} : bool :=
  String.prefix needle haystack
  || match haystack with
     | EmptyString => false
     | String _ rest => contains needle rest
     end.

(** [\s] and [\w] on ASCII text *)
Definition is_space (c : ascii) : bool :=
  let n := nat_of_ascii c in
  ((9 <=? n)%nat && (n <=? 13)%nat) || ((28 <=? n)%nat && (n <=? 32)%nat).

Definition is_word (c : ascii) : bool :=
  let n := nat_of_ascii c in
  ((48 <=? n)%nat && (n <=? 57)%nat) || ((65 <=? n)%nat && (n <=? 90)%nat)
  || ((97 <=? n)%nat && (n <=? 122)%nat) || (n =? 95)%nat.

Fixpoint skip_spaces (s : string) : string :=
  match s with
  | String c rest => if is_space c then skip_spaces rest else s
  | EmptyString => s
  end.

Fixpoint leading_word (s : string) : string :=
  match s with
  | String c rest => if is_word c then String c (leading_word rest) else EmptyString
  | EmptyString => EmptyString
  end.

Fixpoint strip_prefix (p s : string) : option string :=
  match p, s with
  | EmptyString, _ => Some s
  | String a p', String b s' => if Ascii.eqb a b then strip_prefix p' s' else None
  | String _ _, EmptyString => None
  end.

(** A match of [decision type:\s*(\w+)] at the start of [s]: its group 1. *)
Definition match_decision_type (s : string) : option string :=
  match strip_prefix "decision type:" s with
  | Some rest =>
    match leading_word (skip_spaces rest) with
    | EmptyString => None
    | w => Some w
    end
  | None => None
  end.

(** [re.search(r'decision type:\s*(\w+)', s)]: group 1 of the leftmost
    match. *)
Fixpoint re_search_decision_type (s : string) : option string :=
  match match_decision_type s with
  | Some w => Some w
  | None =>
    match s with
    | String _ rest => re_search_decision_type rest
    | EmptyString => None
    end
  end.

(** ** The prompts *)

(** The text of a template: its lines joined by line feeds, with a back
    quote written for each double quote of the source. *)
Definition requote_char (c : ascii) : ascii :=
  if Ascii.eqb c "`"%char then "034"%char else c.

Fixpoint requote (s : string) : string :=
  match s with
  | EmptyString => EmptyString
  | String c rest => String (requote_char c) (requote rest)
  end.

Fixpoint text (lines : list string) : string :=
  match lines with
  | [] => EmptyString
  | [l] => requote l
  | l :: rest => requote l +:+ String "010"%char (text rest)
  end.

#[local] Open Scope string_scope.

Definition structuring_head : string := text
    [ "You are an expert decision analyst. Parse the user's decision query and extract structured factors.";
      EmptyString;
      "User Query: " ].

Definition structuring_middle : string := text
    [ EmptyString;
      "Decision Type: " ].

Definition structuring_tail : string := text
    [ EmptyString;
      EmptyString;
      "Extract and return a JSON object with the following structure based on decision type:";
      EmptyString;
      "For RELOCATION:";
      "{";
      "    `cities`: [`city1`, `city2`],";
      "    `factors_to_compare`: [`cost_of_living`, `salary`, `taxes`, `quality_of_life`],";
      "    `user_context`: {";
      "        `current_location`: `...`,";
      "        `profession`: `...`,";
      "        `priorities`: [`...`]";
      "    }";
      "}";
      EmptyString;
      "For PURCHASE:";
      "{";
      "    `options`: [`option1`, `option2`],";
      "    `budget`: 0,";
      "    `factors_to_compare`: [`price`, `maintenance`, `depreciation`, `utility`],";
      "    `user_context`: {";
      "        `current_situation`: `...`,";
      "        `needs`: [`...`],";
      "        `preferences`: [`...`]";
      "    }";
      "}";
      EmptyString;
      "For JOB:";
      "{";
      "    `options`: [`job1`, `job2`],";
      "    `factors_to_compare`: [`salary`, `growth`, `work_life_balance`, `benefits`],";
      "    `user_context`: {";
      "        `current_job`: `...`,";
      "        `experience`: `...`,";
      "        `career_goals`: [`...`]";
      "    }";
      "}";
      EmptyString;
      "For INVESTMENT:";
      "{";
      "    `options`: [`investment1`, `investment2`],";
      "    `amount`: 10000,";
      "    `risk_tolerance`: `low|medium|high`,";
      "    `factors_to_compare`: [`returns`, `volatility`, `liquidity`, `time_horizon`],";
      "    `user_context`: {";
      "        `investment_experience`: `...`,";
      "        `age`: ...,";
      "        `financial_goals`: [`...`]";
      "    }";
      "}";
      EmptyString;
      "Return ONLY valid JSON, no additional text." ].

Definition report_head : string := text
    [ "You are an expert decision analyst. Based on the simulation results, generate a comprehensive report.";
      EmptyString;
      "Decision Query: " ].

Definition report_decision : string := text
    [ EmptyString;
      "Decision Type: " ].

Definition report_results : string := text
    [ EmptyString;
      "Simulation Results: " ].

Definition report_tail : string := text
    [ EmptyString;
      EmptyString;
      "Generate a report with:";
      "1. **Summary**: A clear 2-3 sentence summary of the analysis";
      "2. **Risks**: List of 3-5 key risks for each option";
      "3. **Recommendation**: Your expert recommendation with reasoning";
      "4. **Confidence Score**: A score from 0 to 1 indicating confidence in the recommendation";
      EmptyString;
      "Return as JSON:";
      "{";
      "    `summary`: `...`,";
      "    `risks`: [`risk1`, `risk2`, ...],";
      "    `recommendation`: `...`,";
      "    `confidence_score`: 0.85";
      "}" ].

(** [STRUCTURING_PROMPT.format(query=..., decision_type=...)], lines 17-71 *)
Definition STRUCTURING_PROMPT (query decision_type : string) : string :=
  structuring_head +:+ (query +:+ (structuring_middle +:+ (decision_type +:+ structuring_tail))).

(** [REPORT_PROMPT.format(query=..., decision_type=..., results=...)],
    lines 73-91 *)
Definition REPORT_PROMPT (query decision_type results : string) : string :=
  report_head +:+ (query +:+ (report_decision +:+ (decision_type +:+
    (report_results +:+ (results +:+ report_tail))))).

(** ** The answers *)

(** JSON values.  The service serialises its mock answer with [json.dumps]
    and its caller parses the text with [json.loads]; the composition gives
    back the value, which is what the model passes on. *)
#[warnings="-register-all"]
Inductive json : Type :=
| JString (s : string)
| JInt (z : Z)
| JFloat (q : Q)
| JArray (items : list json)
| JObject (members : list (string * json)).

Definition strings (l : list string) : json := JArray (JString <$> l).

(** Lines 177-187 *)
Definition report_answer : json :=
  JObject
    [ ("summary", JString "Based on the analysis, both options present viable paths with distinct trade-offs.");
      ("risks", strings [ "Market volatility may affect projections";
                          "Regulations may change";
                          "External factors may vary over time" ]);
      ("recommendation", JString "Consider the option with better long-term financial outlook while weighing personal preferences.");
      ("confidence_score", JFloat (75 # 100)) ].

(** Lines 190-199 *)
Definition relocation_answer : json :=
  JObject
    [ ("cities", strings ["Berlin"; "Amsterdam"]);
      ("factors_to_compare", strings ["cost_of_living"; "salary"; "taxes"; "quality_of_life"]);
      ("user_context",
       JObject [ ("current_location", JString "Unknown");
                 ("profession", JString "Tech professional");
                 ("priorities", strings ["career growth"; "quality of life"]) ]) ].

(** Lines 211-221 *)
Definition investment_answer (options : list string) (experience : string) : json :=
  JObject
    [ ("options", strings options);
      ("amount", JInt 10000);
      ("risk_tolerance", JString "medium");
      ("factors_to_compare", strings ["returns"; "volatility"; "liquidity"; "time_horizon"]);
      ("user_context",
       JObject [ ("investment_experience", JString experience);
                 ("age", JInt 35);
                 ("financial_goals", strings ["retirement"; "wealth accumulation"]) ]) ].

(** Lines 230-239 *)
Definition purchase_answer (options : list string) : json :=
  JObject
    [ ("options", strings options);
      ("budget", JInt 50000);
      ("factors_to_compare", strings ["price"; "maintenance"; "depreciation"; "utility"]);
      ("user_context",
       JObject [ ("current_situation", JString "Looking to upgrade");
                 ("needs", strings ["reliability"; "cost-effectiveness"]);
                 ("preferences", strings ["modern design"; "efficiency"]) ]) ].

(** Lines 241-249 *)
Definition job_answer : json :=
  JObject
    [ ("options", strings ["Software Engineer at Company A"; "Data Scientist at Company B"]);
      ("factors_to_compare", strings ["salary"; "growth"; "work_life_balance"; "benefits"]);
      ("user_context",
       JObject [ ("current_job", JString "Developer");
                 ("experience", JString "5 years");
                 ("career_goals", strings ["leadership"; "technical expertise"]) ]) ].

(** Lines 252-262 *)
Definition default_answer : json :=
  JObject
    [ ("options", strings ["stocks"; "bonds"]);
      ("amount", JInt 10000);
      ("risk_tolerance", JString "medium");
      ("factors_to_compare", strings ["returns"; "volatility"; "liquidity"]);
      ("user_context",
       JObject [ ("investment_experience", JString "intermediate");
                 ("age", JInt 35);
                 ("financial_goals", strings ["growth"; "security"]) ]) ].

(** Truth value of an optional string: [None] and the empty string are
    false. *)
Definition truthy_str (s : option string) : bool :=
  match s with
  | Some (String _ _) => true
  | _ => false
  end.

(** Lines 202-209 and 223-228: the options named after the words of the
    prompt. *)
Definition investment_options (prompt_lower : string) : list string :=
  if contains "stocks" prompt_lower || contains "bonds" prompt_lower
  then ["stocks"; "bonds"]
  else if contains "real estate" prompt_lower || contains "property" prompt_lower
  then ["real estate investment"; "stock market"]
  else if contains "crypto" prompt_lower || contains "bitcoin" prompt_lower
  then ["cryptocurrency"; "traditional investments"]
  else ["Option A"; "Option B"].

Definition purchase_options (prompt_lower : string) : list string :=
  if contains "car" prompt_lower || contains "vehicle" prompt_lower
  then ["Electric Car"; "Gasoline Car"]
  else if contains "house" prompt_lower || contains "apartment" prompt_lower
  then ["House in suburbs"; "Apartment in city center"]
  else ["Option X"; "Option Y"].

(** Lines 160-262 *)
Definition _mock_response (prompt : string) (context : option string) : json :=
  let prompt_lower := Py.lower prompt in
  let decision_type :=
    match context with
    | Some (String c rest) => Some (Py.lower (String c rest))
    | _ =>
      if contains "decision type:" prompt_lower
      then re_search_decision_type prompt_lower
      else None
    end in
  let named (word : string) : bool :=
    bool_decide (decision_type = Some word)
    || (contains word prompt_lower && negb (contains "example" prompt_lower)) in
  if contains "summary" prompt_lower || contains "report" prompt_lower then report_answer
  else if named "relocation" then relocation_answer
  else if named "investment" then
    investment_answer (investment_options prompt_lower)
      (if contains "beginner" prompt_lower then "beginner" else "intermediate")
  else if named "purchase" then purchase_answer (purchase_options prompt_lower)
  else if named "job" then job_answer
  else default_answer.

(** [self] of the service: the key and the model name of the settings. *)
Record LLMService : Type := {
  api_key : option string;
  model : string
}.

Inductive llm_result (A : Type) : Type :=
| Answer (a : A)
| LLMProcessingError.
Arguments Answer {A} a.
Arguments LLMProcessingError {A}.

Section Remote.

(** The exchange with the remote model (lines 136-158) and the parsing of
    its answer: the parsed content, or the error raised when the request
    or the parsing fails. *)
Variable chat_completion : LLMService -> string -> llm_result json.

(** Lines 130-134: without a key the answer is the mock one. *)
Definition _call_llm (self : LLMService) (prompt : string) (context : option string)
    : llm_result json :=
  if truthy_str (api_key self) then chat_completion self prompt
  else Answer (_mock_response prompt context).

(** Lines 97-111 *)
Definition structure_query (self : LLMService) (query decision_type : string)
    : llm_result json :=
  _call_llm self (STRUCTURING_PROMPT query decision_type) (Some decision_type).

(** Lines 113-128; [results] is the text [json.dumps(results, indent=2)]. *)
Definition generate_report (self : LLMService) (query results : string)
    (decision_type : option string) : llm_result json :=
  _call_llm self
    (REPORT_PROMPT query
       (match decision_type with
        | Some (String c rest) => String c rest
        | _ => "general"
        end)
       results)
    (Some "report").

End Remote.

(** ** The endpoint: steps 1 and 3 of [create_simulation]
    ([app/api/endpoints.py], lines 142-172) *)

(** The values of the enumeration [DecisionType]
    ([app/models/database.py], lines 10-14). *)
Definition DecisionType_value (decision_type : DecisionType) : string :=
  match decision_type with
  | RELOCATION => "relocation"
  | PURCHASE => "purchase"
  | JOB => "job"
  | INVESTMENT => "investment"
  end.

(** [obj.get(key)] on a parsed object. *)
Definition member (key : string) (j : json) : option json :=
  match j with
  | JObject members => snd <$> List.find (fun m => String.eqb key m.1) members
  | _ => None
  end.

Definition as_strings (j : json) : option (list string) :=
  match j with
  | JArray items =>
    mapM (fun item => match item with JString s => Some s | _ => None end) items
  | _ => None
  end.

Definition as_number (j : json) : option Q :=
  match j with
  | JInt z => Some (inject_Z z)
  | JFloat q => Some q
  | _ => None
  end.

(** A key the engine reads: absent, or present with a value of the type the
    engine expects; [None] for a value of another type. *)
Definition read {A} (as_type : json -> option A) (key : string) (j : json)
    : option (option A) :=
  match member key j with
  | None => Some None
  | Some v => Some <$> as_type v
  end.

Definition as_context (j : json) : option (gmap string Q) :=
  match j with
  | JObject _ =>
    salary ← read as_number "salary" j;
    Some (match salary with
          | Some q => {[ "salary" := q ]}
          | None => ∅
          end)
  | _ => None
  end.

(** The parsed answer as the engine reads it: the five keys the engine
    looks up.  [None] when one of them holds a value of a type the
    embedding of the engine does not cover. *)
Definition structured_of (j : json) : option StructuredData :=
  match j with
  | JObject _ =>
    cs ← read as_strings "cities" j;
    uc ← read as_context "user_context" j;
    os ← read as_strings "options" j;
    b ← read as_number "budget" j;
    a ← read as_number "amount" j;
    Some {| cities := cs; user_context := uc; options := os; budget := b; amount := a |}
  | _ => None
  end.

Module Schemas.

(** [SimulationInput] of [app/schemas/schemas.py], lines 56-60. *)
Record SimulationInput : Type := {
  query : string;
  time_horizon_years : Z;
  monte_carlo_runs : option Z
}.

(** The constraints the fields declare. *)
Definition validates (input : SimulationInput) : Prop :=
  (3 <= String.length (query input))%nat /\
  1 <= time_horizon_years input <= 30 /\
  match monte_carlo_runs input with
  | Some runs => 100 <= runs <= 10000
  | None => True
  end.

End Schemas.

(** Lines 163-166 of the endpoint: [monte_carlo_runs or 1000]. *)
Definition engine_of (input : Schemas.SimulationInput) : SimulationEngine :=
  __init__ (Schemas.time_horizon_years input)
           (match Schemas.monte_carlo_runs input with
            | Some runs => if decide (runs = 0) then 1000 else runs
            | None => 1000
            end).

(** A query mentions none of the words that steer the mock answer. *)
Definition plain_query (query : string) : Prop :=
  contains "summary" (Py.lower query) = false /\
  contains "report" (Py.lower query) = false /\
  contains "example" (Py.lower query) = false.

(** A service without a key. *)
Definition keyless : LLMService := {| api_key := None; model := "gpt-4" |}.

(** A remote model that always fails; the keyless service never asks it. *)
Definition unreachable (self : LLMService) (prompt : string) : llm_result json :=
  LLMProcessingError.

(** The default input of the endpoint for a query. *)
Definition input_of (query : string) : Schemas.SimulationInput :=
  {| Schemas.query := query; Schemas.time_horizon_years := 5;
     Schemas.monte_carlo_runs := Some 1000 |}.

#[local] Close Scope string_scope.

(** A word that cannot straddle the places of a prompt where the query and
    the decision type are written: it is not empty, does not begin with a
    space and holds neither a colon nor a line feed. *)
Fixpoint has_char (c : ascii) (s : string) : bool :=
  match s with
  | EmptyString => false
  | String x rest => Ascii.eqb c x || has_char c rest
  end.

Definition plain_word (w : string) : bool :=
  match w with
  | EmptyString => false
  | String c _ => negb (Ascii.eqb c " "%char)
  end
  && negb (has_char ":"%char w) && negb (has_char "010"%char w).

(** The mock relocation answer and the mock report as the engine reads
    them. *)
Definition berlin_or_amsterdam : StructuredData :=
  {| cities := Some ["Berlin"; "Amsterdam"]%string; user_context := Some ∅;
     options := None; budget := None; amount := None |}.

Definition nothing_structured : StructuredData :=
  {| cities := None; user_context := None; options := None;
     budget := None; amount := None |}.

(** * The periodic cleanup: [cleanup_old_cache] of
    [app/services/celery_worker.py] (lines 126-142) *)

(** [delete(CachedData).where(CachedData.expires_at < now)] followed by
    [db.commit()]. *)
Definition delete_expired (now : Z) : DB unit :=
  fun s =>
    Done () (Session (filter (fun row : string * CachedData => ~ expires_at row.2 < now)
                             (cached_data s))
                     (clock s) (readings s)).

Definition cleanup_old_cache : DB unit :=
  now ← utcnow;
  delete_expired now.

(** A row for Oslo that expires at instant 10, and a clock that reads 10. *)
Definition boundary_session : session :=
  Session {[ "col_oslo"%string :=
             {| data := DataService._mock_cost_of_living "oslo";
                source := "numbeo"; expires_at := 10 |} ]}
          (fun _ => 10) 0.

(** * The yearly loop of a relocation in binary64 (lines 60-81)

    The figures the engine stores are binary64 numbers, and two decimals of
    one of them can depend on the last bit of a product.  Here the loop is
    written over the arithmetic of binary64 itself, taken as a parameter:
    the type of the numbers, the reading of a decimal literal, the
    conversion of an integer, the product, the difference, [x ** n] for an
    integer [n], which raises [OverflowError] when the result is out of
    range ([None]), and [round(x, ndigits)].  What is proved of the loop
    holds for every such arithmetic, the one of the machine included. *)

Module Binary64.

Section Arithmetic.

Variable float : Type.
Variable literal : Q -> float.
Variable of_int : Z -> float.
Variable mul : float -> float -> float.
Variable sub : float -> float -> float.
Variable pow : float -> Z -> option float.
Variable round : float -> Z -> float.

(** Leaves of a yearly point. *)
Inductive number : Type :=
| Int (z : Z)
| Float (x : float).

(** Lines 64-70: the quantities of one year. *)
Record relocation_figures : Type := {
  adjusted_salary : float;
  adjusted_cost : float;
  net_income : float;
  savings : float
}.

Definition relocation_figures_of (base_salary yearly_cost effective_tax : float) (year : Z)
    : option relocation_figures :=
  inflation_factor ← pow (literal (103 # 100)) year;
  salary_factor ← pow (literal (102 # 100)) year;
  let adjusted_salary := mul base_salary salary_factor in
  let adjusted_cost := mul yearly_cost inflation_factor in
  let net_income := mul adjusted_salary (sub (of_int 1) effective_tax) in
  let savings := sub net_income adjusted_cost in
  Some {| adjusted_salary := adjusted_salary; adjusted_cost := adjusted_cost;
          net_income := net_income; savings := savings |}.

(** Lines 72-79: the dict appended for one year. *)
Definition relocation_point (year : Z) (f : relocation_figures) : gmap string number :=
  {[ "year" := Int year;
     "gross_income" := Float (round (adjusted_salary f) 2);
     "net_income" := Float (round (net_income f) 2);
     "total_expenses" := Float (round (adjusted_cost f) 2);
     "savings" := Float (round (savings f) 2);
     "cumulative_savings" := Float (round (mul (savings f) (of_int year)) 2) ]}%string.

Definition relocation_year (base_salary yearly_cost effective_tax : float)
    (yearly_projections : list (gmap string number)) (year : Z)
    : option (list (gmap string number)) :=
  f ← relocation_figures_of base_salary yearly_cost effective_tax year;
  Some (yearly_projections ++ [relocation_point year f]).

(** A [for] loop that stops at the first exception. *)
Fixpoint for_each {A St} (l : list A) (body : St -> A -> option St) (st : St) : option St :=
  match l with
  | [] => Some st
  | x :: l' => st' ← body st x; for_each l' body st'
  end.

Definition relocation_projection (self : SimulationEngine)
    (base_salary yearly_cost effective_tax : float) : option (list (gmap string number)) :=
  for_each (Py.range 1 (time_horizon self + 1))
           (relocation_year base_salary yearly_cost effective_tax) [].

End Arithmetic.

Arguments Int {float} z.
Arguments Float {float} x.

(** Exact arithmetic on the rationals, an arithmetic without rounding. *)
Definition exact_pow (x : Q) (n : Z) : option Q := Some (x ^ n)%Q.

Definition exact_round (x : Q) (ndigits : Z) : Q := Py.round x (Z.to_nat ndigits).

End Binary64.

(** ** The sample behind a summary *)

(** The generator after [n] more variates were consumed. *)
Definition advance (g : rng) (n : nat) : rng := Rng (variates g) (consumed g + n).

(** The terminal values [_run_monte_carlo_investment] simulates from the
    generator state [g] (lines 313-320). *)
Definition final_values_of (self : SimulationEngine)
    (initial_amount expected_return volatility : Q) (g : rng) : list Q :=
  match for_each (Py.range 0 (monte_carlo_runs self))
          (investment_run self initial_amount expected_return volatility) [] g with
  | Return (final_values, _) => final_values
  | Raise _ => []
  end.

(** The variates one Monte Carlo run of an investment consumes. *)
Definition draws_of_run (self : SimulationEngine) : nat :=
  (Z.to_nat (time_horizon self) * Z.to_nat (monte_carlo_runs self))%nat.

(** A leaf over the rationals, as a leaf of the engine's points. *)
Definition value_of_number (n : Binary64.number Q) : value :=
  match n with
  | Binary64.Int z => VInt z
  | Binary64.Float x => VFloat x
  end.

Definition values_of_numbers (pts : list (gmap string (Binary64.number Q)))
    : list (gmap string value) :=
  (fun p : gmap string (Binary64.number Q) => value_of_number <$> p) <$> pts.
(** * Properties *)

(** ** The builtins on small inputs *)

Example range_1_4 : Py.range 1 4 = [1; 2; 3].
Proof. reflexivity. Qed.

Example range_empty : Py.range 1 0 = [].
Proof. reflexivity. Qed.

Example lower_Berlin : Py.lower "New York" = "new york"%string.
Proof. reflexivity. Qed.

Example round_half : (Py.round (1 # 8) 2 == 12 # 100)%Q /\ (Py.round (3 # 8) 2 == 38 # 100)%Q.
Proof. split; reflexivity. Qed.

(** The end-to-end figures of an investment of 10000 over five years:
    10000 * 1.10^5 = 16105.10 for stocks, 10000 * 1.05^5 = 12762.82 for
    bonds. *)
Example investment_year_5 :
  let run := run_simulation sqrt_floor (__init__ 5 1) INVESTMENT
               (options_only ["stocks"; "bonds"]%string) no_external "2026-01-01"
               (constant_rng 0) in
  output_of run ≫= point_fields "stocks" 4 ["year"; "value"]%string
  = Some [Some (VInt 5); Some (VFloat (1610510 # 100))] /\
  output_of run ≫= point_fields "bonds" 4 ["year"; "value"]%string
  = Some [Some (VInt 5); Some (VFloat (1276282 # 100))].
Proof. split; vm_compute; reflexivity. Qed.

(** A purchase with budget 50000: option 0 costs 40000, option 1 costs
    50000; first year value 34000 and 42500, cost to date 42000 and 52500. *)
Example purchase_year_1 :
  let run := run_simulation sqrt_floor (__init__ 3 1) PURCHASE
               (options_only ["A"; "B"]%string) no_external "2026-01-01"
               (constant_rng 0) in
  output_of run ≫= point_fields "A" 0 ["current_value"; "total_cost_to_date"]%string
  = Some [Some (VFloat (3400000 # 100)); Some (VFloat (4200000 # 100))] /\
  output_of run ≫= point_fields "B" 0 ["current_value"; "total_cost_to_date"]%string
  = Some [Some (VFloat (4250000 # 100)); Some (VFloat (5250000 # 100))].
Proof. split; vm_compute; reflexivity. Qed.

(** An investment of 0 divides by zero in the first year. *)
Example investment_of_zero_raises :
  run_simulation sqrt_floor (__init__ 5 1) INVESTMENT
    {| cities := None; user_context := None; options := Some ["stocks"]%string;
       budget := None; amount := Some 0%Q |}
    no_external "2026-01-01" (constant_rng 0)
  = Raise ZeroDivisionError.
Proof. reflexivity. Qed.

(** ** Loops *)

Lemma range_length a b : length (Py.range a b) = Z.to_nat (b - a).
Proof. unfold Py.range. by rewrite length_fmap, length_seq. Qed.

Lemma range_to_nat (horizon : Z) :
  Py.range 1 (horizon + 1) = Py.range 1 (1 + Z.of_nat (Z.to_nat horizon)).
Proof. unfold Py.range. f_equal. f_equal. lia. Qed.

Lemma range_snoc a (n : nat) :
  Py.range a (a + Z.of_nat (S n)) = Py.range a (a + Z.of_nat n) ++ [a + Z.of_nat n].
Proof.
  unfold Py.range.
  replace (Z.to_nat (a + Z.of_nat (S n) - a)) with (S n) by lia.
  replace (Z.to_nat (a + Z.of_nat n - a)) with n by lia.
  by rewrite seq_S, fmap_app.
Qed.

Lemma range_split a (n m : nat) :
  Py.range a (a + Z.of_nat (n + m))
  = Py.range a (a + Z.of_nat n) ++ Py.range (a + Z.of_nat n) (a + Z.of_nat n + Z.of_nat m).
Proof.
  induction m as [|m IH].
  - rewrite Nat.add_0_r. unfold Py.range at 3.
    replace (Z.to_nat (a + Z.of_nat n + Z.of_nat 0 - (a + Z.of_nat n))) with 0%nat by lia.
    simpl. by rewrite app_nil_r.
  - replace (n + S m)%nat with (S (n + m)) by lia.
    rewrite !range_snoc, IH, <- app_assoc. do 3 f_equal. lia.
Qed.

Lemma range_lookup a b (i : nat) :
  (i < Z.to_nat (b - a))%nat -> Py.range a b !! i = Some (a + Z.of_nat i).
Proof.
  intros Hi. unfold Py.range.
  rewrite list_lookup_fmap, lookup_seq_lt by done. done.
Qed.

Lemma range_nil a b : b <= a -> Py.range a b = [].
Proof.
  intros Hle. unfold Py.range.
  replace (Z.to_nat (b - a)) with 0%nat by lia. done.
Qed.

Lemma range_nonempty a b : a < b -> Py.range a b ≠ [].
Proof.
  intros Hlt Hnil. apply (f_equal length) in Hnil.
  rewrite range_length in Hnil. simpl in Hnil. lia.
Qed.

Lemma enumerate_snd {A} (l : list A) : snd <$> Py.enumerate l = l.
Proof.
  unfold Py.enumerate. apply list_eq. intros i.
  rewrite list_lookup_fmap, list_lookup_imap. by destruct (l !! i).
Qed.

(** Running a bind. *)
Lemma bind_Return {A B} (c : M A) (k : A -> M B) g a g' :
  c g = Return (a, g') -> (c ≫= k) g = k a g'.
Proof. intros H. unfold mbind, M_bind. by rewrite H. Qed.

Lemma lift_Return {A} (r : result A) a g : r = Return a -> lift r g = Return (a, g).
Proof. by intros ->. Qed.

(** The loop rule: an invariant of the processed prefix that every
    iteration re-establishes, returning, holds of the whole list at exit. *)
Lemma for_each_rule {A S} (I : list A -> S -> Prop) (body : S -> A -> M S) l :
  (forall pre x s g, I pre s ->
     exists s' g', body s x g = Return (s', g') /\ I (pre ++ [x]) s') ->
  forall s g, I [] s ->
    exists s' g', for_each l body s g = Return (s', g') /\ I l s'.
Proof.
  intros Hbody.
  cut (forall pre s g, I pre s ->
         exists s' g', for_each l body s g = Return (s', g') /\ I (pre ++ l) s').
  { intros Hgen s g HI. apply (Hgen [] s g HI). }
  induction l as [|x l IH]; intros pre s g HI; simpl.
  - exists s, g. by rewrite app_nil_r.
  - destruct (Hbody pre x s g HI) as (s1 & g1 & Hrun & HI1).
    destruct (IH (pre ++ [x]) s1 g1 HI1) as (s2 & g2 & Hrun2 & HI2).
    exists s2, g2. split.
    + by rewrite (bind_Return _ _ _ _ _ Hrun).
    + by rewrite <- app_assoc in HI2.
Qed.

(** The same rule for a loop that neither draws nor raises. *)
Lemma fold_left_rule {A S} (I : list A -> S -> Prop) (body : S -> A -> S) l :
  (forall pre x s, I pre s -> I (pre ++ [x]) (body s x)) ->
  forall s, I [] s -> I l (fold_left body l s).
Proof.
  intros Hbody.
  cut (forall pre s, I pre s -> I (pre ++ l) (fold_left body l s)).
  { intros Hgen s HI. apply (Hgen [] s HI). }
  induction l as [|x l IH]; intros pre s HI; simpl.
  - by rewrite app_nil_r.
  - specialize (IH (pre ++ [x]) (body s x) (Hbody _ _ _ HI)).
    by rewrite <- app_assoc in IH.
Qed.

(** ** The Monte Carlo runs return *)

Section MonteCarlo.

Variable sqrt : Q -> Q.
Variable self : SimulationEngine.

#[local] Open Scope Q_scope.

Lemma mean_Return a : a ≠ [] -> Np.mean a = Return (Np.sum a / Np.size a).
Proof. by destruct a. Qed.

Lemma std_Return a :
  a ≠ [] ->
  Np.std sqrt a =
    Return (sqrt (Np.sum (Np.squared_deviations a (Np.sum a / Np.size a)) / Np.size a)).
Proof. intros Ha. unfold Np.std. by rewrite mean_Return. Qed.

Lemma percentile_Return a q :
  a ≠ [] ->
  Np.percentile a q =
    Return (Np.interpolate (merge_sort Qle a) ((Np.size a - 1) * (q / 100))).
Proof. by destruct a. Qed.

Lemma less_nonempty a ref : a ≠ [] -> Np.less a ref ≠ [].
Proof. by destruct a. Qed.

(** The sampling loop: [n] runs, each appending one terminal value. *)
Lemma sample_loop (run : list Q -> Z -> M (list Q)) (n : Z) g :
  (forall xs i g, exists v g', run xs i g = Return (xs ++ [v], g')) ->
  exists xs g', for_each (Py.range 0 n) run [] g = Return (xs, g') /\
                length xs = Z.to_nat n.
Proof.
  intros Hrun.
  destruct (for_each_rule (fun pre xs => length xs = length pre) run (Py.range 0 n))
    with (s := @nil Q) (g := g) as (xs & g' & Hret & Hlen).
  - intros pre i xs g0 Hlen. destruct (Hrun xs i g0) as (v & g1 & Hv).
    exists (xs ++ [v]), g1. split; [done|]. rewrite !length_app. simpl. lia.
  - done.
  - exists xs, g'. split; [done|]. rewrite Hlen, range_length. f_equal. lia.
Qed.

Lemma savings_run_Return base_salary yearly_cost tax_rate xs i g :
  exists v g', savings_run self base_salary yearly_cost tax_rate xs i g
               = Return (xs ++ [v], g').
Proof.
  unfold savings_run.
  destruct (for_each_rule (fun _ _ => True) (savings_year tax_rate)
              (Py.range 0 (time_horizon self)))
    with (s := (0, base_salary, yearly_cost)) (g := g) as (st & g' & Hret & _).
  - intros _ year [[c s] k] g0 _. eexists _, _. split; [|done].
    unfold savings_year, Np.random_normal, mbind, M_bind. reflexivity.
  - done.
  - exists st.1.1, g'. by rewrite (bind_Return _ _ _ _ _ Hret).
Qed.

Lemma salary_run_Return base_salary expected_growth xs i g :
  exists v g', salary_run self base_salary expected_growth xs i g
               = Return (xs ++ [v], g').
Proof.
  unfold salary_run.
  destruct (for_each_rule (fun _ _ => True) (salary_year expected_growth)
              (Py.range 0 (time_horizon self)))
    with (s := base_salary) (g := g) as (st & g' & Hret & _).
  - intros _ year s g0 _. eexists _, _. split; [|done].
    unfold salary_year, Np.random_normal, mbind, M_bind. reflexivity.
  - done.
  - exists st, g'. by rewrite (bind_Return _ _ _ _ _ Hret).
Qed.

Lemma investment_run_Return initial_amount expected_return volatility xs i g :
  exists v g', investment_run self initial_amount expected_return volatility xs i g
               = Return (xs ++ [v], g').
Proof.
  unfold investment_run.
  destruct (for_each_rule (fun _ _ => True) (investment_year expected_return volatility)
              (Py.range 0 (time_horizon self)))
    with (s := initial_amount) (g := g) as (st & g' & Hret & _).
  - intros _ year s g0 _. eexists _, _. split; [|done].
    unfold investment_year, Np.random_normal, mbind, M_bind. reflexivity.
  - done.
  - exists st, g'. by rewrite (bind_Return _ _ _ _ _ Hret).
Qed.

Lemma nonempty_of_length (xs : list Q) (n : Z) :
  (1 <= n)%Z -> length xs = Z.to_nat n -> xs ≠ [].
Proof. intros Hn Hlen ->. simpl in Hlen. lia. Qed.

End MonteCarlo.

(** ** The summaries of a non-empty sample *)

Section Summaries.

Variable sqrt : Q -> Q.
Variable self : SimulationEngine.

#[local] Open Scope Q_scope.

Lemma savings_summary_Return xs :
  xs ≠ [] -> exists s, savings_summary sqrt xs = Return s.
Proof.
  intros Hxs. unfold savings_summary.
  rewrite mean_Return, std_Return, !percentile_Return by done.
  eexists. reflexivity.
Qed.

Lemma salary_summary_Return xs :
  xs ≠ [] -> exists s, salary_summary sqrt xs = Return s.
Proof.
  intros Hxs. unfold salary_summary.
  rewrite mean_Return, std_Return, !percentile_Return by done.
  eexists. reflexivity.
Qed.

Lemma investment_summary_Return xs ref :
  xs ≠ [] -> exists s, investment_summary sqrt xs ref = Return s.
Proof.
  intros Hxs. unfold investment_summary.
  rewrite (mean_Return xs), std_Return, !percentile_Return by done.
  rewrite (mean_Return (Np.less xs ref)) by by apply less_nonempty.
  eexists. reflexivity.
Qed.

(** Each Monte Carlo function returns the summary of a sample of
    [monte_carlo_runs] terminal values. *)
Lemma _run_monte_carlo_savings_Return base_salary yearly_cost tax_rate g :
  (1 <= monte_carlo_runs self)%Z ->
  exists xs s g',
    _run_monte_carlo_savings sqrt self base_salary yearly_cost tax_rate g = Return (s, g') /\
    length xs = Z.to_nat (monte_carlo_runs self) /\
    savings_summary sqrt xs = Return s.
Proof.
  intros Hn. unfold _run_monte_carlo_savings.
  destruct (sample_loop (savings_run self base_salary yearly_cost tax_rate)
              (monte_carlo_runs self) g) as (xs & g' & Hret & Hlen).
  { intros. apply savings_run_Return. }
  destruct (savings_summary_Return xs) as [s Hs].
  { by eapply nonempty_of_length. }
  exists xs, s, g'. split; [|done].
  rewrite (bind_Return _ _ _ _ _ Hret). by apply lift_Return.
Qed.

Lemma _run_monte_carlo_salary_Return base_salary expected_growth g :
  (1 <= monte_carlo_runs self)%Z ->
  exists xs s g',
    _run_monte_carlo_salary sqrt self base_salary expected_growth g = Return (s, g') /\
    length xs = Z.to_nat (monte_carlo_runs self) /\
    salary_summary sqrt xs = Return s.
Proof.
  intros Hn. unfold _run_monte_carlo_salary.
  destruct (sample_loop (salary_run self base_salary expected_growth)
              (monte_carlo_runs self) g) as (xs & g' & Hret & Hlen).
  { intros. apply salary_run_Return. }
  destruct (salary_summary_Return xs) as [s Hs].
  { by eapply nonempty_of_length. }
  exists xs, s, g'. split; [|done].
  rewrite (bind_Return _ _ _ _ _ Hret). by apply lift_Return.
Qed.

Lemma _run_monte_carlo_investment_Return initial_amount expected_return volatility g :
  (1 <= monte_carlo_runs self)%Z ->
  exists xs s g',
    _run_monte_carlo_investment sqrt self initial_amount expected_return volatility g
      = Return (s, g') /\
    length xs = Z.to_nat (monte_carlo_runs self) /\
    investment_summary sqrt xs initial_amount = Return s.
Proof.
  intros Hn. unfold _run_monte_carlo_investment.
  destruct (sample_loop (investment_run self initial_amount expected_return volatility)
              (monte_carlo_runs self) g) as (xs & g' & Hret & Hlen).
  { intros. apply investment_run_Return. }
  destruct (investment_summary_Return xs initial_amount) as [s Hs].
  { by eapply nonempty_of_length. }
  exists xs, s, g'. split; [|done].
  rewrite (bind_Return _ _ _ _ _ Hret). by apply lift_Return.
Qed.

End Summaries.

(** ** Loops that fill the result dicts *)

(** A loop whose every iteration stores a trajectory and a summary under
    the key of its element ends with both dicts keyed by the elements'
    keys, and keeps what holds of each stored value. *)
Lemma keyed_loop_rule {A} (key : A -> string)
    (P : string -> list (gmap string value) -> Prop)
    (R : string -> gmap string Q -> Prop)
    (body : gmap string (list (gmap string value)) * gmap string (gmap string Q) -> A ->
            M (gmap string (list (gmap string value)) * gmap string (gmap string Q))) l :
  (forall st x g, exists pts s g',
     body st x g = Return ((<[key x := pts]> st.1, <[key x := s]> st.2), g') /\
     P (key x) pts /\ R (key x) s) ->
  forall g, exists st g',
    for_each l body (∅, ∅) g = Return (st, g') /\
    dom st.1 = list_to_set (key <$> l) /\
    dom st.2 = list_to_set (key <$> l) /\
    map_Forall P st.1 /\ map_Forall R st.2.
Proof.
  intros Hbody g.
  apply (for_each_rule
           (fun pre st => dom st.1 = list_to_set (key <$> pre) /\
                          dom st.2 = list_to_set (key <$> pre) /\
                          map_Forall P st.1 /\ map_Forall R st.2)).
  - intros pre x st g0 (Hd1 & Hd2 & HP & HR).
    destruct (Hbody st x g0) as (pts & s & g1 & Hret & Hpts & Hs).
    eexists _, g1. split; [exact Hret|]. simpl.
    rewrite !dom_insert_L, Hd1, Hd2, fmap_app, list_to_set_app_L. simpl.
    rewrite union_empty_r_L.
    repeat split; [apply (comm_L (∪)) | apply (comm_L (∪)) | |].
    + by apply map_Forall_insert_2.
    + by apply map_Forall_insert_2.
  - simpl. rewrite !dom_empty_L. repeat split; try done; apply map_Forall_empty.
Qed.

(** The same for a loop that only stores trajectories and never draws. *)
Lemma keyed_fold_rule {A} (key : A -> string)
    (P : string -> list (gmap string value) -> Prop)
    (body : gmap string (list (gmap string value)) -> A ->
            gmap string (list (gmap string value))) l :
  (forall m x, exists pts, body m x = <[key x := pts]> m /\ P (key x) pts) ->
  dom (fold_left body l ∅) = list_to_set (key <$> l) /\
  map_Forall P (fold_left body l ∅).
Proof.
  intros Hbody.
  apply (fold_left_rule
           (fun pre m => dom m = list_to_set (key <$> pre) /\ map_Forall P m)).
  - intros pre x m (Hd & HP). destruct (Hbody m x) as (pts & -> & Hpts).
    rewrite dom_insert_L, Hd, fmap_app, list_to_set_app_L. simpl.
    rewrite union_empty_r_L.
    split; [apply (comm_L (∪))|]. by apply map_Forall_insert_2.
  - rewrite dom_empty_L. split; [done|]. apply map_Forall_empty.
Qed.


(** ** The yearly loops *)

Lemma year_lookup (year : Z) (rest : gmap string value) :
  <["year"%string := VInt year]> rest !! "year"%string = Some (VInt year).
Proof. apply lookup_insert_eq. Qed.



Lemma fold_left_snoc {A B} (f : A -> B) (l : list A) (acc : list B) :
  fold_left (fun acc x => acc ++ [f x]) l acc = acc ++ (f <$> l).
Proof.
  revert acc. induction l as [|x l IH]; intros acc; simpl.
  - by rewrite app_nil_r.
  - by rewrite IH, <- app_assoc.
Qed.

Section Strategies.

Variable sqrt : Q -> Q.
Variable self : SimulationEngine.

#[local] Open Scope Q_scope.

(** The relocation trajectory is the list of the yearly points. *)
Lemma relocation_projection_eq base_salary yearly_cost effective_tax :
  relocation_projection self base_salary yearly_cost effective_tax
  = (fun year => relocation_point year
        (relocation_figures_of base_salary yearly_cost effective_tax year))
    <$> Py.range 1 (time_horizon self + 1).
Proof.
  unfold relocation_projection, relocation_year.
  exact (fold_left_snoc
           (fun year => relocation_point year
              (relocation_figures_of base_salary yearly_cost effective_tax year))
           _ []).
Qed.

Lemma relocation_projection_numbered base_salary yearly_cost effective_tax :
  well_numbered (time_horizon self)
    (relocation_projection self base_salary yearly_cost effective_tax).
Proof.
  unfold well_numbered. rewrite relocation_projection_eq, <- list_fmap_compose.
  apply list_fmap_ext. intros i year _. apply year_lookup.
Qed.

Lemma purchase_years_numbered yearly_maintenance depreciation_rate initial_cost :
  well_numbered (time_horizon self)
    (fold_left (purchase_year yearly_maintenance depreciation_rate)
               (Py.range 1 (time_horizon self + 1))
               ([], initial_cost, initial_cost)).1.1.
Proof.
  unfold well_numbered.
  apply (fold_left_rule
           (fun pre (st : list (gmap string value) * Q * Q) =>
              (fun p => p !! "year"%string) <$> st.1.1
              = (fun y => Some (VInt y)) <$> pre)); [|done].
  intros pre year [[pts cv] tc] Hpts. simpl in *.
  rewrite !fmap_app, Hpts. simpl. by rewrite year_lookup.
Qed.

Lemma job_years_numbered base_salary growth_rate :
  well_numbered (time_horizon self)
    (fold_left (job_year base_salary growth_rate)
               (Py.range 1 (time_horizon self + 1)) ([], 0)).1.
Proof.
  unfold well_numbered.
  apply (fold_left_rule
           (fun pre (st : list (gmap string value) * Q) =>
              (fun p => p !! "year"%string) <$> st.1
              = (fun y => Some (VInt y)) <$> pre)); [|done].
  intros pre year [pts ce] Hpts. simpl in *.
  rewrite !fmap_app, Hpts. simpl. by rewrite year_lookup.
Qed.

Lemma truediv_Return a b : ~ b == 0 -> truediv a b = Return (a / b).
Proof.
  intros Hb. unfold truediv.
  destruct (Qeq_bool b 0) eqn:E; [|done]. by apply Qeq_bool_iff in E.
Qed.

Lemma investment_years_numbered amount expected_return g :
  ~ amount == 0 ->
  exists st g',
    for_each (Py.range 1 (time_horizon self + 1))
             (investment_det_year amount expected_return) ([], amount) g
      = Return (st, g') /\
    well_numbered (time_horizon self) st.1.
Proof.
  intros Hamount. unfold well_numbered.
  apply (for_each_rule
           (fun pre (st : list (gmap string value) * Q) =>
              (fun p => p !! "year"%string) <$> st.1
              = (fun y => Some (VInt y)) <$> pre)); [|done].
  intros pre year [pts cv] g0 Hpts. simpl in *.
  unfold investment_det_year.
  eexists _, g0. split.
  - erewrite bind_Return; [reflexivity|].
    apply lift_Return, truediv_Return, Hamount.
  - simpl. rewrite !fmap_app, Hpts. simpl. by rewrite year_lookup.
Qed.

(** *** What each strategy returns *)

Lemma _simulate_relocation_spec sd ext now g :
  (1 <= monte_carlo_runs self)%Z ->
  exists proj mc g',
    _simulate_relocation sqrt self sd ext now g
      = Return ({| projections := proj; monte_carlo := Some mc;
                   metadata := {[ "time_horizon_years" := VInt (time_horizon self);
                                  "monte_carlo_runs" := VInt (monte_carlo_runs self);
                                  "simulation_date" := VStr now ]} |}, g') /\
    dom proj = list_to_set (default [] (cities sd)) /\
    dom mc = list_to_set (default [] (cities sd)) /\
    map_Forall (fun city pts => pts = relocation_entry self sd ext city) proj /\
    map_Forall (fun _ => summarises (savings_summary sqrt) (monte_carlo_runs self)) mc.
Proof.
  intros Hn. unfold _simulate_relocation.
  destruct (keyed_loop_rule id
              (fun city pts => pts = relocation_entry self sd ext city)
              (fun _ => summarises (savings_summary sqrt) (monte_carlo_runs self))
              (relocation_city sqrt self sd ext) (default [] (cities sd))) with (g := g)
    as ([proj mc] & g' & Hret & Hd1 & Hd2 & HP & HR).
  { intros [proj mc] city g0. unfold relocation_city.
    destruct (_run_monte_carlo_savings_Return sqrt self (base_salary_of sd)
                (monthly_cost_of (col_of ext (Py.lower city)) * 12)
                (effective_tax_of (tax_of ext (Py.lower city))) g0 Hn)
      as (xs & s & g1 & Hmc & Hlen & Hs).
    eexists _, s, g1. split; [|split].
    - erewrite bind_Return; [reflexivity|exact Hmc].
    - reflexivity.
    - by exists xs. }
  rewrite list_fmap_id in Hd1, Hd2.
  exists proj, mc, g'. split; [|done].
  by rewrite (bind_Return _ _ _ _ _ Hret).
Qed.

Lemma _simulate_purchase_spec sd ext now :
  exists proj,
    _simulate_purchase self sd ext now
      = {| projections := proj; monte_carlo := None;
           metadata := {[ "time_horizon_years" := VInt (time_horizon self);
                          "simulation_date" := VStr now ]} |} /\
    dom proj = list_to_set (default [] (options sd)) /\
    map_Forall (fun _ => well_numbered (time_horizon self)) proj.
Proof.
  unfold _simulate_purchase.
  destruct (keyed_fold_rule snd (fun _ => well_numbered (time_horizon self))
              (purchase_option self (default 50000 (budget sd)))
              (Py.enumerate (default [] (options sd)))) as [Hd HP].
  { intros m [i opt]. eexists. split; [reflexivity|].
    apply purchase_years_numbered. }
  rewrite enumerate_snd in Hd. by eexists.
Qed.

Lemma _simulate_job_spec sd ext now g :
  (1 <= monte_carlo_runs self)%Z ->
  exists proj mc g',
    _simulate_job sqrt self sd ext now g
      = Return ({| projections := proj; monte_carlo := Some mc;
                   metadata := {[ "time_horizon_years" := VInt (time_horizon self);
                                  "monte_carlo_runs" := VInt (monte_carlo_runs self);
                                  "simulation_date" := VStr now ]} |}, g') /\
    dom proj = list_to_set (default [] (options sd)) /\
    dom mc = list_to_set (default [] (options sd)) /\
    map_Forall (fun _ => well_numbered (time_horizon self)) proj /\
    map_Forall (fun _ => summarises (salary_summary sqrt) (monte_carlo_runs self)) mc.
Proof.
  intros Hn. unfold _simulate_job.
  destruct (keyed_loop_rule snd
              (fun _ => well_numbered (time_horizon self))
              (fun _ => summarises (salary_summary sqrt) (monte_carlo_runs self))
              (job_option sqrt self) (Py.enumerate (default [] (options sd)))) with (g := g)
    as ([proj mc] & g' & Hret & Hd1 & Hd2 & HP & HR).
  { intros [proj mc] [i opt] g0. unfold job_option.
    destruct (_run_monte_carlo_salary_Return sqrt self (inject_Z (70000 + i * 15000))
                ((5 # 100) + inject_Z i * (2 # 100)) g0 Hn)
      as (xs & s & g1 & Hmc & Hlen & Hs).
    eexists _, s, g1. split; [|split].
    - erewrite bind_Return; [reflexivity|exact Hmc].
    - apply job_years_numbered.
    - by exists xs. }
  rewrite enumerate_snd in Hd1, Hd2.
  exists proj, mc, g'. split; [|done].
  by rewrite (bind_Return _ _ _ _ _ Hret).
Qed.

Lemma _simulate_investment_spec sd ext now g :
  (1 <= monte_carlo_runs self)%Z ->
  ~ default 10000 (amount sd) == 0 ->
  exists proj mc g',
    _simulate_investment sqrt self sd ext now g
      = Return ({| projections := proj; monte_carlo := Some mc;
                   metadata := {[ "time_horizon_years" := VInt (time_horizon self);
                                  "monte_carlo_runs" := VInt (monte_carlo_runs self);
                                  "initial_amount" := VFloat (default 10000 (amount sd));
                                  "simulation_date" := VStr now ]} |}, g') /\
    dom proj = list_to_set (default [] (options sd)) /\
    dom mc = list_to_set (default [] (options sd)) /\
    map_Forall (fun _ => well_numbered (time_horizon self)) proj /\
    map_Forall (fun _ s => summarises
                  (fun xs => investment_summary sqrt xs (default 10000 (amount sd)))
                  (monte_carlo_runs self) s) mc.
Proof.
  intros Hn Hamount. unfold _simulate_investment.
  destruct (keyed_loop_rule id
              (fun _ => well_numbered (time_horizon self))
              (fun _ s => summarises
                 (fun xs => investment_summary sqrt xs (default 10000 (amount sd)))
                 (monte_carlo_runs self) s)
              (investment_option sqrt self (default 10000 (amount sd)))
              (default [] (options sd))) with (g := g)
    as ([proj mc] & g' & Hret & Hd1 & Hd2 & HP & HR).
  { intros [proj mc] opt g0. unfold investment_option.
    destruct (investment_years_numbered (default 10000 (amount sd))
                (params_of opt).1 g0 Hamount) as (yst & g1 & Hyears & Hnum).
    destruct (_run_monte_carlo_investment_Return sqrt self (default 10000 (amount sd))
                (params_of opt).1 (params_of opt).2 g1 Hn)
      as (xs & s & g2 & Hmc & Hlen & Hs).
    eexists _, s, g2. split; [|split].
    - erewrite bind_Return; [|exact Hyears].
      erewrite bind_Return; [reflexivity|exact Hmc].
    - exact Hnum.
    - by exists xs. }
  rewrite list_fmap_id in Hd1, Hd2.
  exists proj, mc, g'. split; [|done].
  by rewrite (bind_Return _ _ _ _ _ Hret).
Qed.

End Strategies.

(** ** What a run returns *)

Section Run.

Variable sqrt : Q -> Q.
Variable self : SimulationEngine.

#[local] Open Scope Q_scope.

Lemma run_simulation_spec kind sd ext now g :
  (1 <= monte_carlo_runs self)%Z ->
  (kind = INVESTMENT -> ~ default 10000 (amount sd) == 0) ->
  exists out g',
    run_simulation sqrt self kind sd ext now g = Return (out, g') /\
    dom (projections out) = list_to_set (names_of kind sd) /\
    map_Forall (fun _ => well_numbered (time_horizon self)) (projections out) /\
    match summary_of sqrt kind sd with
    | None => monte_carlo out = None
    | Some summary =>
        exists mc, monte_carlo out = Some mc /\
                   dom mc = list_to_set (names_of kind sd) /\
                   map_Forall (fun _ => summarises summary (monte_carlo_runs self)) mc
    end /\
    metadata out !! "time_horizon_years"%string = Some (VInt (time_horizon self)) /\
    metadata out !! "simulation_date"%string = Some (VStr now) /\
    metadata out !! "monte_carlo_runs"%string
      = match kind with
        | PURCHASE => None
        | _ => Some (VInt (monte_carlo_runs self))
        end.
Proof.
  intros Hn Hamount. destruct kind; simpl.
  - destruct (_simulate_relocation_spec sqrt self sd ext now g Hn)
      as (proj & mc & g' & -> & Hd1 & Hd2 & HP & HR).
    eexists _, g'. split; [reflexivity|]. simpl.
    split_and!; [done| |by exists mc|done..].
    intros city pts Hpts. rewrite (HP city pts Hpts).
    apply relocation_projection_numbered.
  - destruct (_simulate_purchase_spec self sd ext now) as (proj & -> & Hd & HP).
    eexists _, g. split; [reflexivity|]. simpl. by split_and!.
  - destruct (_simulate_job_spec sqrt self sd ext now g Hn)
      as (proj & mc & g' & -> & Hd1 & Hd2 & HP & HR).
    eexists _, g'. split; [reflexivity|]. simpl.
    split_and!; [done|done|by exists mc|done..].
  - destruct (_simulate_investment_spec sqrt self sd ext now g Hn (Hamount eq_refl))
      as (proj & mc & g' & -> & Hd1 & Hd2 & HP & HR).
    eexists _, g'. split; [reflexivity|]. simpl.
    split_and!; [done|done|by exists mc|done..].
Qed.

End Run.

(** ** Keys and numbering of the projections *)





(** ** Configuration *)




(** ** The Monte Carlo field *)

Lemma summarises_keys sqrt kind sd summary n s :
  summary_of sqrt kind sd = Some summary ->
  summarises summary n s ->
  is_Some (s !! "mean"%string) /\ is_Some (s !! "std"%string) /\
  is_Some (s !! "p5"%string) /\ is_Some (s !! "p95"%string).
Proof.
  intros Hk (xs & _ & Hs).
  destruct xs as [|x xs].
  { destruct kind; simplify_eq/=; discriminate. }
  destruct kind; simplify_eq/=.
  - unfold savings_summary in Hs.
    rewrite mean_Return, std_Return, !percentile_Return in Hs by done.
    simpl in Hs. injection Hs as <-. split_and!; by eexists.
  - unfold salary_summary in Hs.
    rewrite mean_Return, std_Return, !percentile_Return in Hs by done.
    simpl in Hs. injection Hs as <-. split_and!; by eexists.
  - unfold investment_summary in Hs.
    rewrite (mean_Return (x :: xs)), std_Return, !percentile_Return in Hs by done.
    rewrite (mean_Return (Np.less _ _)) in Hs by done.
    simpl in Hs. injection Hs as <-. split_and!; by eexists.
Qed.

(** C4.  [monte_carlo] is [None] exactly for a purchase; for the other
    decision types it is a dict holding a summary (with its mean, standard
    deviation, 5th and 95th percentile) under every input name. *)
Theorem monte_carlo_none_iff_purchase sqrt self kind sd ext now g :
  1 <= time_horizon self ->
  1 <= monte_carlo_runs self ->
  (kind = INVESTMENT -> ~ (default 10000 (amount sd) == 0)%Q) ->
  exists out g',
    run_simulation sqrt self kind sd ext now g = Return (out, g') /\
    (monte_carlo out = None <-> kind = PURCHASE) /\
    (kind <> PURCHASE ->
     exists mc, monte_carlo out = Some mc /\
       forall name, name ∈ names_of kind sd ->
         exists s, mc !! name = Some s /\
           is_Some (s !! "mean"%string) /\ is_Some (s !! "std"%string) /\
           is_Some (s !! "p5"%string) /\ is_Some (s !! "p95"%string)).
Proof.
  intros HT Hn Hamount.
  destruct (run_simulation_spec sqrt self kind sd ext now g Hn Hamount)
    as (out & g' & Hret & _ & _ & Hmc & _).
  exists out, g'. split; [done|].
  destruct (summary_of sqrt kind sd) as [summary|] eqn:Hk.
  - destruct Hmc as (mc & Hsome & Hdom & Hall).
    assert (kind <> PURCHASE) as Hkind by (intros ->; discriminate).
    split; [split; [by rewrite Hsome|done]|].
    intros _. exists mc. split; [done|].
    intros name Hname.
    assert (name ∈ dom mc) as Hin by (by rewrite Hdom, elem_of_list_to_set).
    apply elem_of_dom in Hin as [s Hs]. exists s. split; [done|].
    eapply summarises_keys; [exact Hk|]. by apply (Hall name).
  - assert (kind = PURCHASE) as -> by (by destruct kind).
    split; [done|]. by intros [].
Qed.

Lemma monte_carlo_none_iff_purchase_witness :
  (1 <= time_horizon (__init__ 2 3) /\ 1 <= monte_carlo_runs (__init__ 2 3) /\
   (INVESTMENT = INVESTMENT ->
    ~ (default 10000 (amount (options_only ["stocks"; "gold"]%string)) == 0)%Q)) /\
  exists out g',
    run_simulation sqrt_floor (__init__ 2 3) INVESTMENT
      (options_only ["stocks"; "gold"]%string) no_external "2026-01-01"
      (constant_rng (1 # 2)) = Return (out, g') /\
    (monte_carlo out = None <-> INVESTMENT = PURCHASE) /\
    (INVESTMENT <> PURCHASE ->
     exists mc, monte_carlo out = Some mc /\
       forall name, name ∈ names_of INVESTMENT (options_only ["stocks"; "gold"]%string) ->
         exists s, mc !! name = Some s /\
           is_Some (s !! "mean"%string) /\ is_Some (s !! "std"%string) /\
           is_Some (s !! "p5"%string) /\ is_Some (s !! "p95"%string)).
Proof.
  split.
  - split; [simpl; lia|]. split; [simpl; lia|]. intros _. vm_compute. discriminate.
  - apply (monte_carlo_none_iff_purchase sqrt_floor (__init__ 2 3) INVESTMENT
             (options_only ["stocks"; "gold"]%string) no_external "2026-01-01"
             (constant_rng (1 # 2))).
    + simpl; lia.
    + simpl; lia.
    + intros _. vm_compute. discriminate.
Defined.

(** ** Metadata *)

(** C6, as amended.  The metadata of every run carry the configured horizon
    and the time stamp of the call; the configured number of Monte Carlo
    runs is carried, unchanged, by relocation, job and investment runs, and
    is absent from the metadata of a purchase run. *)
Theorem metadata_of_run sqrt self kind sd ext now g :
  1 <= time_horizon self ->
  1 <= monte_carlo_runs self ->
  (kind = INVESTMENT -> ~ (default 10000 (amount sd) == 0)%Q) ->
  exists out g',
    run_simulation sqrt self kind sd ext now g = Return (out, g') /\
    metadata out !! "time_horizon_years"%string = Some (VInt (time_horizon self)) /\
    metadata out !! "simulation_date"%string = Some (VStr now) /\
    (kind <> PURCHASE ->
     metadata out !! "monte_carlo_runs"%string = Some (VInt (monte_carlo_runs self))) /\
    (kind = PURCHASE -> metadata out !! "monte_carlo_runs"%string = None).
Proof.
  intros HT Hn Hamount.
  destruct (run_simulation_spec sqrt self kind sd ext now g Hn Hamount)
    as (out & g' & Hret & _ & _ & _ & Hhorizon & Hdate & Hruns).
  exists out, g'. split_and!; [done..| |].
  - intros Hkind. rewrite Hruns. by destruct kind.
  - intros ->. by rewrite Hruns.
Qed.

Lemma metadata_of_run_witness :
  (1 <= time_horizon (__init__ 5 1000) /\ 1 <= monte_carlo_runs (__init__ 5 1000) /\
   (JOB = INVESTMENT -> ~ (default 10000 (amount (options_only []%list)) == 0)%Q)) /\
  exists out g',
    run_simulation sqrt_floor (__init__ 5 1000) JOB (options_only []%list)
      no_external "2026-01-01" (constant_rng 0) = Return (out, g') /\
    metadata out !! "time_horizon_years"%string
      = Some (VInt (time_horizon (__init__ 5 1000))) /\
    metadata out !! "simulation_date"%string = Some (VStr "2026-01-01") /\
    (JOB <> PURCHASE ->
     metadata out !! "monte_carlo_runs"%string
       = Some (VInt (monte_carlo_runs (__init__ 5 1000)))) /\
    (JOB = PURCHASE -> metadata out !! "monte_carlo_runs"%string = None).
Proof.
  split.
  - split; [simpl; lia|]. split; [simpl; lia|]. discriminate.
  - apply (metadata_of_run sqrt_floor (__init__ 5 1000) JOB (options_only []%list)
             no_external "2026-01-01" (constant_rng 0)).
    + simpl; lia.
    + simpl; lia.
    + discriminate.
Defined.

(** C6, as stated, fails for a purchase: the engine is configured with
    1000 Monte Carlo runs and the metadata of the run do not carry them. *)
Lemma purchase_metadata_lack_runs :
  let run := run_simulation sqrt_floor (__init__ 5 1000) PURCHASE
               (options_only ["A"]%string) no_external "2026-01-01" (constant_rng 0) in
  monte_carlo_runs (__init__ 5 1000) = 1000 /\
  (fun out => fields_of ["time_horizon_years"; "monte_carlo_runs"; "simulation_date"]%string
                (metadata out)) <$> output_of run
  = Some [Some (VInt 5); None; Some (VStr "2026-01-01")].
Proof. split; [reflexivity|]. vm_compute. reflexivity. Qed.

(** ** Rounding and lower-casing *)

Lemma lower_ascii_idempotent c : Py.lower_ascii (Py.lower_ascii c) = Py.lower_ascii c.
Proof. destruct c as [[] [] [] [] [] [] [] []]; reflexivity. Qed.

Lemma lower_idempotent s : Py.lower (Py.lower s) = Py.lower s.
Proof.
  induction s as [|c s IH]; simpl; [done|].
  by rewrite lower_ascii_idempotent, IH.
Qed.

#[local] Open Scope Q_scope.

Lemma round_half_even_proper x y : x == y -> Py.round_half_even x = Py.round_half_even y.
Proof.
  intros Hxy. unfold Py.round_half_even.
  rewrite (Qfloor_comp x y Hxy).
  assert (x - inject_Z (Qfloor y) == y - inject_Z (Qfloor y)) as Hr by (by rewrite Hxy).
  by rewrite (Qcompare_comp _ _ Hr (1 # 2) (1 # 2) (Qeq_refl _)).
Qed.

Lemma round_proper x y n : x == y -> Py.round x n = Py.round y n.
Proof.
  intros Hxy. unfold Py.round.
  rewrite (round_half_even_proper (x * _) (y * inject_Z (10 ^ Z.of_nat n))); [done|].
  by rewrite Hxy.
Qed.

#[local] Close Scope Q_scope.

(** ** Relocation *)

Section Relocation.

Variable sqrt : Q -> Q.
Variable self : SimulationEngine.

#[local] Open Scope Q_scope.

(** Every listed city has its trajectory and its summary. *)
Lemma relocation_entries sd ext now g :
  (1 <= monte_carlo_runs self)%Z ->
  exists out g' mc,
    run_simulation sqrt self RELOCATION sd ext now g = Return (out, g') /\
    monte_carlo out = Some mc /\
    forall city, city ∈ default [] (cities sd) ->
      projections out !! city = Some (relocation_entry self sd ext city) /\
      is_Some (mc !! city).
Proof.
  intros Hn. simpl.
  destruct (_simulate_relocation_spec sqrt self sd ext now g Hn)
    as (proj & mc & g' & -> & Hd1 & Hd2 & HP & _).
  eexists _, g', mc. split; [reflexivity|]. split; [reflexivity|]. simpl.
  intros city Hcity. split.
  - assert (city ∈ dom proj) as Hin by (by rewrite Hd1, elem_of_list_to_set).
    apply elem_of_dom in Hin as [pts Hpts].
    by rewrite Hpts, (HP city pts Hpts).
  - apply elem_of_dom. by rewrite Hd2, elem_of_list_to_set.
Qed.

(** The point of year [y] sits at index [y - 1]. *)
Lemma relocation_projection_lookup base_salary yearly_cost effective_tax (y : Z) :
  (1 <= y <= time_horizon self)%Z ->
  relocation_projection self base_salary yearly_cost effective_tax !! Z.to_nat (y - 1)
  = Some (relocation_point y
            (relocation_figures_of base_salary yearly_cost effective_tax y)).
Proof.
  intros Hy. rewrite relocation_projection_eq, list_lookup_fmap.
  rewrite range_lookup by lia. simpl.
  by replace (1 + Z.of_nat (Z.to_nat (y - 1)))%Z with y by lia.
Qed.

(** Trajectories do not depend on how the rational inputs are written. *)
Lemma relocation_point_proper y f f' :
  adjusted_salary f == adjusted_salary f' ->
  net_income f == net_income f' ->
  adjusted_cost f == adjusted_cost f' ->
  savings f == savings f' ->
  relocation_point y f = relocation_point y f'.
Proof.
  intros H1 H2 H3 H4. unfold relocation_point.
  rewrite (round_proper _ _ 2 H1), (round_proper _ _ 2 H2),
    (round_proper _ _ 2 H3), (round_proper _ _ 2 H4).
  rewrite (round_proper (savings f * inject_Z y) (savings f' * inject_Z y)); [done|].
  by rewrite H4.
Qed.

Lemma relocation_projection_proper b c t b' c' t' :
  b == b' -> c == c' -> t == t' ->
  relocation_projection self b c t = relocation_projection self b' c' t'.
Proof.
  intros Hb Hc Ht. rewrite !relocation_projection_eq.
  apply list_fmap_ext. intros _ year _.
  apply relocation_point_proper; simpl.
  - by rewrite Hb.
  - by rewrite Hb, Ht.
  - by rewrite Hc.
  - by rewrite Hb, Hc, Ht.
Qed.

End Relocation.

(** ** The yearly loop in binary64 *)

Section Binary64Loop.

Variable float : Type.
Variable literal : Q -> float.
Variable of_int : Z -> float.
Variable mul : float -> float -> float.
Variable sub : float -> float -> float.
Variable pow : float -> Z -> option float.
Variable round : float -> Z -> float.

Lemma binary64_for_each_app {A St} (l1 l2 : list A) (body : St -> A -> option St) st :
  Binary64.for_each (l1 ++ l2) body st
  = Binary64.for_each l1 body st ≫= Binary64.for_each l2 body.
Proof.
  revert st. induction l1 as [|x l1 IH]; intros st; simpl; [done|].
  destruct (body st x) as [st'|]; simpl; [apply IH|done].
Qed.



(** The first overflow of a power stops the loop. *)
Lemma binary64_loop_overflow (self : SimulationEngine) base_salary yearly_cost effective_tax
    year :
  1 <= year <= time_horizon self ->
  Binary64.relocation_figures_of float literal of_int mul sub pow
    base_salary yearly_cost effective_tax year = None ->
  Binary64.relocation_projection float literal of_int mul sub pow round self
    base_salary yearly_cost effective_tax = None.
Proof.
  intros Hyear Hnone. unfold Binary64.relocation_projection.
  rewrite range_to_nat.
  replace (Z.to_nat (time_horizon self))
    with (Z.to_nat (year - 1) + S (Z.to_nat (time_horizon self - year)))%nat by lia.
  rewrite range_split, binary64_for_each_app.
  replace (1 + Z.of_nat (Z.to_nat (year - 1))) with year by lia.
  destruct (Binary64.for_each (Py.range 1 year) _ []) as [st|]; simpl; [|done].
  unfold Py.range.
  replace (Z.to_nat (year + Z.of_nat (S (Z.to_nat (time_horizon self - year))) - year))
    with (S (Z.to_nat (time_horizon self - year))) by lia.
  simpl. replace (year + Z.of_nat 0) with year by lia.
  assert (Binary64.relocation_year float literal of_int mul sub pow round
            base_salary yearly_cost effective_tax st year = None) as ->; [|done].
  unfold Binary64.relocation_year. by rewrite Hnone.
Qed.

End Binary64Loop.



(** Over the exact arithmetic of the rationals the loop of [Binary64] is
    the loop of the engine's model. *)
Lemma binary64_exact_point year base_salary yearly_cost effective_tax f :
  Binary64.relocation_figures_of Q id inject_Z Qmult Qminus Binary64.exact_pow
    base_salary yearly_cost effective_tax year = Some f ->
  value_of_number <$> Binary64.relocation_point Q inject_Z Qmult Binary64.exact_round year f
  = relocation_point year (relocation_figures_of base_salary yearly_cost effective_tax year).
Proof.
  intros Hf. injection Hf as <-.
  unfold Binary64.relocation_point, relocation_point.
  rewrite !fmap_insert, map_fmap_singleton. reflexivity.
Qed.

Lemma binary64_exact_loop base_salary yearly_cost effective_tax l
    (st : list (gmap string (Binary64.number Q))) :
  values_of_numbers
    <$> Binary64.for_each l
          (Binary64.relocation_year Q id inject_Z Qmult Qminus Binary64.exact_pow
             Binary64.exact_round base_salary yearly_cost effective_tax) st
  = Some (fold_left (relocation_year base_salary yearly_cost effective_tax) l
            (values_of_numbers st)).
Proof.
  revert st. induction l as [|year l IH]; intros st; simpl; [done|].
  rewrite IH. f_equal. f_equal. unfold relocation_year, values_of_numbers.
  rewrite fmap_app.
  apply (f_equal (fun p => (_ <$> st) ++ [p])). by apply binary64_exact_point.
Qed.

Lemma binary64_exact_projection self base_salary yearly_cost effective_tax :
  values_of_numbers
    <$> Binary64.relocation_projection Q id inject_Z Qmult Qminus Binary64.exact_pow
          Binary64.exact_round self base_salary yearly_cost effective_tax
  = Some (relocation_projection self base_salary yearly_cost effective_tax).
Proof. apply binary64_exact_loop. Qed.

(** The formulas on Berlin's figures, year 2: salary 80000, monthly cost
    1686, tax 0.35; the cumulative savings are twice the savings of year 2. *)
Example relocation_berlin_year_2 :
  fields_of ["year"; "gross_income"; "net_income"; "total_expenses"; "savings";
             "cumulative_savings"]%string
  <$> relocation_entry (__init__ 2 1) (cities_only ["Berlin"]%string) external_lower
        "Berlin" !! 1%nat
  = Some [Some (VInt 2); Some (VFloat (8323200 # 100)); Some (VFloat (5410080 # 100));
          Some (VFloat (2146413 # 100)); Some (VFloat (3263667 # 100));
          Some (VFloat (6527334 # 100))].
Proof. vm_compute. reflexivity. Qed.



(** A city unknown to the external data, first year: cost 24000 * 1.03,
    net income 80000 * 1.02 * 0.70. *)
Example relocation_unknown_city :
  output_of (run_simulation sqrt_floor (__init__ 1 1) RELOCATION
               (cities_only ["Atlantis"]%string) external_lower "2026-01-01"
               (constant_rng 0))
    ≫= point_fields "Atlantis" 0 ["total_expenses"; "net_income"]%string
  = Some [Some (VFloat (2472000 # 100)); Some (VFloat (5712000 # 100))].
Proof. vm_compute. reflexivity. Qed.

Lemma for_each_ext {A S} (body body' : S -> A -> M S) l s g :
  (forall s x g, body s x g = body' s x g) ->
  for_each l body s g = for_each l body' s g.
Proof.
  intros Hext. revert s g. induction l as [|x l IH]; intros s g; simpl; [done|].
  unfold mbind, M_bind. rewrite Hext.
  destruct (body' s x g) as [[s' g']|e]; [apply IH|done].
Qed.

Lemma col_of_without_empty_entry ext key k :
  default ∅ (cost_of_living ext) !! key = Some ∅ ->
  col_of (without_cost_entry key ext) k = col_of ext k.
Proof.
  intros Hentry. unfold col_of, without_cost_entry. simpl.
  destruct (cost_of_living ext) as [m|]; simpl in *.
  - destruct (decide (key = k)) as [<-|Hne].
    + by rewrite lookup_delete_eq, Hentry.
    + by rewrite lookup_delete_ne.
  - by rewrite lookup_empty in Hentry.
Qed.

(** C10.  A cost-of-living entry that is present but has no component is
    treated as an absent one: the monthly cost is the default 2000, not the
    empty sum 0; the trajectory of a city looked up under that key is
    computed with a yearly cost of 24000, and the whole run returns what it
    returns once the entry is removed. *)
Theorem empty_cost_entry_as_absent sqrt self sd ext now g key :
  default ∅ (cost_of_living ext) !! key = Some ∅ ->
  1 <= monte_carlo_runs self ->
  Py.sum_values (col_of ext key) = 0%Q /\
  monthly_cost_of (col_of ext key) = 2000%Q /\
  run_simulation sqrt self RELOCATION sd ext now g
  = run_simulation sqrt self RELOCATION sd (without_cost_entry key ext) now g /\
  exists out g',
    run_simulation sqrt self RELOCATION sd ext now g = Return (out, g') /\
    forall city, city ∈ default [] (cities sd) -> Py.lower city = key ->
      projections out !! city
      = Some (relocation_projection self (base_salary_of sd) 24000
                (effective_tax_of (tax_of ext key))).
Proof.
  intros Hentry Hn.
  assert (col_of ext key = ∅) as Hcol by (unfold col_of; by rewrite Hentry).
  assert (monthly_cost_of (col_of ext key) = 2000%Q) as Hcost by (by rewrite Hcol).
  split; [by rewrite Hcol|]. split; [done|]. split.
  - simpl. unfold _simulate_relocation, mbind, M_bind.
    rewrite (for_each_ext (relocation_city sqrt self sd ext)
               (relocation_city sqrt self sd (without_cost_entry key ext))); [done|].
    intros [proj mc] city g0. unfold relocation_city.
    by rewrite col_of_without_empty_entry.
  - destruct (relocation_entries sqrt self sd ext now g Hn)
      as (out & g' & mc & Hret & _ & Hall).
    exists out, g'. split; [done|]. intros city Hcity <-.
    destruct (Hall city Hcity) as [-> _]. f_equal. unfold relocation_entry.
    rewrite Hcost. by apply relocation_projection_proper.
Qed.

Lemma empty_cost_entry_as_absent_witness :
  (default ∅ (cost_of_living external_empty_entry) !! "oslo"%string = Some ∅ /\
   1 <= monte_carlo_runs (__init__ 2 2)) /\
  Py.sum_values (col_of external_empty_entry "oslo") = 0%Q /\
  monthly_cost_of (col_of external_empty_entry "oslo") = 2000%Q /\
  run_simulation sqrt_floor (__init__ 2 2) RELOCATION (cities_only ["Oslo"]%string)
    external_empty_entry "2026-01-01" (constant_rng 0)
  = run_simulation sqrt_floor (__init__ 2 2) RELOCATION (cities_only ["Oslo"]%string)
      (without_cost_entry "oslo" external_empty_entry) "2026-01-01" (constant_rng 0) /\
  exists out g',
    run_simulation sqrt_floor (__init__ 2 2) RELOCATION (cities_only ["Oslo"]%string)
      external_empty_entry "2026-01-01" (constant_rng 0) = Return (out, g') /\
    forall city, city ∈ default [] (cities (cities_only ["Oslo"]%string)) ->
      Py.lower city = "oslo"%string ->
      projections out !! city
      = Some (relocation_projection (__init__ 2 2)
                (base_salary_of (cities_only ["Oslo"]%string)) 24000
                (effective_tax_of (tax_of external_empty_entry "oslo"))).
Proof.
  split.
  - split; [reflexivity|simpl; lia].
  - apply (empty_cost_entry_as_absent sqrt_floor (__init__ 2 2)
             (cities_only ["Oslo"]%string) external_empty_entry "2026-01-01"
             (constant_rng 0) "oslo").
    + reflexivity.
    + simpl; lia.
Defined.

(** ** Letter case of names *)




(** ** Rounding is monotone *)

Section Rounding.

#[local] Open Scope Q_scope.

Lemma round_half_even_bounds x :
  (Qfloor x <= Py.round_half_even x <= Qfloor x + 1)%Z.
Proof.
  unfold Py.round_half_even.
  destruct (x - inject_Z (Qfloor x) ?= 1 # 2); [destruct (Z.even _)|..]; lia.
Qed.

Lemma round_half_even_mono x y :
  x <= y -> (Py.round_half_even x <= Py.round_half_even y)%Z.
Proof.
  intros Hxy.
  pose proof (Qfloor_resp_le x y Hxy) as Hfloor.
  destruct (decide (Qfloor x = Qfloor y)) as [Heq|Hne].
  - unfold Py.round_half_even. rewrite <- Heq.
    assert (x - inject_Z (Qfloor x) <= y - inject_Z (Qfloor x)) as Hr by lra.
    destruct (Qcompare_spec (x - inject_Z (Qfloor x)) (1 # 2)) as [Hx|Hx|Hx];
      destruct (Qcompare_spec (y - inject_Z (Qfloor x)) (1 # 2)) as [Hy|Hy|Hy];
      try destruct (Z.even (Qfloor x)); try lia; lra.
  - pose proof (round_half_even_bounds x). pose proof (round_half_even_bounds y). lia.
Qed.

Lemma scale_positive (n : nat) : 0 < inject_Z (10 ^ Z.of_nat n).
Proof.
  change 0 with (inject_Z 0). rewrite <- Zlt_Qlt.
  apply Z.pow_pos_nonneg; lia.
Qed.

Lemma round_mono x y n : x <= y -> Py.round x n <= Py.round y n.
Proof.
  intros Hxy. unfold Py.round.
  pose proof (scale_positive n) as Hs.
  apply Qmult_le_compat_r.
  - rewrite <- Zle_Qle. apply round_half_even_mono.
    apply Qmult_le_compat_r; [done|]. by apply Qlt_le_weak.
  - apply Qlt_le_weak, Qinv_lt_0_compat, Hs.
Qed.

Lemma round_nonneg x n : 0 <= x -> 0 <= Py.round x n.
Proof.
  intros Hx. apply Qle_trans with (Py.round 0 n); [|by apply round_mono].
  unfold Py.round. pose proof (scale_positive n) as Hs.
  rewrite (round_half_even_proper (0 * inject_Z (10 ^ Z.of_nat n)) 0) by apply Qmult_0_l.
  change (Py.round_half_even 0) with 0%Z.
  apply Qle_shift_div_l; [done|]. rewrite Qmult_0_l. apply Qle_refl.
Qed.

End Rounding.

(** ** Percentiles are monotone *)

Section Percentiles.

#[local] Open Scope Q_scope.

#[local] Instance Qle_total : Total Qle.
Proof. intros x y. destruct (Qlt_le_dec x y); [left; by apply Qlt_le_weak|by right]. Qed.

#[local] Instance Qle_transitive : Transitive Qle.
Proof. intros x y z. apply Qle_trans. Qed.

Lemma sorted_sample a : StronglySorted Qle (merge_sort Qle a).
Proof. apply StronglySorted_merge_sort; apply _. Qed.

(** Reading a sorted array at increasing positions, with a default that
    dominates the array, gives increasing values. *)
Lemma sorted_nth_mono (l : list Q) (d : Q) (i j : nat) :
  StronglySorted Qle l -> Forall (fun x => x <= d) l -> (i <= j)%nat ->
  nth i l d <= nth j l d.
Proof.
  intros Hsorted. revert i j.
  induction Hsorted as [|x l Hsorted IH Hx]; intros i j Hd Hij.
  - destruct i, j; apply Qle_refl.
  - apply Forall_cons in Hd as [Hxd Hd].
    destruct i as [|i], j as [|j]; simpl; [apply Qle_refl| |lia|apply IH; [done|lia]].
    destruct (nth_in_or_default j l d) as [Hin| ->]; [|done].
    rewrite Forall_forall in Hx. apply Hx. by apply list_elem_of_In.
Qed.

Lemma sorted_last_dominates (l : list Q) :
  StronglySorted Qle l -> Forall (fun x => x <= List.last l 0) l.
Proof.
  induction 1 as [|x l Hsorted IH Hx]; [constructor|].
  destruct l as [|y l]; [repeat constructor; apply Qle_refl|].
  change (List.last (x :: y :: l) 0) with (List.last (y :: l) 0).
  constructor; [|done].
  apply Forall_cons in Hx as [Hxy _]. apply Forall_cons in IH as [Hy _].
  by apply Qle_trans with y.
Qed.

Lemma take_mono arr (i j : Z) :
  StronglySorted Qle arr -> (i <= j)%Z -> Np.take arr i <= Np.take arr j.
Proof.
  intros Hsorted Hij. unfold Np.take.
  apply sorted_nth_mono; [done|by apply sorted_last_dominates|lia].
Qed.

Lemma fraction_bounds v : 0 <= v - inject_Z (Qfloor v) /\ v - inject_Z (Qfloor v) < 1.
Proof.
  pose proof (Qfloor_le v). pose proof (Qlt_floor v) as Hlt.
  rewrite inject_Z_plus in Hlt. change (inject_Z 1) with 1 in Hlt. split; lra.
Qed.

Lemma interpolate_between arr v :
  StronglySorted Qle arr ->
  Np.take arr (Qfloor v) <= Np.interpolate arr v /\
  Np.interpolate arr v <= Np.take arr (Qfloor v + 1).
Proof.
  intros Hsorted. unfold Np.interpolate.
  pose proof (take_mono arr (Qfloor v) (Qfloor v + 1) Hsorted ltac:(lia)) as Hstep.
  destruct (fraction_bounds v) as [H0 H1].
  set (a := Np.take arr (Qfloor v)) in *.
  set (b := Np.take arr (Qfloor v + 1)) in *.
  set (gamma := v - inject_Z (Qfloor v)) in *.
  split; nra.
Qed.

Lemma interpolate_mono arr v w :
  StronglySorted Qle arr -> v <= w -> Np.interpolate arr v <= Np.interpolate arr w.
Proof.
  intros Hsorted Hvw.
  pose proof (Qfloor_resp_le v w Hvw) as Hfloor.
  destruct (decide (Qfloor v = Qfloor w)) as [Heq|Hne].
  - unfold Np.interpolate. rewrite <- Heq.
    pose proof (take_mono arr (Qfloor v) (Qfloor v + 1) Hsorted ltac:(lia)) as Hstep.
    set (a := Np.take arr (Qfloor v)) in *.
    set (b := Np.take arr (Qfloor v + 1)) in *.
    nra.
  - destruct (interpolate_between arr v Hsorted) as [_ Hv].
    destruct (interpolate_between arr w Hsorted) as [Hw _].
    pose proof (take_mono arr (Qfloor v + 1) (Qfloor w) Hsorted ltac:(lia)).
    lra.
Qed.

Lemma size_positive (a : list Q) : a ≠ [] -> 1 <= Np.size a.
Proof.
  intros Ha. unfold Np.size. change 1 with (inject_Z 1). rewrite <- Zle_Qle.
  destruct a; [done|]. simpl. lia.
Qed.

(** The percentile of a non-empty sample grows with the rank asked for. *)
Lemma percentile_mono a q q' :
  a ≠ [] -> q <= q' ->
  exists p p', Np.percentile a q = Return p /\ Np.percentile a q' = Return p' /\ p <= p'.
Proof.
  intros Ha Hq. rewrite !percentile_Return by done.
  eexists _, _. split; [done|]. split; [done|].
  apply interpolate_mono; [apply sorted_sample|].
  pose proof (size_positive a Ha).
  rewrite !(Qmult_comm (Np.size a - 1)).
  apply Qmult_le_compat_r; [|lra].
  apply Qmult_le_compat_r; [done|]. by vm_compute.
Qed.

End Percentiles.

(** ** Ordering inside a summary *)

Section Ordering.

Variable sqrt : Q -> Q.
Hypothesis sqrt_nonneg : forall x, (0 <= x)%Q -> (0 <= sqrt x)%Q.

#[local] Open Scope Q_scope.

Lemma sum_nonneg (l : list Q) : Forall (fun x => 0 <= x) l -> 0 <= Np.sum l.
Proof.
  induction 1 as [|x l Hx _ IH]; simpl; [apply Qle_refl|].
  change 0 with (0 + 0). by apply Qplus_le_compat.
Qed.

Lemma variance_nonneg (a : list Q) (m : Q) :
  a ≠ [] -> 0 <= Np.sum (Np.squared_deviations a m) / Np.size a.
Proof.
  intros Ha. pose proof (size_positive a Ha).
  apply Qle_shift_div_l; [lra|]. rewrite Qmult_0_l.
  apply sum_nonneg. unfold Np.squared_deviations.
  apply Forall_fmap, Forall_forall. intros v _. simpl.
  set (d := v - m). destruct (Qlt_le_dec d 0) as [Hneg|Hpos].
  - assert (d * d == (- d) * (- d)) as -> by ring.
    apply Qmult_le_0_compat; lra.
  - by apply Qmult_le_0_compat.
Qed.

Lemma rounded_std_nonneg (a : list Q) :
  a ≠ [] ->
  exists std, Np.std sqrt a = Return std /\ 0 <= Py.round std 2.
Proof.
  intros Ha. rewrite std_Return by done. eexists. split; [done|].
  by apply round_nonneg, sqrt_nonneg, variance_nonneg.
Qed.

Lemma rounded_percentile_mono (a : list Q) q q' :
  a ≠ [] -> q <= q' ->
  exists p p', Np.percentile a q = Return p /\ Np.percentile a q' = Return p' /\
               Py.round p 2 <= Py.round p' 2.
Proof.
  intros Ha Hq. destruct (percentile_mono a q q' Ha Hq) as (p & p' & Hp & Hp' & Hle).
  exists p, p'. split; [done|]. split; [done|]. by apply round_mono.
Qed.

Lemma rounded_percentiles_chain (a : list Q) :
  a ≠ [] ->
  exists p5 p25 p50 p75 p95,
    Np.percentile a 5 = Return p5 /\ Np.percentile a 25 = Return p25 /\
    Np.percentile a 50 = Return p50 /\ Np.percentile a 75 = Return p75 /\
    Np.percentile a 95 = Return p95 /\
    Py.round p5 2 <= Py.round p25 2 /\ Py.round p25 2 <= Py.round p50 2 /\
    Py.round p50 2 <= Py.round p75 2 /\ Py.round p75 2 <= Py.round p95 2.
Proof.
  intros Ha.
  destruct (rounded_percentile_mono a 5 25 Ha) as (p5 & p25 & H5 & H25 & H1);
    [by vm_compute|].
  destruct (rounded_percentile_mono a 25 50 Ha) as (q25 & p50 & H25' & H50 & H2);
    [by vm_compute|].
  destruct (rounded_percentile_mono a 50 75 Ha) as (q50 & p75 & H50' & H75 & H3);
    [by vm_compute|].
  destruct (rounded_percentile_mono a 75 95 Ha) as (q75 & p95 & H75' & H95 & H4);
    [by vm_compute|].
  assert (q25 = p25) as -> by congruence.
  assert (q50 = p50) as -> by congruence.
  assert (q75 = p75) as -> by congruence.
  by exists p5, p25, p50, p75, p95.
Qed.

Lemma savings_summary_ordered xs :
  xs ≠ [] ->
  exists s, savings_summary sqrt xs = Return s /\
            percentiles_ordered s /\ std_nonnegative s.
Proof.
  intros Hxs. unfold savings_summary.
  destruct (rounded_std_nonneg xs Hxs) as (std & Hstd & Hstd0).
  destruct (rounded_percentiles_chain xs Hxs)
    as (p5 & p25 & p50 & p75 & p95 & H5 & H25 & H50 & H75 & H95 & Ha & Hb & Hc & Hd).
  rewrite mean_Return, Hstd, H5, H25, H50, H75, H95 by done. simpl.
  eexists. split; [reflexivity|]. split.
  - exists (Py.round p5 2), (Py.round p25 2), (Py.round p50 2), (Py.round p75 2),
      (Py.round p95 2).
    split_and!; done.
  - exists (Py.round std 2). by split.
Qed.

Lemma investment_summary_ordered xs ref :
  xs ≠ [] ->
  exists s, investment_summary sqrt xs ref = Return s /\
            percentiles_ordered s /\ std_nonnegative s.
Proof.
  intros Hxs. unfold investment_summary.
  destruct (rounded_std_nonneg xs Hxs) as (std & Hstd & Hstd0).
  destruct (rounded_percentiles_chain xs Hxs)
    as (p5 & p25 & p50 & p75 & p95 & H5 & H25 & H50 & H75 & H95 & Ha & Hb & Hc & Hd).
  rewrite (mean_Return xs), Hstd, H5, H25, H50, H75, H95 by done.
  rewrite (mean_Return (Np.less xs ref)) by by apply less_nonempty.
  simpl. eexists. split; [reflexivity|]. split.
  - by eexists _, _, _, _, _.
  - by eexists.
Qed.

Lemma salary_summary_ordered xs :
  xs ≠ [] ->
  exists s, salary_summary sqrt xs = Return s /\
            (exists p5 p95, s !! "p5"%string = Some p5 /\ s !! "p95"%string = Some p95 /\
                            p5 <= p95) /\
            std_nonnegative s.
Proof.
  intros Hxs. unfold salary_summary.
  destruct (rounded_std_nonneg xs Hxs) as (std & Hstd & Hstd0).
  destruct (rounded_percentile_mono xs 5 95 Hxs) as (p5 & p95 & H5 & H95 & Ha);
    [by vm_compute|].
  rewrite mean_Return, Hstd, H5, H95 by done. simpl.
  eexists. split; [reflexivity|]. split.
  - exists (Py.round p5 2), (Py.round p95 2). split_and!; done.
  - exists (Py.round std 2). by split.
Qed.

End Ordering.

Lemma sqrt_floor_nonneg x : (0 <= x)%Q -> (0 <= sqrt_floor x)%Q.
Proof.
  intros _. unfold sqrt_floor, Qle. cbn [Qnum Qden]. rewrite Z.mul_0_l.
  apply Z.mul_nonneg_nonneg; [apply Z.sqrt_nonneg|done].
Qed.

(** C8.  Whenever the square root used by the standard deviation is
    non-negative: the summary of any non-empty sample has a non-negative
    [std], and, where all five are present (savings and investment),
    percentiles with p5 <= p25 <= p50 <= p75 <= p95; the fields compared
    are the ones returned, after rounding to two decimals.  The same holds
    of every summary a run stores in [monte_carlo]. *)
Theorem summary_percentiles_ordered sqrt :
  (forall x, 0 <= x -> 0 <= sqrt x)%Q ->
  (forall xs ref, xs ≠ [] ->
     (exists s, savings_summary sqrt xs = Return s /\
                percentiles_ordered s /\ std_nonnegative s) /\
     (exists s, investment_summary sqrt xs ref = Return s /\
                percentiles_ordered s /\ std_nonnegative s) /\
     (exists s, salary_summary sqrt xs = Return s /\ std_nonnegative s)) /\
  (forall self kind sd ext now g,
     1 <= monte_carlo_runs self ->
     (kind = INVESTMENT -> ~ (default 10000 (amount sd) == 0)%Q) ->
     exists out g',
       run_simulation sqrt self kind sd ext now g = Return (out, g') /\
       forall mc name s, monte_carlo out = Some mc -> mc !! name = Some s ->
         std_nonnegative s /\ (kind <> JOB -> percentiles_ordered s)).
Proof.
  intros Hsqrt. split.
  - intros xs ref Hxs. split; [|split].
    + by apply savings_summary_ordered.
    + by apply investment_summary_ordered.
    + destruct (salary_summary_ordered sqrt Hsqrt xs Hxs) as (s & Hs & _ & Hstd).
      by exists s.
  - intros self kind sd ext now g Hn Hamount.
    destruct (run_simulation_spec sqrt self kind sd ext now g Hn Hamount)
      as (out & g' & Hret & _ & _ & Hmc & _).
    exists out, g'. split; [done|].
    intros mc name s Hsome Hs.
    destruct kind; simpl in Hmc.
    + destruct Hmc as (mc' & Hsome' & _ & Hall). simplify_eq.
      destruct (Hall name s Hs) as (xs & Hlen & Hsum).
      destruct (savings_summary_ordered sqrt Hsqrt xs) as (s' & Hs' & Hord & Hstd).
      { by eapply nonempty_of_length. }
      assert (s' = s) as -> by congruence. by split.
    + congruence.
    + destruct Hmc as (mc' & Hsome' & _ & Hall). simplify_eq.
      destruct (Hall name s Hs) as (xs & Hlen & Hsum).
      destruct (salary_summary_ordered sqrt Hsqrt xs) as (s' & Hs' & _ & Hstd).
      { by eapply nonempty_of_length. }
      assert (s' = s) as -> by congruence. split; [done|]. by intros [].
    + destruct Hmc as (mc' & Hsome' & _ & Hall). simplify_eq.
      destruct (Hall name s Hs) as (xs & Hlen & Hsum).
      destruct (investment_summary_ordered sqrt Hsqrt xs (default 10000%Q (amount sd)))
        as (s' & Hs' & Hord & Hstd).
      { by eapply nonempty_of_length. }
      assert (s' = s) as -> by congruence. by split.
Qed.

Lemma summary_percentiles_ordered_witness :
  ((forall x, 0 <= x -> 0 <= sqrt_floor x)%Q /\ [3; 1; 2]%Q ≠ [] /\
   1 <= monte_carlo_runs (__init__ 2 3)) /\
  (exists s, savings_summary sqrt_floor [3; 1; 2]%Q = Return s /\
             percentiles_ordered s /\ std_nonnegative s) /\
  (exists out g',
     run_simulation sqrt_floor (__init__ 2 3) RELOCATION (cities_only ["Oslo"]%string)
       no_external "2026-01-01" (constant_rng 1) = Return (out, g') /\
     forall mc name s, monte_carlo out = Some mc -> mc !! name = Some s ->
       std_nonnegative s /\ (RELOCATION <> JOB -> percentiles_ordered s)).
Proof.
  split.
  - split; [exact sqrt_floor_nonneg|]. split; [discriminate|simpl; lia].
  - destruct (summary_percentiles_ordered sqrt_floor sqrt_floor_nonneg) as [Hsample Hrun].
    split.
    + destruct (Hsample [3; 1; 2]%Q 0%Q) as [Hsavings _]; [discriminate|]. exact Hsavings.
    + apply (Hrun (__init__ 2 3) RELOCATION (cities_only ["Oslo"]%string) no_external
               "2026-01-01"%string (constant_rng 1)).
      * simpl; lia.
      * discriminate.
Defined.

(** The summary of the sample 1, 2, 3, 4, 5: the percentiles as NumPy
    interpolates them, the standard deviation rounded down by [sqrt_floor]. *)
Example savings_summary_1_to_5 :
  (fun s => (fun key => Qred <$> s !! key)
            <$> ["mean"; "std"; "p5"; "p25"; "p50"; "p75"; "p95"; "prob_loss"]%string)
  <$> match savings_summary sqrt_floor [3; 1; 5; 2; 4]%Q with
      | Return s => Some s
      | Raise _ => None
      end
  = Some [Some 3; Some (141 # 100); Some (6 # 5); Some 2; Some 3; Some 4;
          Some (24 # 5); None]%Q.
Proof. vm_compute. reflexivity. Qed.

(** ** The probability of loss *)

Section ProbLoss.

#[local] Open Scope Q_scope.

Lemma sum_less xs ref :
  Np.sum (Np.less xs ref) == inject_Z (Z.of_nat (count_below xs ref)).
Proof.
  unfold count_below, Np.less.
  induction xs as [|x xs IH]; simpl; [reflexivity|].
  rewrite filter_cons. destruct (decide (x < ref)); simpl; rewrite IH.
  - rewrite Nat2Z.inj_succ, <- Z.add_1_l, inject_Z_plus. reflexivity.
  - ring.
Qed.

Lemma count_below_le xs ref : (count_below xs ref <= length xs)%nat.
Proof. unfold count_below. apply length_filter. Qed.

Lemma round_100 : Py.round 100 2 == 100.
Proof. reflexivity. Qed.

(** The loss field of an investment summary. *)
Lemma investment_summary_prob_loss sqrt xs ref s :
  investment_summary sqrt xs ref = Return s ->
  let fraction := inject_Z (Z.of_nat (count_below xs ref)) / Np.size xs in
  s !! "prob_loss"%string = Some (Py.round (fraction * 100) 2) /\
  0 <= fraction <= 1 /\
  0 <= Py.round (fraction * 100) 2 <= 100.
Proof.
  intros Hs. destruct xs as [|x xs]; [discriminate|].
  set (sample := x :: xs) in *.
  assert (sample ≠ []) as Hne by done.
  pose proof (size_positive sample Hne) as Hsize.
  assert (0 <= inject_Z (Z.of_nat (count_below sample ref)) / Np.size sample <= 1)
    as Hfraction.
  { split.
    - apply Qle_shift_div_l; [lra|]. rewrite Qmult_0_l.
      change 0 with (inject_Z 0). rewrite <- Zle_Qle. lia.
    - apply Qle_shift_div_r; [lra|]. rewrite Qmult_1_l. unfold Np.size.
      rewrite <- Zle_Qle. pose proof (count_below_le sample ref). lia. }
  simpl. split; [|split; [done|split]].
  - unfold investment_summary in Hs.
    rewrite (mean_Return sample), std_Return, !percentile_Return in Hs by done.
    rewrite (mean_Return (Np.less sample ref)) in Hs by by apply less_nonempty.
    simpl in Hs. injection Hs as <-.
    change (Some (Py.round (Np.sum (Np.less sample ref) / Np.size (Np.less sample ref)
                            * 100) 2)
            = Some (Py.round (inject_Z (Z.of_nat (count_below sample ref)) / Np.size sample
                              * 100) 2)).
    f_equal. apply round_proper. rewrite sum_less. unfold Np.size, Np.less.
    by rewrite length_fmap.
  - apply round_nonneg. nra.
  - apply Qle_trans with (Py.round 100 2); [apply round_mono; nra|].
    apply Qle_lteq. right. apply round_100.
Qed.

Lemma savings_summary_no_prob_loss sqrt xs s :
  savings_summary sqrt xs = Return s -> s !! "prob_loss"%string = None.
Proof.
  intros Hs. destruct xs as [|x xs]; [discriminate|].
  unfold savings_summary in Hs.
  rewrite mean_Return, std_Return, !percentile_Return in Hs by done.
  simpl in Hs. by injection Hs as <-.
Qed.

Lemma salary_summary_no_prob_loss sqrt xs s :
  salary_summary sqrt xs = Return s -> s !! "prob_loss"%string = None.
Proof.
  intros Hs. destruct xs as [|x xs]; [discriminate|].
  unfold salary_summary in Hs.
  rewrite mean_Return, std_Return, !percentile_Return in Hs by done.
  simpl in Hs. by injection Hs as <-.
Qed.

End ProbLoss.

(** * Further properties of the engine *)

(** ** The deterministic part does not depend on the generator *)

Lemma agree_bind {A B} (R1 : A -> A -> Prop) (R2 : B -> B -> Prop)
    (c1 c2 : M A) (k1 k2 : A -> M B) g1 g2 :
  agree R1 (c1 g1) (c2 g2) ->
  (forall a1 a2 h1 h2, R1 a1 a2 -> agree R2 (k1 a1 h1) (k2 a2 h2)) ->
  agree R2 ((c1 ≫= k1) g1) ((c2 ≫= k2) g2).
Proof.
  intros Hc Hk. unfold mbind, M_bind.
  destruct (c1 g1) as [[a1 h1]|e1], (c2 g2) as [[a2 h2]|e2]; simpl in *; try done.
  by apply Hk.
Qed.

Lemma for_each_agree {A S} (R : S -> S -> Prop) (body1 body2 : S -> A -> M S) l :
  (forall s1 s2 x g1 g2, R s1 s2 -> agree R (body1 s1 x g1) (body2 s2 x g2)) ->
  forall s1 s2 g1 g2, R s1 s2 ->
    agree R (for_each l body1 s1 g1) (for_each l body2 s2 g2).
Proof.
  intros Hbody. induction l as [|x l IH]; intros s1 s2 g1 g2 HR; simpl; [done|].
  apply (agree_bind R R); [by apply Hbody|].
  intros a1 a2 h1 h2 Ha. by apply IH.
Qed.

Lemma lift_agree {A} (R : A -> A -> Prop) (r : result A) g1 g2 :
  (forall a, r = Return a -> R a a) -> agree R (lift r g1) (lift r g2).
Proof. intros HR. destruct r as [a|e]; simpl; [by apply HR|done]. Qed.

Section Independence.

Variable sqrt : Q -> Q.
Variable self : SimulationEngine.

#[local] Open Scope Q_scope.

(** Whether a Monte Carlo function returns depends on the number of runs
    only: at least one run and it returns, none and the statistics of the
    empty sample stop it. *)
Lemma monte_carlo_savings_agree base_salary yearly_cost tax_rate g1 g2 :
  agree (fun _ _ => True)
    (_run_monte_carlo_savings sqrt self base_salary yearly_cost tax_rate g1)
    (_run_monte_carlo_savings sqrt self base_salary yearly_cost tax_rate g2).
Proof.
  destruct (decide (1 <= monte_carlo_runs self)%Z) as [Hn|Hn].
  - destruct (_run_monte_carlo_savings_Return sqrt self base_salary yearly_cost tax_rate
                g1 Hn) as (? & ? & ? & -> & _).
    by destruct (_run_monte_carlo_savings_Return sqrt self base_salary yearly_cost tax_rate
                   g2 Hn) as (? & ? & ? & -> & _).
  - unfold _run_monte_carlo_savings. by rewrite range_nil by lia.
Qed.

Lemma monte_carlo_salary_agree base_salary expected_growth g1 g2 :
  agree (fun _ _ => True)
    (_run_monte_carlo_salary sqrt self base_salary expected_growth g1)
    (_run_monte_carlo_salary sqrt self base_salary expected_growth g2).
Proof.
  destruct (decide (1 <= monte_carlo_runs self)%Z) as [Hn|Hn].
  - destruct (_run_monte_carlo_salary_Return sqrt self base_salary expected_growth
                g1 Hn) as (? & ? & ? & -> & _).
    by destruct (_run_monte_carlo_salary_Return sqrt self base_salary expected_growth
                   g2 Hn) as (? & ? & ? & -> & _).
  - unfold _run_monte_carlo_salary. by rewrite range_nil by lia.
Qed.

Lemma monte_carlo_investment_agree initial_amount expected_return volatility g1 g2 :
  agree (fun _ _ => True)
    (_run_monte_carlo_investment sqrt self initial_amount expected_return volatility g1)
    (_run_monte_carlo_investment sqrt self initial_amount expected_return volatility g2).
Proof.
  destruct (decide (1 <= monte_carlo_runs self)%Z) as [Hn|Hn].
  - destruct (_run_monte_carlo_investment_Return sqrt self initial_amount expected_return
                volatility g1 Hn) as (? & ? & ? & -> & _).
    by destruct (_run_monte_carlo_investment_Return sqrt self initial_amount
                   expected_return volatility g2 Hn) as (? & ? & ? & -> & _).
  - unfold _run_monte_carlo_investment. by rewrite range_nil by lia.
Qed.

(** The yearly loop of an investment never draws. *)
Lemma investment_det_year_agree amount expected_return st year g1 g2 :
  agree eq (investment_det_year amount expected_return st year g1)
           (investment_det_year amount expected_return st year g2).
Proof.
  destruct st as [pts cv]. unfold investment_det_year, mbind, M_bind, lift.
  by destruct (truediv _ _).
Qed.

(** The two dicts a strategy fills: same trajectories, same names with a
    summary. *)
Lemma same_dicts_insert st1 st2 name pts s1 s2 :
  same_dicts st1 st2 ->
  same_dicts (<[name := pts]> st1.1, <[name := s1]> st1.2)
             (<[name := pts]> st2.1, <[name := s2]> st2.2).
Proof.
  intros [Hp Hd]. split; simpl; [by rewrite Hp|].
  by rewrite !dom_insert_L, Hd.
Qed.

Lemma relocation_city_agree sd ext st1 st2 city g1 g2 :
  same_dicts st1 st2 ->
  agree same_dicts (relocation_city sqrt self sd ext st1 city g1)
                   (relocation_city sqrt self sd ext st2 city g2).
Proof.
  intros Hst. destruct st1 as [p1 m1], st2 as [p2 m2]. unfold relocation_city.
  eapply (agree_bind (fun _ _ => True)); [apply monte_carlo_savings_agree|].
  intros s1 s2 h1 h2 _. simpl. by apply (same_dicts_insert (p1, m1) (p2, m2)).
Qed.

Lemma job_option_agree st1 st2 ix g1 g2 :
  same_dicts st1 st2 ->
  agree same_dicts (job_option sqrt self st1 ix g1) (job_option sqrt self st2 ix g2).
Proof.
  intros Hst. destruct st1 as [p1 m1], st2 as [p2 m2], ix as [i opt].
  unfold job_option.
  eapply (agree_bind (fun _ _ => True)); [apply monte_carlo_salary_agree|].
  intros s1 s2 h1 h2 _. simpl. by apply (same_dicts_insert (p1, m1) (p2, m2)).
Qed.

Lemma investment_option_agree amount st1 st2 opt g1 g2 :
  same_dicts st1 st2 ->
  agree same_dicts (investment_option sqrt self amount st1 opt g1)
                   (investment_option sqrt self amount st2 opt g2).
Proof.
  intros Hst. destruct st1 as [p1 m1], st2 as [p2 m2]. unfold investment_option.
  eapply (agree_bind eq).
  { apply for_each_agree; [|done].
    intros s1 s2 year h1 h2 ->. apply investment_det_year_agree. }
  intros yst ? h1 h2 <-.
  eapply (agree_bind (fun _ _ => True)); [apply monte_carlo_investment_agree|].
  intros s1 s2 k1 k2 _. simpl. by apply (same_dicts_insert (p1, m1) (p2, m2)).
Qed.

End Independence.

(** X1.  Two runs on the same inputs, whatever the states of the generator,
    either both return, with the same projections, the same metadata and a
    Monte Carlo summary under the same names, or both raise the same
    exception. *)
Theorem deterministic_part_ignores_generator sqrt self kind sd ext now g1 g2 :
  agree same_deterministic_part
    (run_simulation sqrt self kind sd ext now g1)
    (run_simulation sqrt self kind sd ext now g2).
Proof.
  destruct kind; simpl.
  - unfold _simulate_relocation.
    eapply (agree_bind same_dicts).
    { apply for_each_agree; [|done]. intros. by apply relocation_city_agree. }
    intros [p1 m1] [p2 m2] h1 h2 [Hp Hd]. simpl in *.
    split_and!; simpl; [done|done|by rewrite Hd].
  - by split_and!.
  - unfold _simulate_job.
    eapply (agree_bind same_dicts).
    { apply for_each_agree; [|done]. intros. by apply job_option_agree. }
    intros [p1 m1] [p2 m2] h1 h2 [Hp Hd]. simpl in *.
    split_and!; simpl; [done|done|by rewrite Hd].
  - unfold _simulate_investment.
    eapply (agree_bind same_dicts).
    { apply for_each_agree; [|done]. intros. by apply investment_option_agree. }
    intros [p1 m1] [p2 m2] h1 h2 [Hp Hd]. simpl in *.
    split_and!; simpl; [done|done|by rewrite Hd].
Qed.

(** ** How many variates a run consumes *)

Lemma bind_Return_inv {A B} (c : M A) (k : A -> M B) g b g' :
  (c ≫= k) g = Return (b, g') ->
  exists a h, c g = Return (a, h) /\ k a h = Return (b, g').
Proof.
  unfold mbind, M_bind. destruct (c g) as [[a h]|e]; [|done]. by exists a, h.
Qed.

Lemma lift_Return_inv {A} (r : result A) g a g' :
  lift r g = Return (a, g') -> r = Return a /\ g' = g.
Proof. destruct r; simpl; [|done]. by intros [= -> ->]. Qed.

Lemma draws_refl g : draws g g 0.
Proof. split; [done|lia]. Qed.

Lemma draws_trans g1 g2 g3 n m : draws g1 g2 n -> draws g2 g3 m -> draws g1 g3 (n + m).
Proof. intros [Hv1 Hc1] [Hv2 Hc2]. split; [congruence|lia]. Qed.

Lemma random_normal_draws loc scale g v g' :
  Np.random_normal loc scale g = Return (v, g') -> draws g g' 1.
Proof. unfold Np.random_normal. intros [= _ <-]. split; simpl; [done|lia]. Qed.

(** A loop whose every iteration consumes [c] variates consumes [c] times
    the number of iterations. *)
Lemma for_each_draws {A St} (c : nat) (body : St -> A -> M St) l :
  (forall s x g s' g', body s x g = Return (s', g') -> draws g g' c) ->
  forall s g s' g', for_each l body s g = Return (s', g') ->
    draws g g' (c * length l).
Proof.
  intros Hbody. induction l as [|x l IH]; intros s g s' g' Hrun; simpl in *.
  - injection Hrun as _ <-. rewrite Nat.mul_0_r. apply draws_refl.
  - apply bind_Return_inv in Hrun as (s1 & g1 & Hx & Hrest).
    replace (c * S (length l))%nat with (c + c * length l)%nat by lia.
    eapply draws_trans; [by eapply Hbody|by eapply IH].
Qed.

Section Draws.

Variable sqrt : Q -> Q.
Variable self : SimulationEngine.

#[local] Open Scope Q_scope.

Lemma savings_run_draws base_salary yearly_cost tax_rate xs i g xs' g' :
  savings_run self base_salary yearly_cost tax_rate xs i g = Return (xs', g') ->
  draws g g' (2 * Z.to_nat (time_horizon self)).
Proof.
  unfold savings_run. intros Hrun.
  apply bind_Return_inv in Hrun as (st & h & Hloop & Hret).
  injection Hret as _ <-.
  apply (for_each_draws 2) in Hloop.
  - by rewrite range_length, Z.sub_0_r in Hloop.
  - intros [[cs s] k] year h0 st' h' Hyear. unfold savings_year in Hyear.
    apply bind_Return_inv in Hyear as (z1 & h1 & Hz1 & Hyear).
    apply bind_Return_inv in Hyear as (z2 & h2 & Hz2 & Hyear).
    injection Hyear as _ <-.
    apply (draws_trans _ h1 _ 1 1); by eapply random_normal_draws.
Qed.

Lemma salary_run_draws base_salary expected_growth xs i g xs' g' :
  salary_run self base_salary expected_growth xs i g = Return (xs', g') ->
  draws g g' (1 * Z.to_nat (time_horizon self)).
Proof.
  unfold salary_run. intros Hrun.
  apply bind_Return_inv in Hrun as (st & h & Hloop & Hret).
  injection Hret as _ <-.
  apply (for_each_draws 1) in Hloop.
  - by rewrite range_length, Z.sub_0_r in Hloop.
  - intros s year h0 st' h' Hyear. unfold salary_year in Hyear.
    apply bind_Return_inv in Hyear as (z1 & h1 & Hz1 & Hyear).
    injection Hyear as _ <-. by eapply random_normal_draws.
Qed.

Lemma investment_run_draws initial_amount expected_return volatility xs i g xs' g' :
  investment_run self initial_amount expected_return volatility xs i g
    = Return (xs', g') ->
  draws g g' (1 * Z.to_nat (time_horizon self)).
Proof.
  unfold investment_run. intros Hrun.
  apply bind_Return_inv in Hrun as (st & h & Hloop & Hret).
  injection Hret as _ <-.
  apply (for_each_draws 1) in Hloop.
  - by rewrite range_length, Z.sub_0_r in Hloop.
  - intros s year h0 st' h' Hyear. unfold investment_year in Hyear.
    apply bind_Return_inv in Hyear as (z1 & h1 & Hz1 & Hyear).
    injection Hyear as _ <-. by eapply random_normal_draws.
Qed.

(** One Monte Carlo function: draws per year, times years, times runs. *)
Lemma monte_carlo_savings_draws base_salary yearly_cost tax_rate g s g' :
  _run_monte_carlo_savings sqrt self base_salary yearly_cost tax_rate g = Return (s, g') ->
  draws g g' (2 * Z.to_nat (time_horizon self) * Z.to_nat (monte_carlo_runs self)).
Proof.
  unfold _run_monte_carlo_savings. intros Hrun.
  apply bind_Return_inv in Hrun as (xs & h & Hloop & Hret).
  apply lift_Return_inv in Hret as [_ ->].
  apply (for_each_draws (2 * Z.to_nat (time_horizon self))) in Hloop.
  - by rewrite range_length, Z.sub_0_r in Hloop.
  - intros. by eapply savings_run_draws.
Qed.

Lemma monte_carlo_salary_draws base_salary expected_growth g s g' :
  _run_monte_carlo_salary sqrt self base_salary expected_growth g = Return (s, g') ->
  draws g g' (1 * Z.to_nat (time_horizon self) * Z.to_nat (monte_carlo_runs self)).
Proof.
  unfold _run_monte_carlo_salary. intros Hrun.
  apply bind_Return_inv in Hrun as (xs & h & Hloop & Hret).
  apply lift_Return_inv in Hret as [_ ->].
  apply (for_each_draws (1 * Z.to_nat (time_horizon self))) in Hloop.
  - by rewrite range_length, Z.sub_0_r in Hloop.
  - intros. by eapply salary_run_draws.
Qed.

Lemma monte_carlo_investment_draws initial_amount expected_return volatility g s g' :
  _run_monte_carlo_investment sqrt self initial_amount expected_return volatility g
    = Return (s, g') ->
  draws g g' (1 * Z.to_nat (time_horizon self) * Z.to_nat (monte_carlo_runs self)).
Proof.
  unfold _run_monte_carlo_investment. intros Hrun.
  apply bind_Return_inv in Hrun as (xs & h & Hloop & Hret).
  apply lift_Return_inv in Hret as [_ ->].
  apply (for_each_draws (1 * Z.to_nat (time_horizon self))) in Hloop.
  - by rewrite range_length, Z.sub_0_r in Hloop.
  - intros. by eapply investment_run_draws.
Qed.

Lemma investment_det_loop_draws amount expected_return l st g st' g' :
  for_each l (investment_det_year amount expected_return) st g = Return (st', g') ->
  g' = g.
Proof.
  intros Hloop. apply (for_each_draws 0) in Hloop.
  - destruct Hloop as [Hv Hc], g, g'. simpl in *. f_equal; [done|lia].
  - intros [pts cv] year h s' h' Hyear. unfold investment_det_year in Hyear.
    apply bind_Return_inv in Hyear as (r & h1 & Hr & Hyear).
    apply lift_Return_inv in Hr as [_ ->]. injection Hyear as _ <-. apply draws_refl.
Qed.

(** A run consumes, per listed name, the draws of one Monte Carlo function. *)
Lemma run_simulation_draws kind sd ext now g out g' :
  run_simulation sqrt self kind sd ext now g = Return (out, g') ->
  draws g g' (draws_per_year kind * Z.to_nat (time_horizon self)
              * Z.to_nat (monte_carlo_runs self) * length (names_of kind sd)).
Proof.
  destruct kind; simpl; intros Hrun.
  - unfold _simulate_relocation in Hrun.
    apply bind_Return_inv in Hrun as (st & h & Hloop & Hret). injection Hret as _ <-.
    eapply for_each_draws; [|exact Hloop].
    intros [p m] city h0 st' h' Hcity. unfold relocation_city in Hcity.
    apply bind_Return_inv in Hcity as (s & h1 & Hmc & Hret). injection Hret as _ <-.
    by eapply monte_carlo_savings_draws.
  - injection Hrun as _ <-. apply draws_refl.
  - unfold _simulate_job in Hrun.
    apply bind_Return_inv in Hrun as (st & h & Hloop & Hret). injection Hret as _ <-.
    replace (length (default [] (options sd)))
      with (length (Py.enumerate (default [] (options sd))))
      by (by rewrite <- (enumerate_snd (default [] (options sd))) at 2;
          rewrite length_fmap).
    eapply for_each_draws; [|exact Hloop].
    intros [p m] [i opt] h0 st' h' Hopt. unfold job_option in Hopt.
    apply bind_Return_inv in Hopt as (s & h1 & Hmc & Hret). injection Hret as _ <-.
    by eapply monte_carlo_salary_draws.
  - unfold _simulate_investment in Hrun.
    apply bind_Return_inv in Hrun as (st & h & Hloop & Hret). injection Hret as _ <-.
    eapply for_each_draws; [|exact Hloop].
    intros [p m] opt h0 st' h' Hopt. unfold investment_option in Hopt.
    apply bind_Return_inv in Hopt as (yst & h1 & Hdet & Hopt).
    apply investment_det_loop_draws in Hdet as ->.
    apply bind_Return_inv in Hopt as (s & h2 & Hmc & Hret). injection Hret as _ <-.
    by eapply monte_carlo_investment_draws.
Qed.

End Draws.

(** X2.  A valid run returns with the generator advanced by exactly
    [d * horizon * runs * n] variates, where [n] is the number of listed
    names (repetitions included) and [d] is 2 for a relocation, 1 for a job
    or an investment and 0 for a purchase; the stream of variates itself is
    left as it was. *)
Theorem variates_consumed_by_run sqrt self kind sd ext now g :
  1 <= time_horizon self ->
  1 <= monte_carlo_runs self ->
  (kind = INVESTMENT -> ~ (default 10000 (amount sd) == 0)%Q) ->
  exists out g',
    run_simulation sqrt self kind sd ext now g = Return (out, g') /\
    variates g' = variates g /\
    Z.of_nat (consumed g')
    = Z.of_nat (consumed g)
      + Z.of_nat (draws_per_year kind) * time_horizon self * monte_carlo_runs self
        * Z.of_nat (length (names_of kind sd)).
Proof.
  intros HT Hn Hamount.
  destruct (run_simulation_spec sqrt self kind sd ext now g Hn Hamount)
    as (out & g' & Hret & _).
  exists out, g'. split; [done|].
  destruct (run_simulation_draws sqrt self kind sd ext now g out g' Hret) as [Hv Hc].
  split; [done|]. rewrite Hc. rewrite !Nat2Z.inj_add, !Nat2Z.inj_mul, !Z2Nat.id by lia.
  done.
Qed.

Lemma variates_consumed_by_run_witness :
  (1 <= time_horizon (__init__ 5 100) /\ 1 <= monte_carlo_runs (__init__ 5 100) /\
   (RELOCATION = INVESTMENT ->
    ~ (default 10000 (amount (cities_only ["Berlin"; "Oslo"]%string)) == 0)%Q)) /\
  exists out g',
    run_simulation sqrt_floor (__init__ 5 100) RELOCATION
      (cities_only ["Berlin"; "Oslo"]%string) external_lower "2026-01-01"
      (constant_rng 0) = Return (out, g') /\
    variates g' = variates (constant_rng 0) /\
    Z.of_nat (consumed g')
    = Z.of_nat (consumed (constant_rng 0))
      + Z.of_nat (draws_per_year RELOCATION) * time_horizon (__init__ 5 100)
        * monte_carlo_runs (__init__ 5 100)
        * Z.of_nat (length (names_of RELOCATION (cities_only ["Berlin"; "Oslo"]%string))).
Proof.
  split.
  - split; [simpl; lia|]. split; [simpl; lia|]. discriminate.
  - apply (variates_consumed_by_run sqrt_floor (__init__ 5 100) RELOCATION
             (cities_only ["Berlin"; "Oslo"]%string) external_lower "2026-01-01"
             (constant_rng 0)).
    + simpl; lia.
    + simpl; lia.
    + discriminate.
Defined.

(** ** Which entry a repeated name keeps *)

Lemma fold_insert_other {A V} (key : A -> string) (val : A -> V) l (m : gmap string V) k :
  (forall y, y ∈ l -> key y <> k) ->
  fold_left (fun m a => <[key a := val a]> m) l m !! k = m !! k.
Proof.
  revert m. induction l as [|a l IH]; intros m Hl; simpl; [done|].
  rewrite IH.
  - apply lookup_insert_ne, Hl. left.
  - intros y Hy. apply Hl. by right.
Qed.

(** A loop of stores keeps, under a key, the value of the last element that
    has this key. *)
Lemma fold_insert_last {A V} (key : A -> string) (val : A -> V) l (m : gmap string V)
    (i : nat) x :
  l !! i = Some x ->
  (forall y, y ∈ drop (S i) l -> key y <> key x) ->
  fold_left (fun m a => <[key a := val a]> m) l m !! key x = Some (val x).
Proof.
  intros Hi Hlater.
  rewrite <- (take_drop_middle l i x Hi), fold_left_app. simpl.
  rewrite fold_insert_other by done. apply lookup_insert_eq.
Qed.

Lemma enumerate_lookup {A} (l : list A) (i : nat) x :
  l !! i = Some x -> Py.enumerate l !! i = Some (Z.of_nat i, x).
Proof. intros Hi. unfold Py.enumerate. by rewrite list_lookup_imap, Hi. Qed.

Lemma enumerate_later (l : list string) (i : nat) name :
  name ∉ drop (S i) l ->
  forall y, y ∈ drop (S i) (Py.enumerate l) -> y.2 <> name.
Proof.
  intros Hnot y Hy Heq. apply Hnot.
  rewrite <- (enumerate_snd l), <- fmap_drop, <- Heq.
  by apply list_elem_of_fmap_2.
Qed.

(** The trajectories of a loop that returns are those of the pure loop of
    stores. *)
Lemma for_each_fst_fold {A P R} (f : P -> A -> P) (body : P * R -> A -> M (P * R)) l :
  (forall st x g st' g', body st x g = Return (st', g') -> st'.1 = f st.1 x) ->
  forall st g st' g', for_each l body st g = Return (st', g') ->
    st'.1 = fold_left f l st.1.
Proof.
  intros Hbody. induction l as [|x l IH]; intros st g st' g' Hrun; simpl in *.
  - by injection Hrun as <- _.
  - apply bind_Return_inv in Hrun as (s1 & g1 & Hx & Hrest).
    rewrite (IH _ _ _ _ Hrest). f_equal. by eapply Hbody.
Qed.

(** ** Years as a list *)

Lemma Qpower_next (q : Q) (n : nat) :
  (q ^ (1 + Z.of_nat n) == q ^ Z.of_nat n * q)%Q.
Proof.
  rewrite Z.add_comm, Qpower_plus' by lia. by rewrite Qpower_1_r.
Qed.

Lemma fold_left_pointwise {A B} (f h : A -> B -> A) l a :
  (forall a b, f a b = h a b) -> fold_left f l a = fold_left h l a.
Proof.
  intros Hfh. revert a. induction l as [|b l IH]; intros a; simpl; [done|].
  by rewrite Hfh, IH.
Qed.

(** ** Purchase: the trajectory in closed form *)

Section PurchaseClosedForm.

#[local] Open Scope Q_scope.

Lemma purchase_loop_closed budget (i : Z) (n : nat) :
  let initial_cost := budget * ((8 # 10) + inject_Z i * (2 # 10)) in
  let yearly_maintenance := initial_cost * (5 # 100) in
  let st := fold_left (purchase_year yearly_maintenance (15 # 100))
              (Py.range 1 (1 + Z.of_nat n)) ([], initial_cost, initial_cost) in
  st.1.1 = purchase_point budget i <$> Py.range 1 (1 + Z.of_nat n) /\
  st.1.2 == initial_cost * (85 # 100) ^ Z.of_nat n /\
  st.2 == initial_cost + yearly_maintenance * inject_Z (Z.of_nat n).
Proof.
  intros initial_cost yearly_maintenance.
  induction n as [|n IH].
  - simpl. split; [done|]. split; ring.
  - cbv zeta in *. rewrite range_snoc, fold_left_app, fmap_app.
    replace (Z.of_nat (S n)) with (1 + Z.of_nat n)%Z by lia.
    destruct (fold_left _ (Py.range 1 (1 + Z.of_nat n)) _) as [[pts cv] tc].
    simpl in *. destruct IH as (Hpts & Hcv & Htc).
    assert (cv * (1 - (15 # 100)) == initial_cost * (85 # 100) ^ (1 + Z.of_nat n)) as Hcv'.
    { rewrite Hcv, Qpower_next. ring. }
    assert (tc + yearly_maintenance
            == initial_cost + yearly_maintenance * inject_Z (1 + Z.of_nat n)) as Htc'.
    { rewrite Htc, inject_Z_plus. ring. }
    split; [|split].
    + rewrite Hpts. do 2 f_equal. unfold purchase_point.
      fold initial_cost. fold yearly_maintenance.
      rewrite (round_proper _ _ 2 Hcv'), (round_proper _ _ 2 Htc').
      rewrite (round_proper (cv * (1 - (15 # 100)) - (tc + yearly_maintenance))
                 (initial_cost * (85 # 100) ^ (1 + Z.of_nat n)
                  - (initial_cost + yearly_maintenance * inject_Z (1 + Z.of_nat n))));
        [done|].
      by rewrite Hcv', Htc'.
    + exact Hcv'.
    + exact Htc'.
Qed.

Lemma purchase_option_closed self budget m (ix : Z * string) :
  purchase_option self budget m ix
  = <[ix.2 := purchase_point budget ix.1 <$> Py.range 1 (time_horizon self + 1)]> m.
Proof.
  destruct ix as [i opt]. unfold purchase_option. simpl. f_equal.
  rewrite range_to_nat.
  by destruct (purchase_loop_closed budget i (Z.to_nat (time_horizon self))) as [-> _].
Qed.

(** What a purchase run stores under a name: the trajectory of the last
    position at which the name is listed. *)
Lemma purchase_entry self sd ext now (i : nat) name :
  last_occurrence (default [] (options sd)) i name ->
  projections (_simulate_purchase self sd ext now) !! name
  = Some (purchase_point (default 50000 (budget sd)) (Z.of_nat i)
          <$> Py.range 1 (time_horizon self + 1)).
Proof.
  intros [Hi Hlast]. unfold _simulate_purchase. simpl.
  rewrite (fold_left_pointwise _
             (fun m ix => <[ix.2 := purchase_point (default 50000 (budget sd)) ix.1
                                    <$> Py.range 1 (time_horizon self + 1)]> m)).
  - apply (fold_insert_last snd
             (fun ix => purchase_point (default 50000 (budget sd)) ix.1
                        <$> Py.range 1 (time_horizon self + 1))
             _ _ i (Z.of_nat i, name)).
    + by apply enumerate_lookup.
    + by apply enumerate_later.
  - intros m ix. apply purchase_option_closed.
Qed.

Lemma year_point_lookup {V} (point : Z -> V) (horizon y : Z) :
  (1 <= y <= horizon)%Z ->
  (point <$> Py.range 1 (horizon + 1)) !! Z.to_nat (y - 1) = Some (point y).
Proof.
  intros Hy. rewrite list_lookup_fmap, range_lookup by lia. simpl.
  by replace (1 + Z.of_nat (Z.to_nat (y - 1)))%Z with y by lia.
Qed.

End PurchaseClosedForm.

Lemma float_field_insert key (q : Q) (p : gmap string value) :
  float_field key (<[key := VFloat q]> p) = Some q.
Proof. unfold float_field. by rewrite lookup_insert_eq. Qed.

Lemma Qpower_step_down (a : Q) (y : Z) :
  (0 <= a)%Q -> (a <= 1)%Q -> 1 <= y -> (a ^ (y + 1) <= a ^ y)%Q.
Proof.
  intros Ha0 Ha1 Hy. rewrite Qpower_plus' by lia. rewrite Qpower_1_r.
  pose proof (Qpower_0_le a y Ha0). nra.
Qed.

(** X4.  With a non-negative budget, from one year to the next the reported
    current value of a purchase never rises, the total cost to date never
    falls, and the net value never rises. *)
Theorem purchase_value_never_rises sqrt self sd ext now g (i : nat) name :
  (0 <= default 50000 (budget sd))%Q ->
  last_occurrence (default [] (options sd)) i name ->
  exists out,
    run_simulation sqrt self PURCHASE sd ext now g = Return (out, g) /\
    exists pts, projections out !! name = Some pts /\
      forall y, 1 <= y -> y + 1 <= time_horizon self ->
        exists p p' v v' c c' n n',
          pts !! Z.to_nat (y - 1) = Some p /\ pts !! Z.to_nat y = Some p' /\
          float_field "current_value" p = Some v /\
          float_field "current_value" p' = Some v' /\
          float_field "total_cost_to_date" p = Some c /\
          float_field "total_cost_to_date" p' = Some c' /\
          float_field "net_value" p = Some n /\
          float_field "net_value" p' = Some n' /\
          (v' <= v /\ c <= c' /\ n' <= n)%Q.
Proof.
  intros Hbudget Hlast. eexists. split; [reflexivity|].
  eexists. split; [by apply purchase_entry|].
  intros y Hy1 Hy2.
  eexists _, _, _, _, _, _, _, _.
  split; [apply (year_point_lookup (purchase_point _ _)); lia|].
  split.
  { replace (Z.to_nat y) with (Z.to_nat (y + 1 - 1)) by lia.
    apply (year_point_lookup (purchase_point _ _)). lia. }
  split_and!; try reflexivity.
  all: set (initial_cost := (default 50000 (budget sd)
                             * ((8 # 10) + inject_Z (Z.of_nat i) * (2 # 10)))%Q).
  all: assert (0 <= initial_cost)%Q as Hinit by
        (apply Qmult_le_0_compat; [done|];
         assert (0 <= inject_Z (Z.of_nat i))%Q
           by (change 0%Q with (inject_Z 0); rewrite <- Zle_Qle; lia);
         nra).
  all: pose proof (Qpower_step_down (85 # 100) y ltac:(by vm_compute)
                     ltac:(by vm_compute) Hy1) as Hpow.
  all: apply round_mono.
  - nra.
  - rewrite inject_Z_plus. change (inject_Z 1) with 1%Q. nra.
  - rewrite inject_Z_plus. change (inject_Z 1) with 1%Q. nra.
Qed.

Lemma purchase_value_never_rises_witness :
  ((0 <= default 50000 (budget (options_only ["A"; "B"]%string)))%Q /\
   last_occurrence (default [] (options (options_only ["A"; "B"]%string))) 1 "B") /\
  exists out,
    run_simulation sqrt_floor (__init__ 3 1) PURCHASE (options_only ["A"; "B"]%string)
      no_external "2026-01-01" (constant_rng 0) = Return (out, constant_rng 0) /\
    exists pts, projections out !! "B"%string = Some pts /\
      forall y, 1 <= y -> y + 1 <= time_horizon (__init__ 3 1) ->
        exists p p' v v' c c' n n',
          pts !! Z.to_nat (y - 1) = Some p /\ pts !! Z.to_nat y = Some p' /\
          float_field "current_value" p = Some v /\
          float_field "current_value" p' = Some v' /\
          float_field "total_cost_to_date" p = Some c /\
          float_field "total_cost_to_date" p' = Some c' /\
          float_field "net_value" p = Some n /\
          float_field "net_value" p' = Some n' /\
          (v' <= v /\ c <= c' /\ n' <= n)%Q.
Proof.
  assert (last_occurrence (default [] (options (options_only ["A"; "B"]%string))) 1 "B")
    as Hlast.
  { split; [reflexivity|]. simpl. apply not_elem_of_nil. }
  assert (0 <= default 50000 (budget (options_only ["A"; "B"]%string)))%Q as Hbudget
    by (by vm_compute).
  split; [by split|].
  exact (purchase_value_never_rises sqrt_floor (__init__ 3 1)
           (options_only ["A"; "B"]%string) no_external "2026-01-01"
           (constant_rng 0) 1 "B" Hbudget Hlast).
Defined.

(** ** Job: the trajectory in closed form *)

Section JobClosedForm.

Variable sqrt : Q -> Q.
Variable self : SimulationEngine.

#[local] Open Scope Q_scope.

Lemma sum_snoc (l : list Q) (x : Q) : Np.sum (l ++ [x]) == Np.sum l + x.
Proof.
  induction l as [|y l IH]; simpl; [ring|]. rewrite IH. ring.
Qed.

Lemma job_loop_closed (i : Z) (n : nat) :
  let base_salary := inject_Z (70000 + i * 15000) in
  let growth_rate := (5 # 100) + inject_Z i * (2 # 100) in
  let st := fold_left (job_year base_salary growth_rate)
              (Py.range 1 (1 + Z.of_nat n)) ([], 0) in
  st.1 = job_point i <$> Py.range 1 (1 + Z.of_nat n) /\
  st.2 == Np.sum (job_salary i <$> Py.range 1 (1 + Z.of_nat n)).
Proof.
  intros base_salary growth_rate.
  induction n as [|n IH].
  - simpl. split; [done|reflexivity].
  - cbv zeta in *. rewrite range_snoc, fold_left_app, !fmap_app.
    destruct (fold_left _ (Py.range 1 (1 + Z.of_nat n)) _) as [pts ce].
    simpl in *. destruct IH as (Hpts & Hce).
    assert (ce + base_salary * (1 + growth_rate) ^ (1 + Z.of_nat n)
            == Np.sum ((job_salary i <$> Py.range 1 (1 + Z.of_nat n))
                       ++ [job_salary i (1 + Z.of_nat n)])) as Hce'.
    { rewrite sum_snoc, Hce. reflexivity. }
    split; [|exact Hce'].
    rewrite Hpts. do 2 f_equal. unfold job_point.
    rewrite (round_proper _ _ 2 Hce').
    replace (Py.range 1 (1 + Z.of_nat n + 1)) with (Py.range 1 (1 + Z.of_nat (S n)))
      by (f_equal; lia).
    by rewrite range_snoc, fmap_app.
Qed.

Lemma job_option_store st (ix : Z * string) g st' g' :
  job_option sqrt self st ix g = Return (st', g') ->
  st'.1 = <[ix.2 := job_point ix.1 <$> Py.range 1 (time_horizon self + 1)]> st.1.
Proof.
  destruct st as [p m], ix as [i opt]. unfold job_option. intros Hrun.
  apply bind_Return_inv in Hrun as (s & h & _ & Hret). injection Hret as <- _.
  simpl. f_equal. rewrite range_to_nat.
  by destruct (job_loop_closed i (Z.to_nat (time_horizon self))) as [-> _].
Qed.

(** What a job run stores under a name: the trajectory of the last position
    at which the name is listed. *)
Lemma job_entry sd ext now g out g' (i : nat) name :
  run_simulation sqrt self JOB sd ext now g = Return (out, g') ->
  last_occurrence (default [] (options sd)) i name ->
  projections out !! name
  = Some (job_point (Z.of_nat i) <$> Py.range 1 (time_horizon self + 1)).
Proof.
  simpl. unfold _simulate_job. intros Hrun [Hi Hlast].
  apply bind_Return_inv in Hrun as (st & h & Hloop & Hret). injection Hret as <- _.
  simpl.
  rewrite (for_each_fst_fold
             (fun p ix => <[ix.2 := job_point ix.1 <$> Py.range 1 (time_horizon self + 1)]> p)
             _ _ job_option_store _ _ _ _ Hloop).
  apply (fold_insert_last snd
           (fun ix => job_point ix.1 <$> Py.range 1 (time_horizon self + 1))
           _ _ i (Z.of_nat i, name)).
  - by apply enumerate_lookup.
  - by apply enumerate_later.
Qed.

End JobClosedForm.

(** ** Investment: the trajectory in closed form, and division by zero *)

Lemma for_each_app {A S} (body : S -> A -> M S) l1 l2 s g :
  for_each (l1 ++ l2) body s g = (for_each l1 body s ≫= for_each l2 body) g.
Proof.
  revert s g. induction l1 as [|x l1 IH]; intros s g; simpl; [done|].
  unfold mbind, M_bind. destruct (body s x g) as [[s1 g1]|e]; [|done].
  apply IH.
Qed.

Section InvestmentClosedForm.

Variable sqrt : Q -> Q.
Variable self : SimulationEngine.

#[local] Open Scope Q_scope.

Lemma investment_loop_closed amount expected_return (n : nat) g :
  ~ amount == 0 ->
  exists cv,
    for_each (Py.range 1 (1 + Z.of_nat n)) (investment_det_year amount expected_return)
      ([], amount) g
    = Return ((investment_point amount expected_return <$> Py.range 1 (1 + Z.of_nat n),
               cv), g) /\
    cv == amount * (1 + expected_return) ^ Z.of_nat n.
Proof.
  intros Hamount. induction n as [|n IH].
  - exists amount. split; [done|]. simpl. ring.
  - destruct IH as (cv & Hloop & Hcv).
    exists (cv * (1 + expected_return)).
    assert (cv * (1 + expected_return)
            == amount * (1 + expected_return) ^ (1 + Z.of_nat n)) as Hcv'.
    { rewrite Hcv, Qpower_next. ring. }
    split.
    + rewrite range_snoc, for_each_app, (bind_Return _ _ _ _ _ Hloop). simpl.
      erewrite bind_Return;
        [|erewrite bind_Return; [reflexivity|apply lift_Return, truediv_Return, Hamount]].
      unfold mret, M_ret. rewrite fmap_app. simpl. do 4 f_equal.
      unfold investment_point.
      rewrite (round_proper _ _ 2 Hcv').
      rewrite (round_proper (cv * (1 + expected_return) - amount)
                 (amount * (1 + expected_return) ^ (1 + Z.of_nat n) - amount))
        by (by rewrite Hcv').
      rewrite (round_proper ((cv * (1 + expected_return) / amount - 1) * 100)
                 (((1 + expected_return) ^ (1 + Z.of_nat n) - 1) * 100)); [done|].
      rewrite Hcv'. field. exact Hamount.
    + rewrite Hcv'. by replace (Z.of_nat (S n)) with (1 + Z.of_nat n)%Z by lia.
Qed.

Lemma investment_option_closed amount st opt g :
  (1 <= monte_carlo_runs self)%Z ->
  ~ amount == 0 ->
  exists pts s g',
    investment_option sqrt self amount st opt g
      = Return ((<[opt := pts]> st.1, <[opt := s]> st.2), g') /\
    pts = investment_point amount (params_of opt).1
          <$> Py.range 1 (time_horizon self + 1) /\
    True.
Proof.
  intros Hn Hamount. destruct st as [p m]. unfold investment_option.
  destruct (investment_loop_closed amount (params_of opt).1
              (Z.to_nat (time_horizon self)) g Hamount) as (cv & Hloop & _).
  rewrite <- range_to_nat in Hloop.
  destruct (_run_monte_carlo_investment_Return sqrt self amount (params_of opt).1
              (params_of opt).2 g Hn) as (xs & s & g' & Hmc & _).
  eexists _, s, g'. split; [|done].
  rewrite (bind_Return _ _ _ _ _ Hloop). by rewrite (bind_Return _ _ _ _ _ Hmc).
Qed.

Lemma investment_entries sd ext now g :
  (1 <= monte_carlo_runs self)%Z ->
  ~ default 10000 (amount sd) == 0 ->
  exists out g',
    run_simulation sqrt self INVESTMENT sd ext now g = Return (out, g') /\
    forall name, name ∈ default [] (options sd) ->
      projections out !! name
      = Some (investment_point (default 10000 (amount sd)) (params_of name).1
              <$> Py.range 1 (time_horizon self + 1)).
Proof.
  intros Hn Hamount. simpl. unfold _simulate_investment.
  destruct (keyed_loop_rule id
              (fun name pts => pts = investment_point (default 10000 (amount sd))
                                       (params_of name).1
                                     <$> Py.range 1 (time_horizon self + 1))
              (fun _ _ => True)
              (investment_option sqrt self (default 10000 (amount sd)))
              (default [] (options sd))) with (g := g)
    as ([proj mc] & g' & Hret & Hd1 & _ & HP & _).
  { intros st opt g0. by apply investment_option_closed. }
  rewrite list_fmap_id in Hd1.
  eexists _, g'. split; [by rewrite (bind_Return _ _ _ _ _ Hret)|]. simpl.
  intros name Hname.
  simpl in Hd1, HP.
  assert (name ∈ dom proj) as Hin by (by rewrite Hd1, elem_of_list_to_set).
  apply elem_of_dom in Hin as [pts Hpts]. by rewrite Hpts, (HP name pts Hpts).
Qed.

End InvestmentClosedForm.

Section InvestmentZero.

Variable sqrt : Q -> Q.
Variable self : SimulationEngine.

#[local] Open Scope Q_scope.

Lemma truediv_Raise a b : b == 0 -> truediv a b = Raise ZeroDivisionError.
Proof.
  intros Hb. unfold truediv.
  destruct (Qeq_bool b 0) eqn:E; [done|].
  apply Qeq_bool_neq in E. contradiction.
Qed.

(** With an amount of zero the first year of the first option divides by
    zero. *)
Lemma investment_zero_raises sd ext now g :
  default 10000 (amount sd) == 0 ->
  default [] (options sd) ≠ [] ->
  (1 <= time_horizon self)%Z ->
  run_simulation sqrt self INVESTMENT sd ext now g = Raise ZeroDivisionError.
Proof.
  intros Hamount Hopts HT. simpl. unfold _simulate_investment.
  destruct (default [] (options sd)) as [|opt rest]; [done|].
  assert (Py.range 1 (time_horizon self + 1)
          = 1%Z :: Py.range 2 (time_horizon self + 1)) as Hrange.
  { unfold Py.range.
    replace (Z.to_nat (time_horizon self + 1 - 1))
      with (S (Z.to_nat (time_horizon self + 1 - 2))) by lia.
    simpl. f_equal. rewrite <- fmap_S_seq, <- list_fmap_compose.
    apply list_fmap_ext. intros _ k _. simpl. lia. }
  simpl. unfold investment_option at 1. rewrite Hrange. simpl.
  unfold mbind, M_bind, lift. by rewrite truediv_Raise.
Qed.

(** Otherwise the run returns. *)
Lemma investment_returns sd ext now g :
  (1 <= monte_carlo_runs self)%Z ->
  ~ default 10000 (amount sd) == 0 \/ (time_horizon self < 1)%Z ->
  exists out g', run_simulation sqrt self INVESTMENT sd ext now g = Return (out, g').
Proof.
  intros Hn Hcase. simpl. unfold _simulate_investment.
  destruct (for_each_rule (fun _ _ => True)
              (investment_option sqrt self (default 10000 (amount sd)))
              (default [] (options sd)))
    with (s := (∅ : gmap string (list (gmap string value)),
                ∅ : gmap string (gmap string Q))) (g := g)
    as (st & g' & Hret & _); [|done|].
  - intros _ opt [p m] g0 _. unfold investment_option.
    assert (exists yst, for_each (Py.range 1 (time_horizon self + 1))
                          (investment_det_year (default 10000 (amount sd))
                             (params_of opt).1)
                          ([], default 10000 (amount sd)) g0 = Return (yst, g0))
      as [yst Hloop].
    { destruct Hcase as [Hamount|HT].
      - destruct (investment_loop_closed (default 10000 (amount sd)) (params_of opt).1
                    (Z.to_nat (time_horizon self)) g0 Hamount) as (cv & Hloop & _).
        rewrite <- range_to_nat in Hloop. by eexists.
      - rewrite range_nil by lia. by eexists. }
    destruct (_run_monte_carlo_investment_Return sqrt self (default 10000 (amount sd))
                (params_of opt).1 (params_of opt).2 g0 Hn) as (xs & s & g1 & Hmc & _).
    eexists _, g1. split; [|done].
    rewrite (bind_Return _ _ _ _ _ Hloop). by rewrite (bind_Return _ _ _ _ _ Hmc).
  - eexists _, g'. by rewrite (bind_Return _ _ _ _ _ Hret).
Qed.

End InvestmentZero.

(** X7.  With at least one Monte Carlo run, an investment run raises
    [ZeroDivisionError] when the amount is zero, some option is listed and
    the horizon is at least one year (the return percentage divides by the
    amount); in every other case it returns. *)
Theorem investment_division_by_zero sqrt self sd ext now g :
  1 <= monte_carlo_runs self ->
  ((default 10000 (amount sd) == 0)%Q /\ default [] (options sd) ≠ [] /\
   1 <= time_horizon self ->
   run_simulation sqrt self INVESTMENT sd ext now g = Raise ZeroDivisionError) /\
  (~ ((default 10000 (amount sd) == 0)%Q /\ default [] (options sd) ≠ [] /\
      1 <= time_horizon self) ->
   exists out g', run_simulation sqrt self INVESTMENT sd ext now g = Return (out, g')).
Proof.
  intros Hn. split.
  - intros (Hamount & Hopts & HT). by apply investment_zero_raises.
  - intros Hnot.
    destruct (Qeq_dec (default 10000%Q (amount sd)) 0) as [Hamount|Hamount];
      [|apply investment_returns; [done|by left]].
    destruct (decide (1 <= time_horizon self)) as [HT|HT];
      [|apply investment_returns; [done|right; lia]].
    destruct (default [] (options sd)) as [|opt rest] eqn:Hopts.
    + simpl. unfold _simulate_investment. rewrite Hopts. by eexists _, _.
    + exfalso. apply Hnot. by split_and!.
Qed.

Lemma investment_division_by_zero_witness :
  (1 <= monte_carlo_runs (__init__ 5 1000) /\
   (default 10000 (amount invest_nothing) == 0)%Q /\
   default [] (options invest_nothing) ≠ [] /\ 1 <= time_horizon (__init__ 5 1000)) /\
  run_simulation sqrt_floor (__init__ 5 1000) INVESTMENT invest_nothing no_external
    "2026-01-01" (constant_rng 0) = Raise ZeroDivisionError.
Proof.
  assert (1 <= monte_carlo_runs (__init__ 5 1000)) as Hn by (simpl; lia).
  assert ((default 10000 (amount invest_nothing) == 0)%Q /\
          default [] (options invest_nothing) ≠ [] /\
          1 <= time_horizon (__init__ 5 1000)) as Hcase.
  { split; [reflexivity|]. split; [discriminate|simpl; lia]. }
  split; [by split|].
  destruct (investment_division_by_zero sqrt_floor (__init__ 5 1000) invest_nothing
              no_external "2026-01-01" (constant_rng 0) Hn) as [Hraise _].
  exact (Hraise Hcase).
Defined.

(** ** Mean and percentiles stay within the sample *)

Section WithinSample.

Variable sqrt : Q -> Q.

#[local] Open Scope Q_scope.

Lemma last_elem_of (l : list Q) d : l ≠ [] -> List.last l d ∈ l.
Proof.
  induction l as [|x l IH]; [done|]. intros _.
  destruct l as [|y l]; [left|]. right. by apply IH.
Qed.

Lemma take_elem_of arr i : arr ≠ [] -> Np.take arr i ∈ arr.
Proof.
  intros Harr. unfold Np.take.
  destruct (nth_in_or_default (Z.to_nat i) arr (List.last arr 0)) as [Hin| ->].
  - by apply list_elem_of_In.
  - by apply last_elem_of.
Qed.

Lemma sorted_sample_elem_of a x : x ∈ merge_sort Qle a <-> x ∈ a.
Proof. by rewrite merge_sort_Permutation. Qed.

Lemma sorted_sample_nonempty (a : list Q) : a ≠ [] -> merge_sort Qle a ≠ [].
Proof.
  intros Ha Hnil. apply Ha, Permutation_nil_r.
  rewrite <- Hnil. by rewrite merge_sort_Permutation.
Qed.

Lemma percentile_within a q lo hi :
  a ≠ [] -> (forall x, x ∈ a -> lo <= x <= hi) ->
  exists p, Np.percentile a q = Return p /\ lo <= p <= hi.
Proof.
  intros Ha Hbounds. rewrite percentile_Return by done. eexists. split; [done|].
  destruct (interpolate_between (merge_sort Qle a) ((Np.size a - 1) * (q / 100))
              (sorted_sample a)) as [Hlow Hhigh].
  pose proof (sorted_sample_nonempty a Ha) as Hne.
  split.
  - eapply Qle_trans; [|exact Hlow].
    apply Hbounds, sorted_sample_elem_of. by apply take_elem_of.
  - eapply Qle_trans; [exact Hhigh|].
    apply Hbounds, sorted_sample_elem_of. by apply take_elem_of.
Qed.

Lemma sum_within (a : list Q) lo hi :
  (forall x, x ∈ a -> lo <= x <= hi) ->
  Np.size a * lo <= Np.sum a /\ Np.sum a <= Np.size a * hi.
Proof.
  unfold Np.size. induction a as [|x a IH]; intros Hbounds.
  - change (inject_Z (Z.of_nat (length (@nil Q)))) with 0.
    change (Np.sum []) with 0. split; lra.
  - destruct IH as [IHlo IHhi]; [intros y Hy; apply Hbounds; by right|].
    destruct (Hbounds x) as [Hlo Hhi]; [left|].
    cbn [length Np.sum foldr].
    rewrite Nat2Z.inj_succ, <- Z.add_1_l, inject_Z_plus.
    change (inject_Z 1) with 1. change (foldr Qplus 0 a) with (Np.sum a).
    split; lra.
Qed.

Lemma mean_within a lo hi :
  a ≠ [] -> (forall x, x ∈ a -> lo <= x <= hi) ->
  exists m, Np.mean a = Return m /\ lo <= m <= hi.
Proof.
  intros Ha Hbounds. rewrite mean_Return by done. eexists. split; [done|].
  pose proof (size_positive a Ha). destruct (sum_within a lo hi Hbounds).
  split.
  - apply Qle_shift_div_l; lra.
  - apply Qle_shift_div_r; lra.
Qed.

Lemma round_within x lo hi n :
  lo <= x <= hi -> Py.round lo n <= Py.round x n <= Py.round hi n.
Proof. intros [Hlo Hhi]. split; by apply round_mono. Qed.

Lemma savings_summary_within xs lo hi :
  xs ≠ [] -> (forall x, x ∈ xs -> lo <= x <= hi) ->
  exists s, savings_summary sqrt xs = Return s /\
    fields_within s ["mean"; "p5"; "p25"; "p50"; "p75"; "p95"]%string
      (Py.round lo 2) (Py.round hi 2).
Proof.
  intros Hxs Hb. unfold savings_summary.
  destruct (mean_within xs lo hi Hxs Hb) as (m & -> & Hm).
  rewrite std_Return by done.
  destruct (percentile_within xs 5 lo hi Hxs Hb) as (p5 & -> & H5).
  destruct (percentile_within xs 25 lo hi Hxs Hb) as (p25 & -> & H25).
  destruct (percentile_within xs 50 lo hi Hxs Hb) as (p50 & -> & H50).
  destruct (percentile_within xs 75 lo hi Hxs Hb) as (p75 & -> & H75).
  destruct (percentile_within xs 95 lo hi Hxs Hb) as (p95 & -> & H95).
  simpl. eexists. split; [reflexivity|].
  repeat constructor; (eexists; split; [reflexivity|by apply round_within]).
Qed.

Lemma investment_summary_within xs ref lo hi :
  xs ≠ [] -> (forall x, x ∈ xs -> lo <= x <= hi) ->
  exists s, investment_summary sqrt xs ref = Return s /\
    fields_within s ["mean"; "p5"; "p25"; "p50"; "p75"; "p95"]%string
      (Py.round lo 2) (Py.round hi 2).
Proof.
  intros Hxs Hb. unfold investment_summary.
  destruct (mean_within xs lo hi Hxs Hb) as (m & -> & Hm).
  rewrite std_Return by done.
  destruct (percentile_within xs 5 lo hi Hxs Hb) as (p5 & -> & H5).
  destruct (percentile_within xs 25 lo hi Hxs Hb) as (p25 & -> & H25).
  destruct (percentile_within xs 50 lo hi Hxs Hb) as (p50 & -> & H50).
  destruct (percentile_within xs 75 lo hi Hxs Hb) as (p75 & -> & H75).
  destruct (percentile_within xs 95 lo hi Hxs Hb) as (p95 & -> & H95).
  rewrite (mean_Return (Np.less xs ref)) by by apply less_nonempty.
  simpl. eexists. split; [reflexivity|].
  repeat constructor; (eexists; split; [reflexivity|by apply round_within]).
Qed.

Lemma salary_summary_within xs lo hi :
  xs ≠ [] -> (forall x, x ∈ xs -> lo <= x <= hi) ->
  exists s, salary_summary sqrt xs = Return s /\
    fields_within s ["mean"; "p5"; "p95"]%string (Py.round lo 2) (Py.round hi 2).
Proof.
  intros Hxs Hb. unfold salary_summary.
  destruct (mean_within xs lo hi Hxs Hb) as (m & -> & Hm).
  rewrite std_Return by done.
  destruct (percentile_within xs 5 lo hi Hxs Hb) as (p5 & -> & H5).
  destruct (percentile_within xs 95 lo hi Hxs Hb) as (p95 & -> & H95).
  simpl. eexists. split; [reflexivity|].
  repeat constructor; (eexists; split; [reflexivity|by apply round_within]).
Qed.

End WithinSample.

(** X8.  The mean and every percentile of a summary lie within the sample:
    if all terminal values of a non-empty sample are between [lo] and [hi],
    the returned mean, p5, p25, p50, p75 and p95 (mean, p5 and p95 for the
    salary summary) are between [lo] and [hi] rounded to two decimals. *)
Theorem summary_within_sample_range sqrt xs ref lo hi :
  xs ≠ [] ->
  (forall x, x ∈ xs -> lo <= x <= hi)%Q ->
  (exists s, savings_summary sqrt xs = Return s /\
     fields_within s ["mean"; "p5"; "p25"; "p50"; "p75"; "p95"]%string
       (Py.round lo 2) (Py.round hi 2)) /\
  (exists s, investment_summary sqrt xs ref = Return s /\
     fields_within s ["mean"; "p5"; "p25"; "p50"; "p75"; "p95"]%string
       (Py.round lo 2) (Py.round hi 2)) /\
  (exists s, salary_summary sqrt xs = Return s /\
     fields_within s ["mean"; "p5"; "p95"]%string (Py.round lo 2) (Py.round hi 2)).
Proof.
  intros Hxs Hb. split; [|split].
  - by apply savings_summary_within.
  - by apply investment_summary_within.
  - by apply salary_summary_within.
Qed.

Lemma summary_within_sample_range_witness :
  ([3; 1; 2]%Q ≠ [] /\ (forall x, x ∈ [3; 1; 2]%Q -> 1 <= x <= 3)%Q) /\
  exists s, savings_summary sqrt_floor [3; 1; 2]%Q = Return s /\
    fields_within s ["mean"; "p5"; "p25"; "p50"; "p75"; "p95"]%string
      (Py.round 1 2) (Py.round 3 2).
Proof.
  assert (forall x, x ∈ [3; 1; 2]%Q -> 1 <= x <= 3)%Q as Hb.
  { intros x Hx. repeat (apply elem_of_cons in Hx as [->|Hx]); [split; by vm_compute..|].
    by apply elem_of_nil in Hx. }
  split; [split; [discriminate|exact Hb]|].
  destruct (summary_within_sample_range sqrt_floor [3; 1; 2]%Q 0%Q 1%Q 3%Q
              ltac:(discriminate) Hb) as [Hsavings _].
  exact Hsavings.
Defined.

(** ** The keys of points and summaries *)

Lemma last_occurrence_exists (l : list string) name :
  name ∈ l -> exists i, last_occurrence l i name.
Proof.
  intros Hin. apply list_elem_of_split_r in Hin as (l1 & l2 & -> & Hnot).
  exists (length l1). split.
  - by rewrite list_lookup_middle.
  - rewrite drop_app_ge by lia.
    replace (S (length l1) - length l1)%nat with 1%nat by lia.
    simpl. by rewrite drop_0.
Qed.

Lemma points_keys {V} (point : Z -> gmap string V) (keys : list string)
    (l : list Z) (p : gmap string V) :
  (forall y, dom (point y) = (list_to_set keys : gset string)) ->
  p ∈ point <$> l -> dom p = (list_to_set keys : gset string).
Proof. intros Hdom Hp. apply list_elem_of_fmap in Hp as (y & -> & _). apply Hdom. Qed.

Section Keys.

Variable sqrt : Q -> Q.
Variable self : SimulationEngine.

Lemma summary_of_keys kind sd summary n s :
  summary_of sqrt kind sd = Some summary ->
  summarises summary n s ->
  dom s = (list_to_set (summary_keys kind) : gset string).
Proof.
  intros Hk (xs & _ & Hs).
  destruct xs as [|x xs].
  { destruct kind; simplify_eq/=; discriminate. }
  destruct kind; simplify_eq/=.
  - unfold savings_summary in Hs.
    rewrite mean_Return, std_Return, !percentile_Return in Hs by done.
    simpl in Hs. injection Hs as <-.
    rewrite !dom_insert_L, dom_singleton_L. by rewrite union_empty_r_L.
  - unfold salary_summary in Hs.
    rewrite mean_Return, std_Return, !percentile_Return in Hs by done.
    simpl in Hs. injection Hs as <-.
    rewrite !dom_insert_L, dom_singleton_L. by rewrite union_empty_r_L.
  - unfold investment_summary in Hs.
    rewrite (mean_Return (x :: xs)), std_Return, !percentile_Return in Hs by done.
    rewrite (mean_Return (Np.less _ _)) in Hs by done.
    simpl in Hs. injection Hs as <-.
    rewrite !dom_insert_L, dom_singleton_L. by rewrite union_empty_r_L.
Qed.

Lemma run_points_keys kind sd ext now g out g' name pts p :
  (1 <= monte_carlo_runs self)%Z ->
  (kind = INVESTMENT -> ~ (default 10000 (amount sd) == 0)%Q) ->
  run_simulation sqrt self kind sd ext now g = Return (out, g') ->
  projections out !! name = Some pts ->
  p ∈ pts ->
  dom p = (list_to_set (point_keys kind) : gset string).
Proof.
  intros Hn Hamount Hrun Hpts Hp.
  destruct (run_simulation_spec sqrt self kind sd ext now g Hn Hamount)
    as (out' & g'' & Hret & Hdom & _).
  assert (out' = out) as -> by congruence.
  assert (name ∈ names_of kind sd) as Hname.
  { assert (name ∈ dom (projections out)) as Hin by (apply elem_of_dom; by eexists).
    rewrite Hdom in Hin. by apply elem_of_list_to_set in Hin. }
  destruct kind; simpl in Hname.
  - destruct (relocation_entries sqrt self sd ext now g Hn)
      as (o & h & mc & Hret' & _ & Hall).
    assert (o = out) as -> by congruence.
    destruct (Hall name Hname) as [Hentry _].
    rewrite Hentry in Hpts. injection Hpts as <-.
    unfold relocation_entry in Hp. rewrite relocation_projection_eq in Hp.
    eapply points_keys; [|exact Hp]. intros y. unfold relocation_point.
    rewrite !dom_insert_L, dom_singleton_L. simpl. by rewrite union_empty_r_L.
  - destruct (last_occurrence_exists _ _ Hname) as [i Hlast].
    simpl in Hrun. injection Hrun as <- _.
    rewrite (purchase_entry self sd ext now i name Hlast) in Hpts. injection Hpts as <-.
    eapply points_keys; [|exact Hp]. intros y. unfold purchase_point.
    rewrite !dom_insert_L, dom_singleton_L. simpl. by rewrite union_empty_r_L.
  - destruct (last_occurrence_exists _ _ Hname) as [i Hlast].
    rewrite (job_entry sqrt self sd ext now g out g' i name Hrun Hlast) in Hpts.
    injection Hpts as <-.
    eapply points_keys; [|exact Hp]. intros y. unfold job_point.
    rewrite !dom_insert_L, dom_singleton_L. simpl. by rewrite union_empty_r_L.
  - destruct (investment_entries sqrt self sd ext now g Hn (Hamount eq_refl))
      as (o & h & Hret' & Hall).
    assert (o = out) as -> by congruence.
    rewrite (Hall name Hname) in Hpts. injection Hpts as <-.
    eapply points_keys; [|exact Hp]. intros y. unfold investment_point.
    rewrite !dom_insert_L, dom_singleton_L. simpl. by rewrite union_empty_r_L.
Qed.

End Keys.

(** X9.  In the output of a valid run every yearly point has exactly the
    keys of its decision type, and every Monte Carlo summary exactly the
    keys of its type: seven statistics for a relocation, four (mean, std,
    p5, p95) for a job, eight (with [prob_loss]) for an investment. *)
Theorem output_keys sqrt self kind sd ext now g :
  1 <= monte_carlo_runs self ->
  (kind = INVESTMENT -> ~ (default 10000 (amount sd) == 0)%Q) ->
  exists out g',
    run_simulation sqrt self kind sd ext now g = Return (out, g') /\
    (forall name pts p, projections out !! name = Some pts -> p ∈ pts ->
       dom p = (list_to_set (point_keys kind) : gset string)) /\
    (forall mc name s, monte_carlo out = Some mc -> mc !! name = Some s ->
       dom s = (list_to_set (summary_keys kind) : gset string)).
Proof.
  intros Hn Hamount.
  destruct (run_simulation_spec sqrt self kind sd ext now g Hn Hamount)
    as (out & g' & Hret & _ & _ & Hmc & _).
  exists out, g'. split; [done|]. split.
  - intros name pts p Hpts Hp. by eapply run_points_keys.
  - intros mc name s Hsome Hs.
    destruct (summary_of sqrt kind sd) as [summary|] eqn:Hk; [|congruence].
    destruct Hmc as (mc' & Hsome' & _ & Hall).
    assert (mc' = mc) as -> by congruence.
    eapply summary_of_keys; [exact Hk|]. by apply (Hall name).
Qed.

Lemma output_keys_witness :
  (1 <= monte_carlo_runs (__init__ 2 3) /\
   (JOB = INVESTMENT -> ~ (default 10000 (amount (options_only ["A"; "B"]%string)) == 0)%Q)) /\
  exists out g',
    run_simulation sqrt_floor (__init__ 2 3) JOB (options_only ["A"; "B"]%string)
      no_external "2026-01-01" (constant_rng 0) = Return (out, g') /\
    (forall name pts p, projections out !! name = Some pts -> p ∈ pts ->
       dom p = (list_to_set (point_keys JOB) : gset string)) /\
    (forall mc name s, monte_carlo out = Some mc -> mc !! name = Some s ->
       dom s = (list_to_set (summary_keys JOB) : gset string)).
Proof.
  assert (1 <= monte_carlo_runs (__init__ 2 3)) as Hn by (simpl; lia).
  split; [split; [exact Hn|discriminate]|].
  exact (output_keys sqrt_floor (__init__ 2 3) JOB (options_only ["A"; "B"]%string)
           no_external "2026-01-01" (constant_rng 0) Hn ltac:(discriminate)).
Defined.

(** ** The probability of loss, from the sample *)

Section ProbLossSample.

Variable sqrt : Q -> Q.
Variable self : SimulationEngine.

#[local] Open Scope Q_scope.

Lemma round_half_even_close y :
  - (1 # 2) <= inject_Z (Py.round_half_even y) - y <= 1 # 2.
Proof.
  pose proof (Qfloor_le y) as Hlo. pose proof (Qlt_floor y) as Hhi.
  rewrite inject_Z_plus in Hhi. change (inject_Z 1) with 1 in Hhi.
  unfold Py.round_half_even.
  destruct (y - inject_Z (Qfloor y) ?= 1 # 2) eqn:Hcmp.
  - apply Qeq_alt in Hcmp.
    destruct (Z.even (Qfloor y)); rewrite ?inject_Z_plus;
      change (inject_Z 1) with 1; lra.
  - apply Qlt_alt in Hcmp. lra.
  - apply Qgt_alt in Hcmp. rewrite inject_Z_plus. change (inject_Z 1) with 1. lra.
Qed.

(** Rounding to two decimals moves a number by half a hundredth at most. *)
Lemma round_close x : - (1 # 200) <= Py.round x 2 - x <= 1 # 200.
Proof.
  pose proof (round_half_even_close (x * inject_Z (10 ^ Z.of_nat 2))) as Hclose.
  unfold Py.round.
  set (k := inject_Z (Py.round_half_even (x * inject_Z (10 ^ Z.of_nat 2)))) in *.
  change (inject_Z (10 ^ Z.of_nat 2)) with 100 in *.
  assert (k / 100 == k * (1 # 100)) as -> by (field).
  lra.
Qed.

Lemma draws_advance g g' n : draws g g' n -> g' = advance g n.
Proof. intros [Hv Hc]. destruct g' as [v c]. simpl in *. unfold advance. by subst. Qed.

Lemma advance_0 g : advance g 0 = g.
Proof. destruct g as [v c]. unfold advance. simpl. f_equal. lia. Qed.

Lemma advance_advance g a b : advance (advance g a) b = advance g (a + b).
Proof. unfold advance. simpl. f_equal. lia. Qed.

Lemma final_values_length initial_amount expected_return volatility g :
  length (final_values_of self initial_amount expected_return volatility g)
  = Z.to_nat (monte_carlo_runs self).
Proof.
  unfold final_values_of.
  destruct (sample_loop (investment_run self initial_amount expected_return volatility)
              (monte_carlo_runs self) g) as (xs & g' & -> & Hlen); [|done].
  intros. apply investment_run_Return.
Qed.

(** The summary of a Monte Carlo run is the one of its terminal values. *)
Lemma monte_carlo_investment_sample initial_amount expected_return volatility g s g' :
  _run_monte_carlo_investment sqrt self initial_amount expected_return volatility g
  = Return (s, g') ->
  investment_summary sqrt
    (final_values_of self initial_amount expected_return volatility g) initial_amount
  = Return s /\
  g' = advance g (draws_of_run self).
Proof.
  intros Hrun. split.
  - unfold _run_monte_carlo_investment in Hrun.
    apply bind_Return_inv in Hrun as (xs & h & Hloop & Hret).
    apply lift_Return_inv in Hret as [Hs _]. unfold final_values_of. by rewrite Hloop.
  - apply draws_advance.
    pose proof (monte_carlo_investment_draws sqrt self _ _ _ _ _ _ Hrun) as Hdraws.
    by rewrite Nat.mul_1_l in Hdraws.
Qed.

Lemma investment_option_sample amount st opt g st' g' :
  investment_option sqrt self amount st opt g = Return (st', g') ->
  exists s,
    st'.2 = <[opt := s]> st.2 /\
    investment_summary sqrt
      (final_values_of self amount (params_of opt).1 (params_of opt).2 g) amount
    = Return s /\
    g' = advance g (draws_of_run self).
Proof.
  destruct st as [p m]. unfold investment_option. intros Hrun.
  apply bind_Return_inv in Hrun as (yst & h & Hdet & Hrest).
  apply investment_det_loop_draws in Hdet as ->.
  apply bind_Return_inv in Hrest as (s & h2 & Hmc & Hret).
  injection Hret as <- <-.
  destruct (monte_carlo_investment_sample _ _ _ _ _ _ Hmc) as [Hs ->].
  by exists s.
Qed.

Lemma investment_loop_other amount l st g st' g' name :
  for_each l (investment_option sqrt self amount) st g = Return (st', g') ->
  name ∉ l -> st'.2 !! name = st.2 !! name.
Proof.
  revert st g. induction l as [|x l IH]; intros st g Hrun Hnot; simpl in Hrun.
  - by injection Hrun as <- _.
  - apply bind_Return_inv in Hrun as (st1 & g1 & Hx & Hrest).
    apply not_elem_of_cons in Hnot as [Hne Hnot].
    rewrite (IH _ _ Hrest Hnot).
    destruct (investment_option_sample _ _ _ _ _ _ Hx) as (s & -> & _).
    by rewrite lookup_insert_ne.
Qed.

(** The summary kept under a name is the one of the sample drawn at its
    last position, after the samples of the positions before. *)
Lemma investment_loop_sample amount l st g st' g' (i : nat) name :
  for_each l (investment_option sqrt self amount) st g = Return (st', g') ->
  last_occurrence l i name ->
  exists s,
    st'.2 !! name = Some s /\
    investment_summary sqrt
      (final_values_of self amount (params_of name).1 (params_of name).2
         (advance g (i * draws_of_run self))) amount
    = Return s.
Proof.
  revert st g i. induction l as [|x l IH]; intros st g i Hrun [Hi Hlast].
  - by rewrite lookup_nil in Hi.
  - simpl in Hrun. apply bind_Return_inv in Hrun as (st1 & g1 & Hx & Hrest).
    destruct (investment_option_sample _ _ _ _ _ _ Hx) as (s & Hst1 & Hs & ->).
    destruct i as [|i]; simpl in Hi, Hlast.
    + injection Hi as ->. exists s. split.
      * rewrite (investment_loop_other _ _ _ _ _ _ _ Hrest) by (by rewrite drop_0 in Hlast).
        rewrite Hst1. apply lookup_insert_eq.
      * by rewrite advance_0.
    + destruct (IH st1 _ i Hrest) as (s' & Hlook & Hs'); [by split|].
      exists s'. split; [done|].
      rewrite advance_advance in Hs'. exact Hs'.
Qed.

Lemma prob_loss_of_sample xs ref s :
  investment_summary sqrt xs ref = Return s ->
  let fraction := inject_Z (Z.of_nat (count_below xs ref)) / Np.size xs in
  exists p,
    s !! "prob_loss"%string = Some p /\
    0 <= fraction <= 1 /\ 0 <= p <= 100 /\
    - (1 # 100) < p - fraction * 100 < 1 # 100.
Proof.
  intros Hs. destruct (investment_summary_prob_loss sqrt xs ref s Hs) as (Hp & Hf & Hb).
  simpl. eexists. split; [exact Hp|]. split; [exact Hf|]. split; [exact Hb|].
  pose proof (round_close (inject_Z (Z.of_nat (count_below xs ref)) / Np.size xs * 100)).
  lra.
Qed.

(** What an investment run reports as [prob_loss] under a name. *)
Lemma investment_prob_loss sd ext now g out g' (i : nat) name :
  (1 <= monte_carlo_runs self)%Z ->
  run_simulation sqrt self INVESTMENT sd ext now g = Return (out, g') ->
  last_occurrence (default [] (options sd)) i name ->
  let amount := default 10000 (amount sd) in
  let final_values :=
    final_values_of self amount (params_of name).1 (params_of name).2
      (advance g (i * draws_of_run self)) in
  let fraction :=
    inject_Z (Z.of_nat (count_below final_values amount))
    / inject_Z (monte_carlo_runs self) in
  Z.of_nat (length final_values) = monte_carlo_runs self /\
  exists p,
    summary_field name "prob_loss" out = Some p /\
    0 <= fraction <= 1 /\ 0 <= p <= 100 /\
    - (1 # 100) < p - fraction * 100 < 1 # 100.
Proof.
  intros Hn Hrun Hlast. cbv zeta.
  simpl in Hrun. unfold _simulate_investment in Hrun.
  apply bind_Return_inv in Hrun as (st & h & Hloop & Hout). injection Hout as <- _.
  destruct (investment_loop_sample _ _ _ _ _ _ i name Hloop Hlast) as (s & Hlook & Hs).
  assert (Z.of_nat (length (final_values_of self (default 10000 (amount sd))
                              (params_of name).1 (params_of name).2
                              (advance g (i * draws_of_run self))))
          = monte_carlo_runs self) as Hlen.
  { rewrite final_values_length. lia. }
  split; [exact Hlen|].
  destruct (prob_loss_of_sample _ _ _ Hs) as (p & Hp & Hf & Hb & Hclose).
  unfold Np.size in Hf, Hclose. rewrite Hlen in Hf, Hclose.
  exists p. split; [|done].
  unfold summary_field. simpl. rewrite Hlook. simpl. exact Hp.
Qed.

End ProbLossSample.

(** C5, as amended.  In an investment run the [prob_loss] kept under a
    name is a percentage: with the terminal values of the sample drawn at
    the last position of the name, as many as there are Monte Carlo runs,
    the fraction (count below the initial amount / sample count) lies in
    [0, 1], and [prob_loss] lies in [0, 100] and is 100 times that fraction
    to within less than a hundredth, the effect of the rounding to two
    decimals.  The summaries of relocation and job runs have no
    [prob_loss]. *)
Theorem prob_loss_is_percentage sqrt self kind sd ext now g :
  1 <= monte_carlo_runs self ->
  (kind = INVESTMENT -> ~ (default 10000 (amount sd) == 0)%Q) ->
  exists out g',
    run_simulation sqrt self kind sd ext now g = Return (out, g') /\
    (kind <> INVESTMENT ->
     forall mc name s, monte_carlo out = Some mc -> mc !! name = Some s ->
       s !! "prob_loss"%string = None) /\
    (kind = INVESTMENT ->
     forall (i : nat) name, last_occurrence (default [] (options sd)) i name ->
       let amount := default 10000%Q (amount sd) in
       let final_values :=
         final_values_of self amount (params_of name).1 (params_of name).2
           (advance g (i * draws_of_run self)) in
       let fraction :=
         (inject_Z (Z.of_nat (count_below final_values amount))
          / inject_Z (monte_carlo_runs self))%Q in
       Z.of_nat (length final_values) = monte_carlo_runs self /\
       exists p,
         summary_field name "prob_loss" out = Some p /\
         (0 <= fraction <= 1)%Q /\ (0 <= p <= 100)%Q /\
         (- (1 # 100) < p - fraction * 100 < 1 # 100)%Q).
Proof.
  intros Hn Hamount.
  destruct (run_simulation_spec sqrt self kind sd ext now g Hn Hamount)
    as (out & g' & Hret & _ & _ & Hmc & _).
  exists out, g'. split; [done|]. split.
  - intros Hkind mc name s Hsome Hs.
    destruct kind; simpl in Hmc; [| congruence | |done].
    + destruct Hmc as (mc' & Hsome' & _ & Hall). simplify_eq.
      destruct (Hall name s Hs) as (xs & _ & Hsum).
      by eapply savings_summary_no_prob_loss.
    + destruct Hmc as (mc' & Hsome' & _ & Hall). simplify_eq.
      destruct (Hall name s Hs) as (xs & _ & Hsum).
      by eapply salary_summary_no_prob_loss.
  - intros -> i name Hlast.
    exact (investment_prob_loss sqrt self sd ext now g out g' i name Hn Hret Hlast).
Qed.

Lemma prob_loss_is_percentage_witness :
  (1 <= monte_carlo_runs (__init__ 1 2) /\
   (INVESTMENT = INVESTMENT ->
    ~ (default 10000 (amount (options_only ["stocks"]%string)) == 0)%Q)) /\
  exists out g',
    run_simulation sqrt_floor (__init__ 1 2) INVESTMENT (options_only ["stocks"]%string)
      no_external "2026-01-01" alternating_rng = Return (out, g') /\
    (INVESTMENT <> INVESTMENT ->
     forall mc name s, monte_carlo out = Some mc -> mc !! name = Some s ->
       s !! "prob_loss"%string = None) /\
    (INVESTMENT = INVESTMENT ->
     forall (i : nat) name,
       last_occurrence (default [] (options (options_only ["stocks"]%string))) i name ->
       let amount := default 10000%Q (amount (options_only ["stocks"]%string)) in
       let final_values :=
         final_values_of (__init__ 1 2) amount (params_of name).1 (params_of name).2
           (advance alternating_rng (i * draws_of_run (__init__ 1 2))) in
       let fraction :=
         (inject_Z (Z.of_nat (count_below final_values amount))
          / inject_Z (monte_carlo_runs (__init__ 1 2)))%Q in
       Z.of_nat (length final_values) = monte_carlo_runs (__init__ 1 2) /\
       exists p,
         summary_field name "prob_loss" out = Some p /\
         (0 <= fraction <= 1)%Q /\ (0 <= p <= 100)%Q /\
         (- (1 # 100) < p - fraction * 100 < 1 # 100)%Q).
Proof.
  assert (1 <= monte_carlo_runs (__init__ 1 2)) as Hn by (simpl; lia).
  assert (INVESTMENT = INVESTMENT ->
          ~ (default 10000 (amount (options_only ["stocks"]%string)) == 0)%Q) as Hamount.
  { intros _. vm_compute. discriminate. }
  split; [by split|].
  exact (prob_loss_is_percentage sqrt_floor (__init__ 1 2) INVESTMENT
           (options_only ["stocks"]%string) no_external "2026-01-01" alternating_rng
           Hn Hamount).
Defined.

(** C5, as stated, fails.  Of the two terminal values drawn for the option,
    one lies below the initial amount 10000, so the fraction of losing
    samples is 1/2, and the returned [prob_loss] is 50, which is neither
    that fraction nor a number of [0, 1].  With three runs, two of the
    three terminal values lie below, and the returned [prob_loss] is
    66.67: two decimals of the percentage, not the percentage 200/3. *)
Lemma prob_loss_exceeds_one :
  let run := run_simulation sqrt_floor (__init__ 1 2) INVESTMENT
               (options_only ["stocks"]%string) no_external "2026-01-01"
               alternating_rng in
  let final_values :=
    final_values_of (__init__ 1 2) 10000 (10 # 100) (20 # 100) alternating_rng in
  let run' := run_simulation sqrt_floor (__init__ 1 3) INVESTMENT
                (options_only ["stocks"]%string) no_external "2026-01-01"
                alternating_rng in
  let final_values' :=
    final_values_of (__init__ 1 3) 10000 (10 # 100) (20 # 100) alternating_rng in
  (length final_values = 2%nat /\
   count_below final_values 10000 = 1%nat /\
   output_of run ≫= summary_field "stocks" "prob_loss" = Some (5000 # 100)%Q /\
   ~ (5000 # 100 == 1 # 2)%Q /\
   ~ (5000 # 100 <= 1)%Q) /\
  (length final_values' = 3%nat /\
   count_below final_values' 10000 = 2%nat /\
   output_of run' ≫= summary_field "stocks" "prob_loss" = Some (6667 # 100)%Q /\
   ~ (6667 # 100 == (2 # 3) * 100)%Q).
Proof.
  split.
  - split; [vm_compute; reflexivity|]. split; [vm_compute; reflexivity|].
    split; [vm_compute; reflexivity|]. split; [discriminate|].
    intros H. by vm_compute in H.
  - split; [vm_compute; reflexivity|]. split; [vm_compute; reflexivity|].
    split; [vm_compute; reflexivity|]. discriminate.
Qed.

(** * Portfolio metrics *)

Section PortfolioMetrics.

#[local] Open Scope Q_scope.

Lemma collect_metrics_spec stocks_data acc :
  fold_left collect_metrics stocks_data acc
  = (acc.1 ++ known_returns stocks_data, acc.2 ++ known_volatilities stocks_data).
Proof.
  revert acc. induction stocks_data as [|[ticker data] l IH]; intros [rs vs]; simpl.
  - by rewrite !app_nil_r.
  - rewrite IH. unfold known_returns, known_volatilities. simpl.
    destruct (historical data) as [h|]; simpl; [|done].
    by rewrite <- !app_assoc.
Qed.

Lemma known_lengths stocks_data :
  length (known_volatilities stocks_data) = length (known_returns stocks_data).
Proof.
  unfold known_returns, known_volatilities.
  induction stocks_data as [|[ticker data] l IH]; simpl; [done|].
  destruct (historical data); simpl; [f_equal|]; apply IH.
Qed.

Lemma known_returns_nil stocks_data :
  known_returns stocks_data = [] <->
  forall item, item ∈ stocks_data -> historical item.2 = None.
Proof.
  unfold known_returns. induction stocks_data as [|[ticker data] l IH]; simpl.
  - split; [|done]. intros _ item Hitem. by apply elem_of_nil in Hitem.
  - destruct (historical data) as [h|] eqn:Hh; simpl.
    + split; [done|]. intros Hall. specialize (Hall (ticker, data) ltac:(left)).
      simpl in Hall. congruence.
    + rewrite IH. split.
      * intros Hall item [->|Hitem]%elem_of_cons; [done|by apply Hall].
      * intros Hall item Hitem. apply Hall. by right.
Qed.

(** The metrics of a portfolio with at least one documented stock. *)
Lemma portfolio_metrics_known stocks_data :
  known_returns stocks_data ≠ [] ->
  exists avg_return avg_volatility sharpe_ratio,
    Np.mean (known_returns stocks_data) = Return avg_return /\
    Np.mean (known_volatilities stocks_data) = Return avg_volatility /\
    sharpe_ratio = (if decide (0 < avg_volatility)
                    then Py.round (avg_return / avg_volatility) 2 else 0) /\
    _calculate_portfolio_metrics stocks_data
    = Return {[ "expected_return" := Py.round avg_return 4;
                "expected_volatility" := Py.round avg_volatility 4;
                "sharpe_ratio" := sharpe_ratio ]}%string.
Proof.
  intros Hknown.
  assert (known_volatilities stocks_data ≠ []) as Hvol.
  { intros Hnil. apply Hknown, length_zero_iff_nil.
    by rewrite <- known_lengths, Hnil. }
  unfold _calculate_portfolio_metrics.
  destruct stocks_data as [|item l] eqn:Hdata; [done|]. rewrite <- Hdata in *.
  rewrite collect_metrics_spec. simpl.
  destruct (known_returns stocks_data) as [|r rs] eqn:Hrs; [done|].
  rewrite <- Hrs in *. rewrite (mean_Return (known_returns _)) by done.
  rewrite (mean_Return (known_volatilities _)) by done. simpl.
  eexists _, _, _. split; [done|]. split; [done|]. split; [reflexivity|].
  destruct (decide (0 < _)) as [Hpos|Hneg]; simpl; [|done].
  rewrite truediv_Return; [done|]. intros Hzero. rewrite Hzero in Hpos.
  by apply Qlt_irrefl in Hpos.
Qed.

End PortfolioMetrics.

(** X10.  [_calculate_portfolio_metrics] never raises: it returns the
    empty dict exactly when no stock carries historical data, and otherwise
    a dict with exactly the keys [expected_return], [expected_volatility]
    and [sharpe_ratio]; the division by the mean volatility is only made
    when that mean is positive, and the ratio is 0 otherwise. *)
Theorem portfolio_metrics_total stocks_data :
  exists metrics,
    _calculate_portfolio_metrics stocks_data = Return metrics /\
    (metrics = ∅ <-> forall item, item ∈ stocks_data -> historical item.2 = None) /\
    (metrics ≠ ∅ ->
     dom metrics
     = (list_to_set ["expected_return"; "expected_volatility"; "sharpe_ratio"]%string
        : gset string) /\
     exists avg_volatility,
       Np.mean (known_volatilities stocks_data) = Return avg_volatility /\
       (~ (0 < avg_volatility)%Q -> metrics !! "sharpe_ratio"%string = Some 0%Q)).
Proof.
  destruct (known_returns stocks_data) as [|r rs] eqn:Hrs.
  - assert (_calculate_portfolio_metrics stocks_data = Return ∅) as Hempty.
    { unfold _calculate_portfolio_metrics. destruct stocks_data as [|item l]; [done|].
      by rewrite collect_metrics_spec, Hrs. }
    exists ∅. split; [done|]. split; [|done].
    split; [intros _; by apply known_returns_nil|done].
  - destruct (portfolio_metrics_known stocks_data) as (ar & av & sh & Har & Hav & Hsh & Hm).
    { by rewrite Hrs. }
    eexists. split; [exact Hm|]. split.
    + split.
      * intros Hnil. apply (f_equal (fun m => m !! "sharpe_ratio"%string)) in Hnil.
        by rewrite lookup_empty in Hnil.
      * intros Hnone. apply known_returns_nil in Hnone. congruence.
    + intros _. split.
      * rewrite !dom_insert_L, dom_singleton_L. simpl. by rewrite union_empty_r_L.
      * exists av. split; [done|]. intros Hneg. rewrite Hsh.
        by destruct (decide (0 < av)%Q).
Qed.

(** X11.  The expected return and the expected volatility of a portfolio
    lie between the smallest and the largest figure of the stocks that
    carry historical data, rounded to four decimals. *)
Theorem portfolio_metrics_within stocks_data lo hi vlo vhi :
  known_returns stocks_data ≠ [] ->
  (forall r, r ∈ known_returns stocks_data -> lo <= r <= hi)%Q ->
  (forall v, v ∈ known_volatilities stocks_data -> vlo <= v <= vhi)%Q ->
  exists metrics er ev,
    _calculate_portfolio_metrics stocks_data = Return metrics /\
    metrics !! "expected_return"%string = Some er /\
    metrics !! "expected_volatility"%string = Some ev /\
    (Py.round lo 4 <= er <= Py.round hi 4)%Q /\
    (Py.round vlo 4 <= ev <= Py.round vhi 4)%Q.
Proof.
  intros Hknown Hr Hv.
  destruct (portfolio_metrics_known stocks_data Hknown)
    as (ar & av & sh & Har & Hav & Hsh & Hm).
  assert (known_volatilities stocks_data ≠ []) as Hvol.
  { intros Hnil. apply Hknown, length_zero_iff_nil.
    by rewrite <- known_lengths, Hnil. }
  destruct (mean_within _ lo hi Hknown Hr) as (ar' & Har' & Hbr).
  destruct (mean_within _ vlo vhi Hvol Hv) as (av' & Hav' & Hbv).
  assert (ar' = ar) as -> by congruence. assert (av' = av) as -> by congruence.
  eexists _, _, _. split; [exact Hm|]. split; [reflexivity|]. split; [reflexivity|].
  split; by apply round_within.
Qed.

Lemma portfolio_metrics_within_witness :
  (known_returns sample_stocks ≠ [] /\
   (forall r, r ∈ known_returns sample_stocks -> (8 # 100) <= r <= (12 # 100))%Q /\
   (forall v, v ∈ known_volatilities sample_stocks -> (15 # 100) <= v <= (25 # 100))%Q) /\
  exists metrics er ev,
    _calculate_portfolio_metrics sample_stocks = Return metrics /\
    metrics !! "expected_return"%string = Some er /\
    metrics !! "expected_volatility"%string = Some ev /\
    (Py.round (8 # 100) 4 <= er <= Py.round (12 # 100) 4)%Q /\
    (Py.round (15 # 100) 4 <= ev <= Py.round (25 # 100) 4)%Q.
Proof.
  assert (known_returns sample_stocks ≠ []) as Hknown by discriminate.
  assert (forall r, r ∈ known_returns sample_stocks -> (8 # 100) <= r <= (12 # 100))%Q
    as Hr.
  { intros r Hin. repeat (apply elem_of_cons in Hin as [->|Hin]); [split; by vm_compute..|].
    by apply elem_of_nil in Hin. }
  assert (forall v, v ∈ known_volatilities sample_stocks
                    -> (15 # 100) <= v <= (25 # 100))%Q as Hv.
  { intros v Hin. repeat (apply elem_of_cons in Hin as [->|Hin]); [split; by vm_compute..|].
    by apply elem_of_nil in Hin. }
  split; [by split_and!|].
  exact (portfolio_metrics_within sample_stocks _ _ _ _ Hknown Hr Hv).
Defined.

(** The metrics of two documented stocks: mean return 0.10, mean
    volatility 0.20, ratio 0.5. *)
Example portfolio_metrics_sample :
  (fun m => (fun key => Qred <$> m !! key)
            <$> ["expected_return"; "expected_volatility"; "sharpe_ratio"]%string)
  <$> match _calculate_portfolio_metrics sample_stocks with
      | Return m => Some m
      | Raise _ => None
      end
  = Some [Some (1 # 10); Some (1 # 5); Some (1 # 2)]%Q.
Proof. vm_compute. reflexivity. Qed.

(** * The cache of external data *)

Section Cache.

Import DataService.

Lemma cached_or_spec key fresh src s :
  cached_or key fresh src s
  = match cached_data s !! key with
    | Some cached =>
      if decide (next_reading s < expires_at cached)
      then if Py.truthy (data cached) then Done (data cached) (tick s) else IntegrityError
      else IntegrityError
    | None =>
      Done fresh
           (Session (<[key := {| data := fresh; source := src;
                                 expires_at := clock s (S (readings s))
                                               + timedelta_seconds CACHE_TTL_SECONDS |}]>
                       (cached_data s))
                    (clock s) (S (S (readings s))))
    end.
Proof.
  unfold cached_or, _get_cached, _set_cached, select_data, add_and_commit, utcnow,
    next_reading, tick, mbind, DB_bind, mret, DB_ret. simpl.
  destruct (cached_data s !! key) as [cached|] eqn:Hrow; simpl.
  - destruct (decide _); simpl; [|by rewrite Hrow].
    destruct (Py.truthy (data cached)); simpl; [done|by rewrite Hrow].
  - by rewrite Hrow.
Qed.

Lemma truthy_nonempty d : Py.truthy d = true <-> d ≠ ∅.
Proof. unfold Py.truthy. by rewrite bool_decide_eq_true. Qed.

Lemma truthy_empty d : Py.truthy d = false <-> d = ∅.
Proof.
  unfold Py.truthy. rewrite bool_decide_eq_false. split; [|by intros -> []].
  intros Hnn. by destruct (decide (d = ∅)).
Qed.

(** The call raises exactly on a row that is there and cannot be used. *)
Lemma cached_or_raises key fresh src s :
  cached_or key fresh src s = IntegrityError <->
  exists cached, cached_data s !! key = Some cached /\ unusable (next_reading s) cached.
Proof.
  rewrite cached_or_spec. unfold unusable.
  destruct (cached_data s !! key) as [cached|] eqn:Hrow.
  - destruct (decide _) as [Hfresh|Hstale].
    + destruct (Py.truthy (data cached)) eqn:Ht.
      * split; [done|]. intros (c & [= <-] & [Hexp|Hempty]); [lia|].
        apply truthy_nonempty in Ht. done.
      * split; [|done]. intros _. exists cached. split; [done|].
        right. by apply truthy_empty.
    + split; [|done]. intros _. exists cached. split; [done|]. left. lia.
  - split; [done|]. by intros (c & [=] & _).
Qed.

Lemma mock_cost_of_living_nonempty city : _mock_cost_of_living city ≠ ∅.
Proof.
  unfold _mock_cost_of_living.
  destruct (cost_of_living_table !! Py.lower city) as [d|] eqn:Hd; simpl.
  - unfold cost_of_living_table in Hd.
    repeat (apply lookup_insert_Some in Hd as [[_ <-]|[_ Hd]]; [apply insert_non_empty|]).
    apply lookup_singleton_Some in Hd as [_ <-]. apply insert_non_empty.
  - apply insert_non_empty.
Qed.

Lemma mock_tax_rates_nonempty city : _mock_tax_rates city ≠ ∅.
Proof.
  unfold _mock_tax_rates.
  destruct (tax_rates_table !! Py.lower city) as [d|] eqn:Hd; simpl.
  - unfold tax_rates_table in Hd.
    repeat (apply lookup_insert_Some in Hd as [[_ <-]|[_ Hd]]; [apply insert_non_empty|]).
    apply lookup_singleton_Some in Hd as [_ <-]. apply insert_non_empty.
  - apply insert_non_empty.
Qed.

Lemma mock_cost_of_living_lower city city' :
  Py.lower city' = Py.lower city -> _mock_cost_of_living city' = _mock_cost_of_living city.
Proof. unfold _mock_cost_of_living. by intros ->. Qed.

Lemma mock_tax_rates_lower city city' :
  Py.lower city' = Py.lower city -> _mock_tax_rates city' = _mock_tax_rates city.
Proof. unfold _mock_tax_rates. by intros ->. Qed.

Lemma cached_or_steady until key fresh src s :
  steady until s -> (readings s + 2 <= until)%nat -> fresh ≠ ∅ ->
  (forall cached, cached_data s !! key = Some cached -> data cached = fresh) ->
  exists s',
    cached_or key fresh src s = Done fresh s' /\
    steady until s' /\
    (readings s' <= readings s + 2)%nat /\
    (forall key' cached, cached_data s' !! key' = Some cached ->
       cached_data s !! key' = Some cached \/ (key' = key /\ data cached = fresh)).
Proof.
  intros [Hclock Hrows] Hr Hfresh Hsound. rewrite cached_or_spec.
  destruct (cached_data s !! key) as [cached|] eqn:Hrow.
  - destruct (decide _) as [Hlt|Hge].
    + rewrite (Hsound cached eq_refl). apply truthy_nonempty in Hfresh as ->.
      exists (tick s). split; [done|]. split; [by split|]. split; [simpl; lia|].
      intros key' c Hc. by left.
    + exfalso. apply Hge. unfold next_reading. apply (Hrows key cached); [lia|done].
  - eexists. split; [reflexivity|]. simpl. split; [|split; [lia|]].
    + split; simpl; [done|].
      intros key' c i Hi [[<- <-]|[_ Hc]]%lookup_insert_Some; simpl.
      * apply Hclock; lia.
      * by eapply Hrows.
    + intros key' c [[<- <-]|[_ Hc]]%lookup_insert_Some; [by right|by left].
Qed.

Lemma get_cost_of_living_serviceable until city s :
  serviceable until s -> (readings s + 2 <= until)%nat ->
  exists s',
    get_cost_of_living city s = Done (_mock_cost_of_living city) s' /\
    serviceable until s' /\ (readings s' <= readings s + 2)%nat.
Proof.
  intros [Hsound Hsteady] Hr.
  destruct (cached_or_steady until ("col_" +:+ Py.lower city) (_mock_cost_of_living city)
              "numbeo" s Hsteady Hr (mock_cost_of_living_nonempty city))
    as (s' & Hget & Hsteady' & Hr' & Hnew).
  { intros cached Hrow. destruct (Hsound _ _ Hrow) as [Hcol _].
    rewrite (Hcol (Py.lower city) eq_refl).
    apply mock_cost_of_living_lower, lower_idempotent. }
  exists s'. split; [exact Hget|]. split; [|done]. split; [|done].
  intros key' cached Hrow'.
  destruct (Hnew _ _ Hrow') as [Hold|[-> Hdata]]; [by apply Hsound|].
  split; intros c Hc; simplify_eq/=.
  rewrite Hdata. symmetry. apply mock_cost_of_living_lower, lower_idempotent.
Qed.

Lemma get_tax_rates_serviceable until city s :
  serviceable until s -> (readings s + 2 <= until)%nat ->
  exists s',
    get_tax_rates city s = Done (_mock_tax_rates city) s' /\
    serviceable until s' /\ (readings s' <= readings s + 2)%nat.
Proof.
  intros [Hsound Hsteady] Hr.
  destruct (cached_or_steady until ("tax_" +:+ Py.lower city) (_mock_tax_rates city)
              "internal" s Hsteady Hr (mock_tax_rates_nonempty city))
    as (s' & Hget & Hsteady' & Hr' & Hnew).
  { intros cached Hrow. destruct (Hsound _ _ Hrow) as [_ Htax].
    rewrite (Htax (Py.lower city) eq_refl).
    apply mock_tax_rates_lower, lower_idempotent. }
  exists s'. split; [exact Hget|]. split; [|done]. split; [|done].
  intros key' cached Hrow'.
  destruct (Hnew _ _ Hrow') as [Hold|[-> Hdata]]; [by apply Hsound|].
  split; intros c Hc; simplify_eq/=.
  rewrite Hdata. symmetry. apply mock_tax_rates_lower, lower_idempotent.
Qed.

Lemma db_for_each_rule {A St} (I : list A -> St -> session -> Prop)
    (body : St -> A -> DB St) l st s :
  I [] st s ->
  (forall pre x suf st s, l = pre ++ x :: suf -> I pre st s ->
     exists st' s', body st x s = Done st' s' /\ I (pre ++ [x]) st' s') ->
  exists st' s', db_for_each l body st s = Done st' s' /\ I l st' s'.
Proof.
  intros Hinit Hstep.
  cut (forall suf pre st s, l = pre ++ suf -> I pre st s ->
         exists st' s', db_for_each suf body st s = Done st' s' /\ I l st' s').
  { intros Hcut. by apply (Hcut l []). }
  induction suf as [|x suf IH]; intros pre st0 s0 Heq HI; simpl.
  - rewrite app_nil_r in Heq. subst. by eexists _, _.
  - destruct (Hstep pre x suf st0 s0 Heq HI) as (st' & s' & Hb & HI').
    unfold mbind, DB_bind. rewrite Hb.
    apply (IH (pre ++ [x])); [by rewrite <- app_assoc|done].
Qed.

(** Step 2 of the endpoint on a serviceable session. *)
Lemma fetch_external_data_spec until kind sd s :
  serviceable until s ->
  (readings s + 4 * length (default [] (cities sd)) <= until)%nat ->
  exists ext s',
    fetch_external_data kind sd s = Done ext s' /\
    serviceable until s' /\
    match kind with
    | RELOCATION =>
        forall city, city ∈ default [] (cities sd) ->
          col_of ext (Py.lower city) = _mock_cost_of_living city /\
          tax_of ext (Py.lower city) = _mock_tax_rates city
    | _ => ext = no_external /\ s' = s
    end.
Proof.
  intros Hs Hr.
  destruct kind; simpl; try (by eexists _, _).
  set (l := default [] (cities sd)) in *.
  destruct (db_for_each_rule
    (fun pre (ext : gmap string (gmap string Q) * gmap string (gmap string Q)) s' =>
       serviceable until s' /\
       (readings s' <= readings s + 4 * length pre)%nat /\
       forall city, city ∈ pre ->
         ext.1 !! Py.lower city = Some (_mock_cost_of_living city) /\
         ext.2 !! Py.lower city = Some (_mock_tax_rates city))
    fetch_city l (∅, ∅) s) as (ext & s' & Hloop & Hs' & _ & Hall).
  - split; [done|]. split; [simpl; lia|]. intros city Hin. by apply elem_of_nil in Hin.
  - intros pre x suf ext s1 Hl (Hs1 & Hr1 & Hall).
    assert (length l = length pre + S (length suf))%nat as Hlen.
    { by rewrite Hl, length_app. }
    destruct (get_cost_of_living_serviceable until x s1 Hs1 ltac:(lia))
      as (s2 & Hcol & Hs2 & Hr2).
    destruct (get_tax_rates_serviceable until x s2 Hs2 ltac:(lia))
      as (s3 & Htax & Hs3 & Hr3).
    eexists _, s3. unfold fetch_city, mbind, DB_bind. rewrite Hcol, Htax.
    split; [reflexivity|]. split; [done|]. split; [rewrite length_app; simpl; lia|].
    simpl. intros city [Hin|Hx%list_elem_of_singleton]%elem_of_app; [|subst city].
    + destruct (decide (Py.lower x = Py.lower city)) as [Heq|Hne].
      * rewrite Heq, !lookup_insert_eq.
        by rewrite (mock_cost_of_living_lower city x), (mock_tax_rates_lower city x).
      * rewrite !lookup_insert_ne by done. by apply Hall.
    + by rewrite !lookup_insert_eq.
  - unfold mbind, DB_bind. rewrite Hloop. eexists _, s'. split; [reflexivity|].
    split; [done|]. intros city Hin. destruct (Hall city Hin) as [Hc Ht].
    unfold col_of, tax_of. simpl. by rewrite Hc, Ht.
Qed.

End Cache.

(** X12.  [get_cost_of_living] and [get_tax_rates] raise exactly when the
    table holds a row under the key of the city that has expired at the
    instant of the lookup or holds an empty dict: the lookup passes over the
    row, and the row then added under the same key breaks the unique
    constraint at the commit. *)
Theorem unusable_row_raises city s :
  (DataService.get_cost_of_living city s = IntegrityError <->
   exists cached, cached_data s !! ("col_" +:+ Py.lower city) = Some cached /\
                  unusable (next_reading s) cached) /\
  (DataService.get_tax_rates city s = IntegrityError <->
   exists cached, cached_data s !! ("tax_" +:+ Py.lower city) = Some cached /\
                  unusable (next_reading s) cached).
Proof. split; apply cached_or_raises. Qed.

(** A row for Oslo that expired before the lookup. *)
Example stale_row_for_oslo :
  DataService.get_cost_of_living "Oslo" stale_session = IntegrityError.
Proof.
  apply unusable_row_raises. eexists. split; [reflexivity|]. left. simpl. lia.
Qed.

(** X13.  After a miss, [get_cost_of_living] answers the mock figures and
    stores them; from then on, for every spelling of the city that differs
    in letter case only, a lookup made before the expiry of the row gives
    the same figures and leaves the table as it is, and a lookup made at or
    after the expiry raises: the row is never replaced. *)
Theorem stored_answer_served city s :
  cached_data s !! ("col_" +:+ Py.lower city) = None ->
  exists s1,
    DataService.get_cost_of_living city s
    = Done (DataService._mock_cost_of_living city) s1 /\
    forall city' s2,
      Py.lower city' = Py.lower city ->
      cached_data s2 = cached_data s1 ->
      let expiry := clock s (S (readings s)) + timedelta_seconds CACHE_TTL_SECONDS in
      DataService.get_cost_of_living city' s2
      = if decide (next_reading s2 < expiry)
        then Done (DataService._mock_cost_of_living city) (tick s2)
        else IntegrityError.
Proof.
  intros Hmiss. unfold DataService.get_cost_of_living.
  rewrite cached_or_spec, Hmiss. eexists. split; [reflexivity|].
  intros city' s2 Hlower Htable.
  rewrite cached_or_spec, Hlower, Htable. cbn [cached_data]. rewrite lookup_insert_eq.
  cbn [expires_at data]. destruct (decide _); [|done].
  by rewrite (proj2 (truthy_nonempty _) (mock_cost_of_living_nonempty city)).
Qed.

Lemma stored_answer_served_witness :
  cached_data empty_session !! ("col_" +:+ Py.lower "Oslo") = None /\
  exists s1,
    DataService.get_cost_of_living "Oslo" empty_session
    = Done (DataService._mock_cost_of_living "Oslo") s1 /\
    forall city' s2,
      Py.lower city' = Py.lower "Oslo" ->
      cached_data s2 = cached_data s1 ->
      let expiry := clock empty_session (S (readings empty_session))
                    + timedelta_seconds CACHE_TTL_SECONDS in
      DataService.get_cost_of_living city' s2
      = if decide (next_reading s2 < expiry)
        then Done (DataService._mock_cost_of_living "Oslo") (tick s2)
        else IntegrityError.
Proof.
  split; [reflexivity|]. exact (stored_answer_served "Oslo" empty_session eq_refl).
Defined.

(** X14.  On a session whose rows hold what the service stores and do not
    expire during the request, fetching the external data of a simulation
    completes and leaves such a session; for a relocation every city of the
    structured data gets, under its lower-case name, the mock figures of the
    service, and for the other decision types nothing is fetched and the
    session is not touched. *)
Theorem fetch_external_data_serviceable until kind sd s :
  serviceable until s ->
  (readings s + 4 * length (default [] (cities sd)) <= until)%nat ->
  exists ext s',
    fetch_external_data kind sd s = Done ext s' /\
    serviceable until s' /\
    match kind with
    | RELOCATION =>
        forall city, city ∈ default [] (cities sd) ->
          col_of ext (Py.lower city) = DataService._mock_cost_of_living city /\
          tax_of ext (Py.lower city) = DataService._mock_tax_rates city
    | _ => ext = no_external /\ s' = s
    end.
Proof. apply fetch_external_data_spec. Qed.

Lemma empty_session_serviceable : serviceable 8 empty_session.
Proof.
  split.
  - intros key cached Hrow. simpl in Hrow. by rewrite lookup_empty in Hrow.
  - split.
    + intros i j Hi Hj. unfold timedelta_seconds, CACHE_TTL_SECONDS. simpl. lia.
    + intros key cached i _ Hrow. simpl in Hrow. by rewrite lookup_empty in Hrow.
Qed.

Lemma fetch_external_data_serviceable_witness :
  (serviceable 8 empty_session /\
   (readings empty_session
    + 4 * length (default [] (cities (cities_only ["Berlin"; "berlin"]%string))) <= 8)%nat) /\
  exists ext s',
    fetch_external_data RELOCATION (cities_only ["Berlin"; "berlin"]%string) empty_session
    = Done ext s' /\
    serviceable 8 s' /\
    forall city, city ∈ default [] (cities (cities_only ["Berlin"; "berlin"]%string)) ->
      col_of ext (Py.lower city) = DataService._mock_cost_of_living city /\
      tax_of ext (Py.lower city) = DataService._mock_tax_rates city.
Proof.
  assert (readings empty_session
          + 4 * length (default [] (cities (cities_only ["Berlin"; "berlin"]%string))) <= 8)%nat
    as Hr by (simpl; lia).
  split; [split; [exact empty_session_serviceable|exact Hr]|].
  exact (fetch_external_data_serviceable 8 RELOCATION (cities_only ["Berlin"; "berlin"]%string)
           empty_session empty_session_serviceable Hr).
Defined.

Lemma relocation_via_service sqrt self until sd s now g :
  1 <= monte_carlo_runs self ->
  serviceable until s ->
  (readings s + 4 * length (default [] (cities sd)) <= until)%nat ->
  exists ext s' out g',
    fetch_external_data RELOCATION sd s = Done ext s' /\
    run_simulation sqrt self RELOCATION sd ext now g = Return (out, g') /\
    dom (projections out) = list_to_set (default [] (cities sd)) /\
    forall city, city ∈ default [] (cities sd) ->
      projections out !! city
      = Some (relocation_projection self (base_salary_of sd)
                (Py.sum_values (DataService._mock_cost_of_living city) * 12)%Q
                (effective_tax_of (DataService._mock_tax_rates city))).
Proof.
  intros Hn Hs Hr.
  destruct (fetch_external_data_spec until RELOCATION sd s Hs Hr)
    as (ext & s' & Hfetch & _ & Hall).
  destruct (relocation_entries sqrt self sd ext now g Hn)
    as (out & g' & mc & Hrun & _ & Hentries).
  destruct (run_simulation_spec sqrt self RELOCATION sd ext now g Hn ltac:(done))
    as (out' & g'' & Hrun' & Hdom & _).
  assert (out' = out) as -> by congruence.
  exists ext, s', out, g'. split; [done|]. split; [done|]. split; [exact Hdom|].
  intros city Hcity. destruct (Hentries city Hcity) as [-> _].
  destruct (Hall city Hcity) as [Hcol Htax].
  unfold relocation_entry, monthly_cost_of. rewrite Hcol, Htax.
  by rewrite (proj2 (truthy_nonempty _) (mock_cost_of_living_nonempty city)).
Qed.

(** X15.  Steps 2 and 3 of the endpoint composed: on a serviceable session
    a relocation run completes, and the trajectory of every city is the one
    computed from the mock figures of the service, twelve times the sum of
    its five monthly costs and its effective tax rate; the defaults of the
    engine for a city without data are never used. *)
Theorem relocation_through_cache sqrt self until sd s now g :
  1 <= monte_carlo_runs self ->
  serviceable until s ->
  (readings s + 4 * length (default [] (cities sd)) <= until)%nat ->
  exists ext s' out g',
    fetch_external_data RELOCATION sd s = Done ext s' /\
    run_simulation sqrt self RELOCATION sd ext now g = Return (out, g') /\
    forall city, city ∈ default [] (cities sd) ->
      projections out !! city
      = Some (relocation_projection self (base_salary_of sd)
                (Py.sum_values (DataService._mock_cost_of_living city) * 12)%Q
                (effective_tax_of (DataService._mock_tax_rates city))).
Proof.
  intros Hn Hs Hr.
  destruct (relocation_via_service sqrt self until sd s now g Hn Hs Hr)
    as (ext & s' & out & g' & Hfetch & Hrun & _ & Hall).
  by exists ext, s', out, g'.
Qed.

Lemma relocation_through_cache_witness :
  (1 <= monte_carlo_runs (__init__ 2 3) /\
   serviceable 8 empty_session /\
   (readings empty_session
    + 4 * length (default [] (cities (cities_only ["Berlin"; "Oslo"]%string))) <= 8)%nat) /\
  exists ext s' out g',
    fetch_external_data RELOCATION (cities_only ["Berlin"; "Oslo"]%string) empty_session
    = Done ext s' /\
    run_simulation sqrt_floor (__init__ 2 3) RELOCATION (cities_only ["Berlin"; "Oslo"]%string)
      ext "2026-01-01" (constant_rng 0) = Return (out, g') /\
    forall city, city ∈ default [] (cities (cities_only ["Berlin"; "Oslo"]%string)) ->
      projections out !! city
      = Some (relocation_projection (__init__ 2 3)
                (base_salary_of (cities_only ["Berlin"; "Oslo"]%string))
                (Py.sum_values (DataService._mock_cost_of_living city) * 12)%Q
                (effective_tax_of (DataService._mock_tax_rates city))).
Proof.
  assert (1 <= monte_carlo_runs (__init__ 2 3)) as Hn by (simpl; lia).
  assert (readings empty_session
          + 4 * length (default [] (cities (cities_only ["Berlin"; "Oslo"]%string))) <= 8)%nat
    as Hr by (simpl; lia).
  split; [split_and!; [exact Hn|exact empty_session_serviceable|exact Hr]|].
  exact (relocation_through_cache sqrt_floor (__init__ 2 3) 8
           (cities_only ["Berlin"; "Oslo"]%string) empty_session "2026-01-01"
           (constant_rng 0) Hn empty_session_serviceable Hr).
Defined.

(** * The mock language model *)

Section Strings.

#[local] Open Scope string_scope.

Lemma string_app_cons x (a b : string) : String x a +:+ b = String x (a +:+ b).
Proof. reflexivity. Qed.

Lemma string_app_nil (b : string) : EmptyString +:+ b = b.
Proof. reflexivity. Qed.

Lemma string_app_assoc (a b c : string) : (a +:+ b) +:+ c = a +:+ (b +:+ c).
Proof.
  induction a as [|x a IH]; rewrite ?string_app_nil, ?string_app_cons; [done|].
  by rewrite IH.
Qed.

Lemma lower_app a b : Py.lower (a +:+ b) = Py.lower a +:+ Py.lower b.
Proof.
  induction a as [|x a IH]; [done|].
  rewrite string_app_cons. cbn [Py.lower]. by rewrite string_app_cons, IH.
Qed.

Lemma prefix_nil s : String.prefix EmptyString s = true.
Proof. by destruct s. Qed.

Lemma prefix_app n a b : String.prefix n a = true -> String.prefix n (a +:+ b) = true.
Proof.
  revert a. induction n as [|x n IH]; intros a; [intros _; apply prefix_nil|].
  destruct a as [|y a]; [done|].
  rewrite string_app_cons. simpl.
  destruct (ascii_dec x y); [apply IH|done].
Qed.

Lemma contains_app_l n a b : contains n a = true -> contains n (a +:+ b) = true.
Proof.
  induction a as [|y a IH].
  - simpl. rewrite orb_false_r. intros Hn. destruct n; [|done]. by destruct b.
  - rewrite string_app_cons. cbn [contains].
    intros [Hp|Hc]%orb_true_iff; apply orb_true_iff.
    + left. by apply (prefix_app n (String y a) b).
    + right. by apply IH.
Qed.

Lemma contains_app_r n a b : contains n b = true -> contains n (a +:+ b) = true.
Proof.
  intros Hb. induction a as [|y a IH]; [done|].
  rewrite string_app_cons. cbn [contains]. apply orb_true_iff. by right.
Qed.

Lemma prefix_sep c n a b :
  has_char c n = false -> String.prefix n (a +:+ String c b) = String.prefix n a.
Proof.
  revert a. induction n as [|x n IH]; intros a Hc; [by rewrite !prefix_nil|].
  simpl in Hc. apply orb_false_iff in Hc as [Hx Hn].
  destruct a as [|y a]; rewrite ?string_app_nil, ?string_app_cons; simpl.
  - destruct (ascii_dec x c) as [->|]; [|done]. by rewrite Ascii.eqb_refl in Hx.
  - destruct (ascii_dec x y); [by apply IH|done].
Qed.

(** A word without the character [c] does not straddle it. *)
Lemma contains_sep c n a b :
  has_char c n = false ->
  contains n (a +:+ String c b) = contains n a || contains n b.
Proof.
  intros Hc. induction a as [|y a IH].
  - rewrite string_app_nil. cbn [contains].
    rewrite <- (string_app_nil (String c b)) at 1.
    rewrite (prefix_sep c n EmptyString b Hc). by rewrite orb_false_r.
  - rewrite string_app_cons. cbn [contains].
    rewrite IH, <- string_app_cons, (prefix_sep c n (String y a) b Hc).
    by rewrite orb_assoc.
Qed.

Lemma plain_word_inv n :
  plain_word n = true ->
  has_char ":"%char n = false /\ has_char "010"%char n = false /\
  contains n EmptyString = false /\
  forall s, String.prefix n (String " "%char s) = false.
Proof.
  unfold plain_word. intros [[Hfirst Hcolon]%andb_true_iff Hfeed]%andb_true_iff.
  apply negb_true_iff in Hcolon, Hfeed. split; [done|]. split; [done|].
  destruct n as [|x n]; [done|]. split; [done|].
  intros s. simpl. destruct (ascii_dec x " "%char) as [->|]; [|done].
  by rewrite Ascii.eqb_refl in Hfirst.
Qed.

(** A plain word occurs in a text with a hole, after a colon and a space and
    before a line feed, exactly when it occurs in what fills the hole or in
    the text around it. *)
Lemma contains_hole n a b q :
  plain_word n = true ->
  contains n ((a +:+ ": ") +:+ (q +:+ String "010"%char b))
  = contains n q || contains n ((a +:+ ": ") +:+ String "010"%char b).
Proof.
  intros (Hcolon & Hfeed & Hempty & Hspace)%plain_word_inv.
  rewrite !string_app_assoc, !string_app_cons, !string_app_nil.
  rewrite !(contains_sep ":"%char) by done.
  cbn [contains]. rewrite !Hspace. cbn [orb].
  rewrite (contains_sep "010"%char n q b Hfeed).
  assert (String.prefix n (String "010"%char b) = false) as ->.
  { rewrite <- (string_app_nil (String "010"%char b)).
    rewrite (prefix_sep _ _ EmptyString b Hfeed).
    simpl in Hempty. by rewrite orb_false_r in Hempty. }
  destruct (contains n a), (contains n q), (contains n b); done.
Qed.

Lemma structuring_head_ends :
  Py.lower structuring_head
  = substring 0 111 (Py.lower structuring_head) +:+ ": ".
Proof. vm_compute. reflexivity. Qed.

Lemma structuring_middle_starts :
  Py.lower structuring_middle = String "010"%char "decision type: ".
Proof. vm_compute. reflexivity. Qed.

(** A plain word occurs in the structuring prompt exactly when it occurs in
    the query or in the prompt of the empty query. *)
Lemma contains_structuring n q dt :
  plain_word n = true ->
  contains n (Py.lower (STRUCTURING_PROMPT q dt))
  = contains n (Py.lower q) || contains n (Py.lower (STRUCTURING_PROMPT EmptyString dt)).
Proof.
  intros Hn. unfold STRUCTURING_PROMPT. rewrite !lower_app.
  rewrite structuring_head_ends, structuring_middle_starts.
  change (Py.lower EmptyString) with EmptyString.
  rewrite string_app_nil, !string_app_cons.
  by apply contains_hole.
Qed.

End Strings.

Section MockModel.

#[local] Open Scope string_scope.

Variable chat_completion : LLMService -> string -> llm_result json.

(** A word of the query is a word of the prompt. *)
Lemma contains_query n q dt :
  contains n (Py.lower q) = true ->
  contains n (Py.lower (STRUCTURING_PROMPT q dt)) = true.
Proof.
  intros Hq. unfold STRUCTURING_PROMPT. rewrite !lower_app.
  by apply contains_app_r, contains_app_l.
Qed.

Ltac frame_words q :=
  repeat match goal with
  | |- context [contains ?w (Py.lower (STRUCTURING_PROMPT q ?dt))] =>
      rewrite (contains_structuring w q dt eq_refl)
  end;
  repeat match goal with
  | |- context [contains ?w (Py.lower (STRUCTURING_PROMPT EmptyString ?dt))] =>
      let b := eval vm_compute in (contains w (Py.lower (STRUCTURING_PROMPT EmptyString dt))) in
      replace (contains w (Py.lower (STRUCTURING_PROMPT EmptyString dt))) with b
        by (vm_compute; reflexivity)
  end;
  repeat match goal with
  | |- context [bool_decide ?P] =>
      let b := eval vm_compute in (bool_decide P) in
      change (bool_decide P) with b
  end.

(** The mock answer to the structuring prompt of the endpoint, in terms of
    the query alone. *)
Lemma mock_structuring q kind :
  _mock_response (STRUCTURING_PROMPT q (DecisionType_value kind))
                 (Some (DecisionType_value kind))
  = if contains "summary" (Py.lower q) || contains "report" (Py.lower q)
    then report_answer
    else if negb (contains "example" (Py.lower q)) then relocation_answer
    else match kind with
         | RELOCATION => relocation_answer
         | PURCHASE => purchase_answer ["Electric Car"; "Gasoline Car"]
         | JOB => job_answer
         | INVESTMENT =>
             investment_answer (investment_options (Py.lower q))
               (if contains "beginner" (Py.lower q) then "beginner" else "intermediate")
         end.
Proof.
  destruct kind; unfold _mock_response, investment_options, purchase_options;
    cbn [DecisionType_value]; cbv beta iota zeta; frame_words q;
    rewrite ?orb_false_r, ?orb_true_r; cbn [orb andb negb];
    destruct (contains "summary" (Py.lower q)), (contains "report" (Py.lower q)),
      (contains "example" (Py.lower q)); reflexivity.
Qed.

Lemma structure_query_mock self q kind :
  truthy_str (api_key self) = false ->
  structure_query chat_completion self q (DecisionType_value kind)
  = Answer (_mock_response (STRUCTURING_PROMPT q (DecisionType_value kind))
                           (Some (DecisionType_value kind))).
Proof. intros Hkey. unfold structure_query, _call_llm. by rewrite Hkey. Qed.

Lemma structured_of_relocation_answer :
  structured_of relocation_answer = Some berlin_or_amsterdam.
Proof. vm_compute. reflexivity. Qed.

Lemma structured_of_report_answer :
  structured_of report_answer = Some nothing_structured.
Proof. vm_compute. reflexivity. Qed.


Lemma engine_of_runs input :
  Schemas.validates input -> 1 <= monte_carlo_runs (engine_of input).
Proof.
  intros (_ & _ & Hruns). unfold engine_of. simpl.
  destruct (Schemas.monte_carlo_runs input) as [runs|]; [|lia].
  destruct (decide (runs = 0)); lia.
Qed.

(** X16.  Without a key, a query that mentions "summary" or "report", in
    any letter case, is answered with the mock report whatever the decision
    type: the structured data then hold neither cities nor options, and a
    simulation has nothing to iterate over. *)
Theorem report_words_divert_structuring self query decision_type :
  truthy_str (api_key self) = false ->
  contains "summary" (Py.lower query) || contains "report" (Py.lower query) = true ->
  structure_query chat_completion self query decision_type = Answer report_answer /\
  structured_of report_answer = Some nothing_structured /\
  forall kind, names_of kind nothing_structured = [].
Proof.
  intros Hkey Hwords. split; [|split; [exact structured_of_report_answer|by intros []]].
  unfold structure_query, _call_llm. rewrite Hkey. f_equal.
  unfold _mock_response. cbv zeta.
  assert (contains "summary" (Py.lower (STRUCTURING_PROMPT query decision_type))
          || contains "report" (Py.lower (STRUCTURING_PROMPT query decision_type)) = true)
    as ->; [|done].
  apply orb_true_iff in Hwords as [Hw|Hw]; apply orb_true_iff; [left|right];
    by apply contains_query.
Qed.

(** X17.  Without a key, a query that mentions none of "summary", "report"
    and "example" is answered with the mock relocation structure, the
    cities Berlin and Amsterdam, for every decision type: the template of
    the prompt itself holds the word "relocation". *)
Theorem mock_structure_ignores_type self query kind :
  truthy_str (api_key self) = false ->
  plain_query query ->
  structure_query chat_completion self query (DecisionType_value kind)
  = Answer relocation_answer /\
  structured_of relocation_answer = Some berlin_or_amsterdam.
Proof.
  intros Hkey (Hsummary & Hreport & Hexample).
  split; [|exact structured_of_relocation_answer].
  rewrite structure_query_mock by done.
  by rewrite mock_structuring, Hsummary, Hreport, Hexample.
Qed.


(** X19.  Without a key the report does not depend on the query, on the
    simulation results or on the decision type: it is always the same mock
    report. *)
Theorem mock_report_is_constant self query results decision_type :
  truthy_str (api_key self) = false ->
  generate_report chat_completion self query results decision_type
  = Answer report_answer.
Proof.
  intros Hkey. unfold generate_report, _call_llm. rewrite Hkey. f_equal.
  unfold _mock_response. cbv zeta.
  match goal with
  | |- (if contains "summary" ?p || _ then _ else _) = _ =>
      assert (contains "summary" p = true) as ->; [|done]
  end.
  unfold REPORT_PROMPT. rewrite !lower_app.
  do 6 apply contains_app_r. vm_compute. reflexivity.
Qed.


(** X21.  Steps 1 to 3 of the endpoint without a key, for a relocation, a
    valid input whose query mentions neither "summary" nor "report", and a
    serviceable session: whatever the query, the simulation compares
    Berlin and Amsterdam, on a salary of 80000, with the yearly costs and
    the tax rates of the mock tables of the data service. *)
Theorem mock_pipeline_relocation sqrt self input until s now g :
  truthy_str (api_key self) = false ->
  Schemas.validates input ->
  contains "summary" (Py.lower (Schemas.query input)) = false ->
  contains "report" (Py.lower (Schemas.query input)) = false ->
  serviceable until s ->
  (readings s + 8 <= until)%nat ->
  exists ext s' out g',
    structure_query chat_completion self (Schemas.query input)
                    (DecisionType_value RELOCATION) = Answer relocation_answer /\
    structured_of relocation_answer = Some berlin_or_amsterdam /\
    fetch_external_data RELOCATION berlin_or_amsterdam s = Done ext s' /\
    run_simulation sqrt (engine_of input) RELOCATION berlin_or_amsterdam ext now g
    = Return (out, g') /\
    dom (projections out) = ({[ "Berlin"; "Amsterdam" ]} : gset string) /\
    projections out !! "Berlin"
    = Some (relocation_projection (engine_of input) 80000 (2036 * 12)%Q (35 # 100)%Q) /\
    projections out !! "Amsterdam"
    = Some (relocation_projection (engine_of input) 80000 (2730 * 12)%Q (38 # 100)%Q).
Proof.
  intros Hkey Hvalid Hsummary Hreport Hs Hr.
  destruct (relocation_via_service sqrt (engine_of input) until berlin_or_amsterdam s now g
              (engine_of_runs input Hvalid) Hs Hr)
    as (ext & s' & out & g' & Hfetch & Hrun & Hdom & Hall).
  exists ext, s', out, g'. split.
  { rewrite structure_query_mock by done.
    rewrite mock_structuring, Hsummary, Hreport. cbn [orb].
    by destruct (negb _). }
  split; [exact structured_of_relocation_answer|]. split; [done|]. split; [done|].
  split.
  { rewrite Hdom. simpl. by rewrite union_empty_r_L. }
  split.
  - rewrite (Hall "Berlin") by (simpl; apply elem_of_cons; by left). reflexivity.
  - rewrite (Hall "Amsterdam")
      by (simpl; apply elem_of_cons; right; apply elem_of_cons; by left).
    reflexivity.
Qed.

End MockModel.

Lemma report_words_divert_structuring_witness :
  (truthy_str (api_key keyless) = false /\
   contains "summary" (Py.lower "A SUMMARY of Oslo and Rome")
   || contains "report" (Py.lower "A SUMMARY of Oslo and Rome") = true) /\
  structure_query unreachable keyless "A SUMMARY of Oslo and Rome" "relocation"
  = Answer report_answer /\
  structured_of report_answer = Some nothing_structured /\
  forall kind, names_of kind nothing_structured = [].
Proof.
  split; [split; reflexivity|].
  exact (report_words_divert_structuring unreachable keyless
           "A SUMMARY of Oslo and Rome" "relocation" eq_refl eq_refl).
Defined.

Lemma plain_query_stocks : plain_query "Stocks or bonds".
Proof. split_and!; vm_compute; reflexivity. Qed.

Lemma mock_structure_ignores_type_witness :
  (truthy_str (api_key keyless) = false /\ plain_query "Stocks or bonds") /\
  structure_query unreachable keyless "Stocks or bonds" (DecisionType_value INVESTMENT)
  = Answer relocation_answer /\
  structured_of relocation_answer = Some berlin_or_amsterdam.
Proof.
  split; [split; [reflexivity|exact plain_query_stocks]|].
  exact (mock_structure_ignores_type unreachable keyless "Stocks or bonds" INVESTMENT
           eq_refl plain_query_stocks).
Defined.


Lemma mock_report_is_constant_witness :
  truthy_str (api_key keyless) = false /\
  generate_report unreachable keyless "Oslo or Rome" "{}" None = Answer report_answer.
Proof.
  split; [reflexivity|].
  exact (mock_report_is_constant unreachable keyless "Oslo or Rome" "{}" None eq_refl).
Defined.


Lemma input_of_validates : Schemas.validates (input_of "Oslo or Rome").
Proof. unfold Schemas.validates. simpl. lia. Qed.

Lemma mock_pipeline_relocation_witness :
  (truthy_str (api_key keyless) = false /\
   Schemas.validates (input_of "Oslo or Rome") /\
   contains "summary" (Py.lower (Schemas.query (input_of "Oslo or Rome"))) = false /\
   contains "report" (Py.lower (Schemas.query (input_of "Oslo or Rome"))) = false /\
   serviceable 8 empty_session /\
   (readings empty_session + 8 <= 8)%nat) /\
  exists ext s' out g',
    structure_query unreachable keyless (Schemas.query (input_of "Oslo or Rome"))
                    (DecisionType_value RELOCATION) = Answer relocation_answer /\
    structured_of relocation_answer = Some berlin_or_amsterdam /\
    fetch_external_data RELOCATION berlin_or_amsterdam empty_session = Done ext s' /\
    run_simulation sqrt_floor (engine_of (input_of "Oslo or Rome")) RELOCATION
      berlin_or_amsterdam ext "2026-01-01" (constant_rng 0) = Return (out, g') /\
    dom (projections out) = ({[ "Berlin"; "Amsterdam" ]} : gset string) /\
    projections out !! "Berlin"%string
    = Some (relocation_projection (engine_of (input_of "Oslo or Rome")) 80000
              (2036 * 12)%Q (35 # 100)%Q) /\
    projections out !! "Amsterdam"%string
    = Some (relocation_projection (engine_of (input_of "Oslo or Rome")) 80000
              (2730 * 12)%Q (38 # 100)%Q).
Proof.
  assert (readings empty_session + 8 <= 8)%nat as Hr by (simpl; lia).
  split; [split_and!; [reflexivity|exact input_of_validates|reflexivity|reflexivity|
                       exact empty_session_serviceable|exact Hr]|].
  exact (mock_pipeline_relocation unreachable sqrt_floor keyless (input_of "Oslo or Rome")
           8 empty_session "2026-01-01" (constant_rng 0)
           eq_refl input_of_validates eq_refl eq_refl empty_session_serviceable Hr).
Defined.

(** * The periodic cleanup of the cache *)

Lemma cleanup_old_cache_spec s :
  exists s1,
    cleanup_old_cache s = Done () s1 /\
    clock s1 = clock s /\ readings s1 = S (readings s) /\
    forall key cached,
      cached_data s1 !! key = Some cached <->
      cached_data s !! key = Some cached /\ next_reading s <= expires_at cached.
Proof.
  eexists. split; [reflexivity|]. simpl. split; [done|]. split; [done|].
  intros key cached. rewrite map_lookup_filter_Some. simpl. unfold next_reading.
  split; intros [Hrow Hexp]; (split; [done|lia]).
Qed.

Lemma cleanup_then_lookup s city :
  exists s1,
    cleanup_old_cache s = Done () s1 /\
    (DataService.get_cost_of_living city s1 = IntegrityError <->
     exists cached,
       cached_data s !! ("col_" +:+ Py.lower city) = Some cached /\
       next_reading s <= expires_at cached /\ unusable (next_reading s1) cached).
Proof.
  destruct (cleanup_old_cache_spec s) as (s1 & Hclean & _ & _ & Hrows).
  exists s1. split; [done|].
  unfold DataService.get_cost_of_living. rewrite cached_or_raises. split.
  - intros (cached & Hrow & Hun). apply Hrows in Hrow as [Hrow Hexp]. by exists cached.
  - intros (cached & Hrow & Hexp & Hun). exists cached. split; [|done]. by apply Hrows.
Qed.

(** X23.  [cleanup_old_cache] never raises and deletes exactly the rows that
    expired strictly before its reading of the clock.  A lookup after it
    still raises on a row that expires between the instant of the cleanup
    and the instant of the lookup, both included, or that holds an empty
    dict: the cleanup compares with [<] and the lookup with [>], so a row
    that expires at the very instant of both is neither deleted nor
    served. *)
Theorem cleanup_leaves_rows_due s city :
  exists s1,
    cleanup_old_cache s = Done () s1 /\
    (forall key cached,
       cached_data s1 !! key = Some cached <->
       cached_data s !! key = Some cached /\ next_reading s <= expires_at cached) /\
    (DataService.get_cost_of_living city s1 = IntegrityError <->
     exists cached,
       cached_data s !! ("col_" +:+ Py.lower city) = Some cached /\
       next_reading s <= expires_at cached /\ unusable (next_reading s1) cached).
Proof.
  destruct (cleanup_old_cache_spec s) as (s1 & Hclean & _ & _ & Hrows).
  destruct (cleanup_then_lookup s city) as (s1' & Hclean' & Hraise).
  assert (s1' = s1) as -> by congruence.
  by exists s1.
Qed.

(** A row that expires at the instant of the cleanup and of the lookup. *)
Example cleanup_at_the_expiry :
  (_ ← cleanup_old_cache; DataService.get_cost_of_living "Oslo") boundary_session
  = IntegrityError.
Proof.
  destruct (cleanup_then_lookup boundary_session "Oslo") as (s1 & Hclean & Hraise).
  unfold mbind, DB_bind. rewrite Hclean. apply Hraise.
  eexists. split; [reflexivity|]. split; [simpl; lia|].
  left. injection Hclean as <-. simpl. lia.
Qed.
